(** * OpenHub: a shallow embedding of the request front ends, the
      repository and credential stores and the replication handshake.

    The Go sources embedded here are
    - [internal/git/http.go] and the shell transport that follows it,
    - [internal/server/server.go] with the storage package that follows it,
    - [internal/replication/replication.go] with the auth package that
      follows it,
    - the admin command line ([adminAddReplica]).

    Go strings are byte sequences: they are modelled by [string], whose
    characters are the 8-bit [ascii].  The file system is a finite map from
    (owner, name) to the content of the bare directory, the users directory
    a finite map from file stem to file content.  Everything the Go code
    obtains from outside the process (the repository engine, the clock,
    the random source, I/O failures, the peer's HTTP answer) is read from
    an environment record. *)

From Stdlib Require Import ZArith Ascii String List Bool Lia.
From stdpp Require Import base option list gmap strings sorting.

Local Open Scope string_scope.
Local Open Scope Z_scope.

(** ** Go's [strings] and [path] helpers used by the sources *)

Module GoStrings.

(** [len(s)] *)
Definition len (s : string) : nat := String.length s.

(** [s[n:]] (for [n <= len(s)]). *)
Fixpoint drop (n : nat) (s : string) : string :=
  match n, s with
  | O, _ => s
  | S n', String _ t => drop n' t
  | S _, EmptyString => EmptyString
  end.

(** [s[:n]] (for [n <= len(s)]). *)
Fixpoint take (n : nat) (s : string) : string :=
  match n, s with
  | O, _ => EmptyString
  | S n', String c t => String c (take n' t)
  | S _, EmptyString => EmptyString
  end.

(** [strings.HasPrefix]: [len(s) >= len(prefix) && s[:len(prefix)] == prefix]. *)
Definition HasPrefix (s p : string) : bool :=
  (len p <=? len s)%nat && String.eqb (take (len p) s) p.

(** [strings.HasSuffix]: [len(s) >= len(suffix) && s[len(s)-len(suffix):] == suffix]. *)
Definition HasSuffix (s suf : string) : bool :=
  (len suf <=? len s)%nat && String.eqb (drop (len s - len suf) s) suf.

Definition TrimPrefix (s p : string) : string :=
  if HasPrefix s p then drop (len p) s else s.

Definition TrimSuffix (s suf : string) : string :=
  if HasSuffix s suf then take (len s - len suf) s else s.

(** [strings.Split(s, sep)] for a one-byte separator (the sources only
    split on "/").  Splitting the empty string gives one empty element. *)
Fixpoint Split (s : string) (sep : ascii) : list string :=
  match s with
  | EmptyString => [EmptyString]
  | String c t =>
      if Ascii.eqb c sep then EmptyString :: Split t sep
      else match Split t sep with
           | h :: r => String c h :: r
           | [] => [String c EmptyString]
           end
  end.

(** [strings.SplitN(s, sep, 2)] for a one-byte separator: cut at the
    first separator, if there is one. *)
Fixpoint SplitN2 (s : string) (sep : ascii) : list string :=
  match s with
  | EmptyString => [EmptyString]
  | String c t =>
      if Ascii.eqb c sep then [EmptyString; t]
      else match SplitN2 t sep with
           | h :: r => String c h :: r
           | [] => [String c EmptyString]
           end
  end.

(** The ASCII white space of [unicode.IsSpace]: tab, line feed, vertical
    tab, form feed, carriage return, space.  The white space outside ASCII
    (U+0085, U+00A0 and the Unicode space separators) is left out: a
    command that contains it is split on its ASCII white space only. *)
Definition isSpace (c : ascii) : bool :=
  let n := nat_of_ascii c in
  ((9 <=? n) && (n <=? 13))%nat || (n =? 32)%nat.

Fixpoint Fields_go (s : string) : string * list string :=
  match s with
  | EmptyString => (EmptyString, [])
  | String c t =>
      let '(cur, rest) := Fields_go t in
      if isSpace c
      then (EmptyString, if String.eqb cur EmptyString then rest else cur :: rest)
      else (String c cur, rest)
  end.

(** [strings.Fields]: the maximal runs of non-space bytes. *)
Definition Fields (s : string) : list string :=
  let '(cur, rest) := Fields_go s in
  if String.eqb cur EmptyString then rest else cur :: rest.

Fixpoint inCutset (c : ascii) (cutset : string) : bool :=
  match cutset with
  | EmptyString => false
  | String d t => Ascii.eqb c d || inCutset c t
  end.

Fixpoint TrimLeft (s cutset : string) : string :=
  match s with
  | EmptyString => EmptyString
  | String c t => if inCutset c cutset then TrimLeft t cutset else s
  end.

Fixpoint TrimRight (s cutset : string) : string :=
  match s with
  | EmptyString => EmptyString
  | String c t =>
      let t' := TrimRight t cutset in
      if String.eqb t' EmptyString && inCutset c cutset
      then EmptyString else String c t'
  end.

(** [strings.Trim(s, cutset)] for an ASCII cutset. *)
Definition Trim (s cutset : string) : string :=
  TrimRight (TrimLeft s cutset) cutset.

(** [strings.Contains(s, substr)] *)
Fixpoint Contains (s sub : string) : bool :=
  HasPrefix s sub ||
  match s with
  | EmptyString => false
  | String _ t => Contains t sub
  end.

Fixpoint Join (l : list string) (sep : string) : string :=
  match l with
  | [] => EmptyString
  | [x] => x
  | x :: r => x ++ sep ++ Join r sep
  end.

(** One element of the path, against the stack of elements kept so far
    (innermost first). *)
Definition clean_step (rooted : bool) (stack : list string) (seg : string)
  : list string :=
  if String.eqb seg EmptyString || String.eqb seg "." then stack
  else if String.eqb seg ".." then
    match stack with
    | top :: below =>
        if String.eqb top ".." then seg :: stack else below
    | [] => if rooted then [] else [seg]
    end
  else seg :: stack.

(** [path.Clean]: collapse slashes, drop "." elements, resolve inner
    ".." elements, drop ".." at the root; the empty result is ".". *)
Definition Clean (p : string) : string :=
  let rooted := HasPrefix p "/" in
  let stack := fold_left (clean_step rooted) (Split p "/") [] in
  let out := (if rooted then "/" else EmptyString) ++ Join (rev stack) "/" in
  if String.eqb out EmptyString then "." else out.

End GoStrings.

(** ** Name validation ([isValidName], server.go) *)

Module Names.
Import GoStrings.

Definition byte_val (c : ascii) : Z := Z.of_N (N_of_ascii c).

(** [utf8.RuneError] *)
Definition RuneError : Z := 65533.

Definition in_range (lo hi v : Z) : bool := (lo <=? v) && (v <=? hi).

(** The accept range of the second byte for a lead byte [s0]
    ([utf8.acceptRanges] through [utf8.first]). *)
Definition accept_lo (s0 : Z) : Z :=
  if s0 =? 224 then 160 else if s0 =? 240 then 144 else 128.
Definition accept_hi (s0 : Z) : Z :=
  if s0 =? 237 then 159 else if s0 =? 244 then 143 else 191.

(** The number of bytes the lead byte announces; 0 for a byte that
    cannot start an encoding (0x80..0xC1 and 0xF5..0xFF). *)
Definition lead_size (s0 : Z) : nat :=
  if in_range 194 223 s0 then 2
  else if in_range 224 239 s0 then 3
  else if in_range 240 244 s0 then 4
  else 0.

(** [utf8.DecodeRuneInString] on the string [String c t]: the rune and
    its width in bytes.  The masks [s0 & 0x1F], [s1 & 0x3F] and the
    shifts are written with [mod] and multiplication. *)
Definition DecodeRune (c : ascii) (t : string) : Z * nat :=
  let s0 := byte_val c in
  if s0 <? 128 then (s0, 1%nat)
  else
    match lead_size s0, t with
    | 2%nat, String c1 _ =>
        let s1 := byte_val c1 in
        if in_range (accept_lo s0) (accept_hi s0) s1
        then ((s0 mod 32) * 64 + s1 mod 64, 2%nat)
        else (RuneError, 1%nat)
    | 3%nat, String c1 (String c2 _) =>
        let s1 := byte_val c1 in
        let s2 := byte_val c2 in
        if in_range (accept_lo s0) (accept_hi s0) s1 && in_range 128 191 s2
        then ((s0 mod 16) * 4096 + (s1 mod 64) * 64 + s2 mod 64, 3%nat)
        else (RuneError, 1%nat)
    | 4%nat, String c1 (String c2 (String c3 _)) =>
        let s1 := byte_val c1 in
        let s2 := byte_val c2 in
        let s3 := byte_val c3 in
        if in_range (accept_lo s0) (accept_hi s0) s1
           && in_range 128 191 s2 && in_range 128 191 s3
        then ((s0 mod 8) * 262144 + (s1 mod 64) * 4096
              + (s2 mod 64) * 64 + s3 mod 64, 4%nat)
        else (RuneError, 1%nat)
    | _, _ => (RuneError, 1%nat)
    end.

(** The runes a [for _, c := range s] loop visits: [skip] counts the
    bytes still covered by the rune decoded last. *)
Fixpoint runes_from (skip : nat) (s : string) : list Z :=
  match s with
  | EmptyString => []
  | String c t =>
      match skip with
      | S k => runes_from k t
      | O => let '(r, w) := DecodeRune c t in r :: runes_from (Nat.pred w) t
      end
  end.

Definition runes (s : string) : list Z := runes_from 0 s.

(** The test of the loop body:
    [(c >= 'a' && c <= 'z') || (c >= 'A' && c <= 'Z') ||
     (c >= '0' && c <= '9') || c == '-' || c == '_' || c == '.'] *)
Definition allowed (c : Z) : bool :=
  ((97 <=? c) && (c <=? 122)) || ((65 <=? c) && (c <=? 90))
  || ((48 <=? c) && (c <=? 57)) || (c =? 45) || (c =? 95) || (c =? 46).

Definition isValidName (name : string) : bool :=
  if String.eqb name EmptyString || (100 <? len name)%nat then false
  else if negb (forallb allowed (runes name)) then false
  else negb (HasPrefix name ".") && negb (HasSuffix name ".").

(** The bytes of a string, as numbers. *)
Definition bytes (s : string) : list Z := map byte_val (list_ascii_of_string s).

(** *** The rule of the data model, in the words of the specification *)






End Names.
(** ** The data model (package storage, package auth, package replication) *)

(** [time.Time], as a number of nanoseconds; [time.Time{}] is [zero_time]. *)
Definition Time : Type := Z.
Definition zero_time : Time := 0.

(** Go's [(T, error)] results; an [error] is its message. *)
Inductive result (A : Type) : Type :=
| Ok (a : A)
| Err (msg : string).
Arguments Ok {A} a.
Arguments Err {A} msg.

Module ReplicaSource.
Record t : Type := Build
  { InstanceID : string;
    InvitationKey : string }.
End ReplicaSource.

Module Replica.
Record t : Type := Build
  { InstanceID : string;
    URL : string;
    Token : string;
    InvitationKey : string;
    Enabled : bool;
    LastSynced : Time }.
End Replica.

Module Metadata.
Record t : Type := Build
  { Description : string;
    Private : bool;
    DefaultBranch : string;
    CreatedAt : Time;
    Replicas : list Replica.t;
    ReplicaOf : option ReplicaSource.t }.

Definition with_ReplicaOf (m : t) (r : option ReplicaSource.t) : t :=
  Build (Description m) (Private m) (DefaultBranch m) (CreatedAt m)
        (Replicas m) r.

Definition with_Replicas (m : t) (l : list Replica.t) : t :=
  Build (Description m) (Private m) (DefaultBranch m) (CreatedAt m)
        l (ReplicaOf m).
End Metadata.

Module APIToken.
Record t : Type := Build
  { Name : string;
    Token : string;
    CreatedAt : Time }.
End APIToken.

Module SSHKey.
Record t : Type := Build
  { Name : string;
    Key : string;
    AddedAt : Time }.
End SSHKey.

Module User.
Record t : Type := Build
  { Username : string;
    SSHKeys : list SSHKey.t;
    APITokens : list APIToken.t;
    CreatedAt : Time }.
End User.

Module Job.
Record t : Type := Build
  { Owner : string;
    Repo : string }.
End Job.

(** *** The persisted state *)

(** The objects and references of a bare repository.  Only the engine
    reads or writes them. *)
Definition GitData : Type := string.

(** [openhub.json] inside a bare directory. *)
Inductive MetaFile : Type :=
| MetaMissing                       (* os.IsNotExist *)
| MetaReadError (why : string)      (* os.ReadFile fails otherwise *)
| MetaBadJSON (why : string)        (* json.Unmarshal fails *)
| MetaDoc (m : Metadata.t).

Record RepoDir : Type := MkRepoDir
  { git_data : GitData;
    openhub_json : MetaFile }.

(** [users/<username>.json] *)
Inductive UserFile : Type :=
| UserReadError (why : string)
| UserBadJSON (why : string)
| UserDoc (u : User.t).

(** [instance.json] *)
Inductive InstanceFile : Type :=
| InstanceUnreadable                (* os.ReadFile fails: a new identity is made *)
| InstanceBadJSON (why : string)
| InstanceDoc (id : string).

(** The state of one deployment: the directories under the storage root
    and the channel of the replication manager.  A key of [repos] is the
    pair a path [<root>/<owner>/<name>.git] is built from, a key of [users]
    the stem of a file [<root>/users/<stem>.json].  The maps stand for the
    directories on names that are single path segments, as all names that
    pass [isValidName] are: [filepath.Join] cleans what it joins, so a name
    with a separator or a dot segment in it ("x/../foo") reaches the
    directory of another key.  What is proved of the stores for names the
    code does not validate first is therefore stated for valid names. *)
Record World : Type := MkWorld
  { repos : gmap (string * string) RepoDir;
    users : gmap string UserFile;
    instance_json : InstanceFile;
    queue : list Job.t }.

Definition set_repos (w : World) (r : gmap (string * string) RepoDir) : World :=
  MkWorld r (users w) (instance_json w) (queue w).
Definition set_users (w : World) (u : gmap string UserFile) : World :=
  MkWorld (repos w) u (instance_json w) (queue w).
Definition set_instance (w : World) (i : InstanceFile) : World :=
  MkWorld (repos w) (users w) i (queue w).
Definition set_queue (w : World) (q : list Job.t) : World :=
  MkWorld (repos w) (users w) (instance_json w) q.

(** *** What a handler does to the outside: the trace *)

Inductive Event : Type :=
| EvStat (owner name : string)          (* os.Stat(RepoPath(owner, name)) *)
| EvReadMeta (owner name : string)      (* os.ReadFile(metadataPath(owner, name)) *)
| EvWriteMeta (owner name : string)     (* os.WriteFile(metadataPath(owner, name)) *)
| EvMkdirOwner (owner name : string)    (* os.MkdirAll(filepath.Dir(RepoPath(owner, name))) *)
| EvExec (argv : list string) (owner name : string)
                                        (* exec.Command on the bare directory *)
| EvWriteTemp (path : string)           (* os.WriteFile of the temporary bundle *)
| EvRemoveTemp (path : string)          (* the deferred os.Remove *)
| EvReadUsersDir                        (* os.ReadDir(<root>/users) *)
| EvReadUser (username : string)        (* os.ReadFile(userPath(username)) *)
| EvWriteUser (username : string)       (* os.WriteFile(userPath(username)) *)
| EvReadInstance
| EvWriteInstance
| EvHTTPPost (url : string)             (* an outgoing request *)
| EvQueued (owner repo : string)        (* the job was sent on the channel *)
| EvDropped (owner repo : string).      (* the channel was full *)

(** The (owner, name) pair a file-system operation or an engine spawn is
    performed with. *)
Definition event_repo (e : Event) : option (string * string) :=
  match e with
  | EvStat o n | EvReadMeta o n | EvWriteMeta o n | EvMkdirOwner o n
  | EvExec _ o n => Some (o, n)
  | _ => None
  end.

(** *** The environment *)

(** What became of a spawned process. *)
Inductive ExecResult : Type :=
| NotStarted (why : string)
    (* cmd.Start fails *)
| Exited (err : option string) (stdout : string) (after : GitData).
    (* the process ran; [err] is the error of cmd.Wait, if any *)

(** The answer of a peer to [http.Post], as the admin tool reads it. *)
Inductive PeerAnswer : Type :=
| PeerUnreachable (why : string)        (* http.Post fails *)
| PeerUnreadable (why : string)         (* io.ReadAll fails *)
| PeerBadJSON (why : string)            (* json.Unmarshal fails *)
| PeerJSON (success : option bool) (error : option string).
    (* result["success"].(bool) and result["error"].(string), when present *)

Record Env : Type := MkEnv
  { (** the storage root *)
    basePath : string;
    (** [os.TempDir()] *)
    tempDir : string;
    (** [time.Now()] *)
    now : Time;
    (** the engine: argv, the bytes it reads, the repository before *)
    exec_engine : list string -> string -> GitData -> ExecResult;
    (** the error of [os.WriteFile] on a path, if it fails *)
    write_file_err : string -> option string;
    (** the error of [os.MkdirAll] on a path, if it fails *)
    mkdir_err : string -> option string;
    (** the error of [os.ReadDir] on the users directory, if it fails *)
    read_dir_err : option string;
    (** [base64.StdEncoding.DecodeString] *)
    base64_decode : string -> result string;
    (** [gzip.NewReader] accepts the header / the bytes read through it *)
    gzip_header_err : string -> option string;
    gunzip : string -> string;
    (** [rand.Read] then [hex.EncodeToString], for the n-th draw *)
    rand_hex : nat -> result string;
    (** [uuid.New().String()] *)
    new_uuid : string;
    (** the peer behind a URL, for a request body *)
    http_post : string -> list (string * string) -> PeerAnswer }.

(** *** Handlers: state passing with a trace *)

(** A handler reads and writes the world and logs what it does; it cannot
    read the log. *)
Definition M (A : Type) : Type := World -> A * World * list Event.

Definition ret {A} (a : A) : M A := fun w => (a, w, []).
Definition bind {A B} (m : M A) (f : A -> M B) : M B :=
  fun w =>
    let r1 := m w in
    let r2 := f (fst (fst r1)) (snd (fst r1)) in
    (fst (fst r2), snd (fst r2), (snd r1 ++ snd r2)%list).
Definition get_world : M World := fun w => (w, w, []).
Definition put_world (w : World) : M unit := fun _ => (tt, w, []).
Definition emit (e : Event) : M unit := fun w => (tt, w, [e]).

Declare Scope go_scope.
Delimit Scope go_scope with go.
Notation "'let*' x ':=' c 'in' k" := (bind c (fun x => k))
  (at level 10, x pattern, c at level 100, k at level 200) : go_scope.
Notation "'do' c 'in' k" := (bind c (fun _ => k))
  (at level 10, c at level 100, k at level 200) : go_scope.

(** Run a handler on a world: its answer, the world after, what it did. *)
Definition run {A} (m : M A) (w : World) : A * World * list Event := m w.

Definition answer {A} (r : A * World * list Event) : A := fst (fst r).
Definition after {A} (r : A * World * list Event) : World := snd (fst r).
Definition log {A} (r : A * World * list Event) : list Event := snd r.

Local Open Scope go_scope.

(** ** package storage *)

Module Storage.
Section WithEnv.
Variable env : Env.

(** [filepath.Join(s.basePath, owner, name+".git")].  The names are
    joined as they are: the cleaning [filepath.Join] adds is the
    identity on names that pass [isValidName]. *)
Definition RepoPath (owner name : string) : string :=
  basePath env ++ "/" ++ owner ++ "/" ++ name ++ ".git".

Definition metadataPath (owner name : string) : string :=
  RepoPath owner name ++ "/openhub.json".

(** [info, err := os.Stat(path); return err == nil && info.IsDir()] *)
Definition RepoExists (owner name : string) : M bool :=
  do emit (EvStat owner name) in
  let* w := get_world in
  ret (bool_decide (is_Some (repos w !! (owner, name)))).

Definition defaultMetadata (created : Time) : Metadata.t :=
  Metadata.Build EmptyString false "main" created [] None.

(** What [os.ReadFile] and [json.Unmarshal] make of the metadata file: a
    missing file reads as the defaults. *)
Definition readMetaFile (f : MetaFile) : result Metadata.t :=
  match f with
  | MetaMissing => Ok (defaultMetadata zero_time)
  | MetaReadError why => Err ("read metadata: " ++ why)
  | MetaBadJSON why => Err ("unmarshal metadata: " ++ why)
  | MetaDoc m => Ok m
  end.

(** [if !s.RepoExists(owner, name) { return meta, fmt.Errorf(...) }],
    then the file is read. *)
Definition GetMetadata (owner name : string) : M (result Metadata.t) :=
  let* ex := RepoExists owner name in
  if negb ex then
    ret (Err ("repo does not exist: " ++ owner ++ "/" ++ name))
  else
    do emit (EvReadMeta owner name) in
    let* w := get_world in
    ret (readMetaFile
           (default MetaMissing (openhub_json <$> repos w !! (owner, name)))).

(** The document replaces the file as a whole.  A write that fails
    leaves the file as it was. *)
Definition SetMetadata (owner name : string) (meta : Metadata.t)
  : M (option string) :=
  let* ex := RepoExists owner name in
  if negb ex then
    ret (Some ("repo does not exist: " ++ owner ++ "/" ++ name))
  else
    do emit (EvWriteMeta owner name) in
    match write_file_err env (metadataPath owner name) with
    | Some why => ret (Some ("write metadata: " ++ why))
    | None =>
        let* w := get_world in
        do put_world
             (set_repos w (alter (fun d => MkRepoDir (git_data d) (MetaDoc meta))
                                 (owner, name) (repos w))) in
        ret None
    end.

Definition CreateRepo (owner name : string) : M (option string) :=
  let path := RepoPath owner name in
  let* ex := RepoExists owner name in
  if ex then
    ret (Some ("repo already exists: " ++ owner ++ "/" ++ name))
  else
    do emit (EvMkdirOwner owner name) in
    match mkdir_err env (basePath env ++ "/" ++ owner) with
    | Some why => ret (Some ("create owner dir: " ++ why))
    | None =>
        do emit (EvExec ["git"; "init"; "--bare"; path] owner name) in
        match exec_engine env ["git"; "init"; "--bare"; path]
                          EmptyString EmptyString with
        | NotStarted why => ret (Some ("git init: " ++ why))
        | Exited (Some why) _ _ => ret (Some ("git init: " ++ why))
        | Exited None _ fresh =>
            let* w := get_world in
            do put_world
                 (set_repos w (<[(owner, name) :=
                                   MkRepoDir fresh MetaMissing]>
                                 (repos w))) in
            let* err := SetMetadata owner name
                          (Metadata.Build EmptyString false "main"
                                          (now env) [] None) in
            match err with
            | Some why => ret (Some ("set metadata: " ++ why))
            | None => ret None
            end
        end
    end.

End WithEnv.
End Storage.

(** ** package auth *)

Module Auth.
Section WithEnv.
Variable env : Env.

(** [filepath.Join(a.basePath, "users", username+".json")], joined as it
    is: see [Storage.RepoPath]. *)
Definition userPath (username : string) : string :=
  basePath env ++ "/users/" ++ username ++ ".json".

Definition GetUser (username : string) : M (result User.t) :=
  do emit (EvReadUser username) in
  let* w := get_world in
  match users w !! username with
  | None => ret (Err ("user not found: " ++ username))
  | Some (UserReadError why) => ret (Err ("read user: " ++ why))
  | Some (UserBadJSON why) => ret (Err ("unmarshal user: " ++ why))
  | Some (UserDoc u) => ret (Ok u)
  end.

Definition saveUser (user : User.t) : M (option string) :=
  do emit (EvWriteUser (User.Username user)) in
  match write_file_err env (userPath (User.Username user)) with
  | Some why => ret (Some ("write user: " ++ why))
  | None =>
      let* w := get_world in
      do put_world
           (set_users w (<[User.Username user := UserDoc user]> (users w))) in
      ret None
  end.

Definition CreateUserWithToken (username tokenName token : string)
  : M (option string) :=
  let* r := GetUser username in
  match r with
  | Ok _ => ret (Some ("user already exists: " ++ username))
  | Err _ =>
      saveUser (User.Build username []
                  [APIToken.Build tokenName token (now env)] (now env))
  end.

(** The order of [os.ReadDir]: by file name. *)
Definition file_le (a b : string) : Prop :=
  String.leb (a ++ ".json") (b ++ ".json") = true.

#[global] Instance file_le_dec a b : Decision (file_le a b).
Proof. unfold file_le. apply _. Defined.

(** The stems of the entries of the users directory, in the order the
    loop visits them.  The directory holds the files [saveUser] wrote:
    [<username>.json], no subdirectory. *)
Definition dir_entries (u : gmap string UserFile) : list string :=
  merge_sort file_le (fst <$> map_to_list u).

(** [for _, t := range user.APITokens { if t.Token == token ... }] *)
Definition has_token (u : User.t) (token : string) : bool :=
  existsb (fun t => String.eqb (APIToken.Token t) token) (User.APITokens u).

Fixpoint scan_users (entries : list string) (token : string)
  : M (result string) :=
  match entries with
  | [] => ret (Err "invalid token")
  | username :: rest =>
      let* r := GetUser username in
      match r with
      | Err _ => scan_users rest token
      | Ok user =>
          if has_token user token then ret (Ok (User.Username user))
          else scan_users rest token
      end
  end.

Definition ValidateAPIToken (token : string) : M (result string) :=
  do emit EvReadUsersDir in
  match read_dir_err env with
  | Some why => ret (Err ("read users dir: " ++ why))
  | None =>
      let* w := get_world in
      scan_users (dir_entries (users w)) token
  end.

End WithEnv.
End Auth.

(** ** package replication: the job channel *)

Module Replication.

(** [make(chan Job, 100)] *)
Definition capacity : nat := 100.

(** [select { case m.queue <- job: default: log.Printf(...) }] *)
Definition Queue (owner repo : string) : M unit :=
  let* w := get_world in
  if (List.length (queue w) <? capacity)%nat then
    do put_world (set_queue w (queue w ++ [Job.Build owner repo])) in
    emit (EvQueued owner repo)
  else
    emit (EvDropped owner repo).

End Replication.

(** ** net/http and os/exec, as far as the handlers use them *)

Module HTTP.

Definition StatusOK : nat := 200.
Definition StatusBadRequest : nat := 400.
Definition StatusUnauthorized : nat := 401.
Definition StatusForbidden : nat := 403.
Definition StatusNotFound : nat := 404.
Definition StatusMethodNotAllowed : nat := 405.
Definition StatusConflict : nat := 409.
Definition StatusInternalServerError : nat := 500.

(** A request of the Git transport. *)
Record Request : Type := MkRequest
  { Method : string;
    URLPath : string;                       (* r.URL.Path *)
    QueryService : string;                  (* r.URL.Query().Get("service") *)
    BasicAuth : option (string * string);   (* r.BasicAuth(), when ok *)
    ContentEncoding : string;               (* r.Header.Get("Content-Encoding") *)
    Body : string }.

(** A request of the management API; the body is given as the JSON decoder
    reads it, [None] when [Decode] fails. *)
Record ApiRequest (B : Type) : Type := MkApiRequest
  { ApiMethod : string;
    Authorization : string;                 (* r.Header.Get("Authorization") *)
    Decoded : option B }.
Arguments MkApiRequest {B}.
Arguments ApiMethod {B}.
Arguments Authorization {B}.
Arguments Decoded {B}.

Inductive Payload : Type :=
| Plain (text : string)                     (* http.Error *)
| JSON (success : bool) (error : string)    (* the success flag and the error text *)
| Stream (bytes : string).                  (* bytes written by the handler *)

Record Response : Type := MkResponse
  { Status : nat;
    Header : list (string * string);
    Written : Payload }.

Definition nl : string := String (ascii_of_nat 10) EmptyString.

(** [http.Error(w, msg, code)], after the headers [hdr] were set. *)
Definition Error (hdr : list (string * string)) (msg : string) (code : nat)
  : Response :=
  MkResponse code
    (hdr ++ [("Content-Type", "text/plain; charset=utf-8");
             ("X-Content-Type-Options", "nosniff")])
    (Plain (msg ++ nl)).

(** [http.NotFound(w, r)] *)
Definition NotFound : Response := Error [] "404 page not found" StatusNotFound.

End HTTP.

Module Exec.
Section WithEnv.
Variable env : Env.

(** Spawn the engine on the bare directory of (owner, name) and wait for
    it.  Whatever the process did to the repository stays done. *)
Definition spawn (argv : list string) (input : string) (owner name : string)
  : M ExecResult :=
  do emit (EvExec argv owner name) in
  let* w := get_world in
  let before := default EmptyString (git_data <$> repos w !! (owner, name)) in
  match exec_engine env argv input before with
  | NotStarted why => ret (NotStarted why)
  | Exited err out after =>
      do put_world
           (set_repos w (alter (fun d => MkRepoDir after (openhub_json d))
                               (owner, name) (repos w))) in
      ret (Exited err out after)
  end.

End WithEnv.
End Exec.

(** ** package git: the HTTP transport (http.go) *)

Module GitHTTP.
Import GoStrings HTTP.
Section WithEnv.
Variable env : Env.

(** [type HTTPServer struct { storage; validator; mux }]: the server holds
    the repository store and the token validator, nothing else. *)

Definition getAuthenticatedUser (r : Request) : M string :=
  match BasicAuth r with
  | None => ret EmptyString
  | Some (username, password) =>
      if String.eqb username EmptyString || String.eqb password EmptyString
      then ret EmptyString
      else
        let* v := Auth.ValidateAPIToken env password in
        match v with
        | Err _ => ret EmptyString
        | Ok validatedUser =>
            if negb (String.eqb validatedUser username) then ret EmptyString
            else ret username
        end
  end.

Definition parseRepoPath (urlPath : string) : string * string :=
  let urlPath := Clean urlPath in
  let urlPath := TrimPrefix urlPath "/" in
  let urlPath :=
    if HasSuffix urlPath "/info/refs" then TrimSuffix urlPath "/info/refs"
    else urlPath in
  let urlPath :=
    if HasSuffix urlPath "/git-upload-pack"
    then TrimSuffix urlPath "/git-upload-pack" else urlPath in
  let urlPath :=
    if HasSuffix urlPath "/git-receive-pack"
    then TrimSuffix urlPath "/git-receive-pack" else urlPath in
  let urlPath := TrimSuffix urlPath ".git" in
  match Split urlPath "/" with
  | p0 :: p1 :: _ => (p0, p1)
  | _ => (EmptyString, EmptyString)
  end.

Definition challenge : list (string * string) :=
  [("WWW-Authenticate", "Basic realm=" ++ String (ascii_of_nat 34) "Git"
                          ++ String (ascii_of_nat 34) EmptyString)].

(** The access policy shared by both handlers: [None] lets the request
    through, [Some resp] is the refusal. *)
Definition checkAccess (needsWrite : bool) (meta : Metadata.t)
           (username owner : string) : option Response :=
  if needsWrite then
    if bool_decide (Metadata.ReplicaOf meta <> None) then
      Some (Error [] "cannot push: repository is a read-only replica"
                  StatusForbidden)
    else if negb (String.eqb username owner) then
      Some (Error challenge "unauthorized" StatusUnauthorized)
    else None
  else
    if Metadata.Private meta && negb (String.eqb username owner) then
      Some (Error challenge "unauthorized" StatusUnauthorized)
    else None.

Definition hexdigit (n : nat) : ascii :=
  if (n <? 10)%nat then ascii_of_nat (48 + n) else ascii_of_nat (87 + n).

(** [fmt.Sprintf("%04x", n)] for [n < 65536] *)
Definition hex4 (n : nat) : string :=
  String (hexdigit (n / 4096 mod 16))
    (String (hexdigit (n / 256 mod 16))
       (String (hexdigit (n / 16 mod 16))
          (String (hexdigit (n mod 16)) EmptyString))).

Definition handleInfoRefs (r : Request) : M Response :=
  if negb (String.eqb (Method r) "GET") then
    ret (Error [] "method not allowed" StatusMethodNotAllowed)
  else
  let service := QueryService r in
  if negb (String.eqb service "git-upload-pack")
     && negb (String.eqb service "git-receive-pack") then
    ret (Error [] "invalid service" StatusBadRequest)
  else
  let '(owner, repo) := parseRepoPath (URLPath r) in
  if String.eqb owner EmptyString || String.eqb repo EmptyString then
    ret (Error [] "invalid repo path" StatusBadRequest)
  else
  let* ex := Storage.RepoExists owner repo in
  if negb ex then ret NotFound
  else
  let* m := Storage.GetMetadata owner repo in
  match m with
  | Err _ => ret (Error [] "error getting metadata" StatusInternalServerError)
  | Ok meta =>
      let* username := getAuthenticatedUser r in
      let needsWrite := String.eqb service "git-receive-pack" in
      match checkAccess needsWrite meta username owner with
      | Some refusal => ret refusal
      | None =>
          let repoPath := Storage.RepoPath env owner repo in
          let* out := Exec.spawn env
                        [service; "--stateless-rpc"; "--advertise-refs"; repoPath]
                        EmptyString owner repo in
          match out with
          | Exited None out _ =>
              let servicePacket := "# service=" ++ service ++ nl in
              let packetLen := (len servicePacket + 4)%nat in
              ret (MkResponse StatusOK
                     [("Content-Type", "application/x-" ++ service ++ "-advertisement");
                      ("Cache-Control", "no-cache")]
                     (Stream (hex4 packetLen ++ servicePacket ++ "0000" ++ out)))
          | _ => ret (Error [] "internal error" StatusInternalServerError)
          end
      end
  end.

Definition handleGitCommand (r : Request) (service : string) : M Response :=
  if negb (String.eqb (Method r) "POST") then
    ret (Error [] "method not allowed" StatusMethodNotAllowed)
  else
  let '(owner, repo) := parseRepoPath (URLPath r) in
  if String.eqb owner EmptyString || String.eqb repo EmptyString then
    ret (Error [] "invalid repo path" StatusBadRequest)
  else
  let* ex := Storage.RepoExists owner repo in
  if negb ex then ret NotFound
  else
  let* m := Storage.GetMetadata owner repo in
  match m with
  | Err _ => ret (Error [] "error getting metadata" StatusInternalServerError)
  | Ok meta =>
      let* username := getAuthenticatedUser r in
      let needsWrite := String.eqb service "git-receive-pack" in
      match checkAccess needsWrite meta username owner with
      | Some refusal => ret refusal
      | None =>
          let repoPath := Storage.RepoPath env owner repo in
          let gz := String.eqb (ContentEncoding r) "gzip" in
          match (if gz then gzip_header_err env (Body r) else None) with
          | Some _ => ret (Error [] "invalid gzip" StatusBadRequest)
          | None =>
              let body := if gz then gunzip env (Body r) else Body r in
              (* cmd.StdoutPipe() cannot fail on a fresh command; cmd.Start()
                 can *)
              let* out := Exec.spawn env [service; "--stateless-rpc"; repoPath]
                            body owner repo in
              match out with
              | NotStarted _ =>
                  ret (Error [] "internal error" StatusInternalServerError)
              | Exited _ out _ =>
                  (* io.Copy(w, stdout); cmd.Wait() -- the handler returns *)
                  ret (MkResponse StatusOK
                         [("Content-Type", "application/x-" ++ service ++ "-result");
                          ("Cache-Control", "no-cache")]
                         (Stream out))
              end
          end
      end
  end.

Definition handleRequest (r : Request) : M Response :=
  if HasSuffix (URLPath r) "/info/refs" then handleInfoRefs r
  else if HasSuffix (URLPath r) "/git-upload-pack" then
    handleGitCommand r "git-upload-pack"
  else if HasSuffix (URLPath r) "/git-receive-pack" then
    handleGitCommand r "git-receive-pack"
  else ret NotFound.

End WithEnv.
End GitHTTP.

(** ** package git: the shell transport *)

Module GitSSH.
Import GoStrings.

(** [type ReplicationQueue interface { Queue(owner, repo string) }] *)
Record ReplicationQueue : Type := MkReplicationQueue
  { Queue : string -> string -> M unit }.

(** [type SSHServer struct]: the fields the command handler reads.  A nil
    [replQueue] is [None]. *)
Record SSHServer : Type := MkSSHServer
  { port : Z;
    replQueue : option ReplicationQueue }.

(** What the client of a session sees: the bytes on the channel, the bytes
    on its stderr, and the [exit-status] request. *)
Record Outcome : Type := MkOutcome
  { Stdout : string;
    Stderr : string;
    ExitStatus : nat }.

Definition parseRepoPath (path : string) : string * string :=
  let path := TrimPrefix path "/" in
  let path := TrimSuffix path ".git" in
  match Split path "/" with
  | p0 :: p1 :: _ => (p0, p1)
  | _ => (EmptyString, EmptyString)
  end.

(** The cutset of [strings.Trim(parts[1], ...)]: both quote characters. *)
Definition quotes : string :=
  String "'"%char (String (ascii_of_nat 34) EmptyString).

Definition refuse (msg : string) : Outcome :=
  MkOutcome EmptyString (msg ++ HTTP.nl) 1.

(** The [if needsWrite { ... } else { ... }] block: [Some msg] is the
    refusal written to stderr. *)
Definition checkAccess (needsWrite : bool) (meta : Metadata.t)
           (username owner : string) : option string :=
  if needsWrite then
    if bool_decide (Metadata.ReplicaOf meta <> None) then
      Some "permission denied: repository is a read-only replica"
    else if negb (String.eqb username owner) then
      Some "permission denied: only owner can push"
    else None
  else
    if Metadata.Private meta && negb (String.eqb username owner) then
      Some "permission denied: private repository"
    else None.

Section WithEnv.
Variable env : Env.
Variable s : SSHServer.

(** [command] is the payload of the exec request, [input] the bytes the
    client sends on the channel. *)
Definition handleGitCommand (input command username : string) : M Outcome :=
  match Fields command with
  | gitCmd :: arg :: _ =>
      let repoPath := Trim arg quotes in
      if negb (HasPrefix gitCmd "git-") then
        ret (refuse "only git commands allowed")
      else
      let '(owner, repo) := parseRepoPath repoPath in
      if String.eqb owner EmptyString || String.eqb repo EmptyString then
        ret (refuse "invalid repo path")
      else
      let* ex := Storage.RepoExists owner repo in
      if negb ex then ret (refuse "repository not found")
      else
      let* m := Storage.GetMetadata owner repo in
      match m with
      | Err _ => ret (refuse "error getting metadata")
      | Ok meta =>
          let needsWrite := String.eqb gitCmd "git-receive-pack" in
          match checkAccess needsWrite meta username owner with
          | Some msg => ret (refuse msg)
          | None =>
              let fullPath := Storage.RepoPath env owner repo in
              let* out := Exec.spawn env [gitCmd; fullPath] input owner repo in
              match out with
              | NotStarted why =>
                  ret (MkOutcome EmptyString
                         ("command error: " ++ why ++ HTTP.nl) 1)
              | Exited (Some why) out _ =>
                  ret (MkOutcome out ("command error: " ++ why ++ HTTP.nl) 1)
              | Exited None out _ =>
                  do (match replQueue s with
                      | Some q => if needsWrite then Queue q owner repo else ret tt
                      | None => ret tt
                      end) in
                  ret (MkOutcome out EmptyString 0)
              end
          end
      end
  | _ => ret (refuse "invalid command")
  end.

End WithEnv.
End GitSSH.

(** ** package server: the management API (server.go) *)

Module Server.
Import GoStrings HTTP Names.

(** The body of a [/api/repos/replicate] request. *)
Module ReplicateReq.
Record t : Type := Build
  { Owner : string;
    Repo : string;
    InstanceID : string;
    InvitationKey : string;
    Bundle : string;
    Metadata : Metadata.t }.
End ReplicateReq.

(** The body of a [/api/repos/register-replication] request. *)
Module RegisterReq.
Record t : Type := Build
  { Owner : string;
    Repo : string;
    ReplicaURL : string;
    Token : string;
    OriginInstanceID : string }.
End RegisterReq.

Definition jsonHeader : list (string * string) :=
  [("Content-Type", "application/json")].

Definition jsonError (msg : string) (status : nat) : Response :=
  MkResponse status jsonHeader (JSON false msg).

(** [json.NewEncoder(w).Encode(map[string]interface{}{"success": true})] *)
Definition jsonSuccess : Response :=
  MkResponse StatusOK jsonHeader (JSON true EmptyString).

(** [fmt.Sprintf("replication-%s-%s-%s", owner, repo, instanceID)] *)
Definition replicationUser (owner repo instanceID : string) : string :=
  "replication-" ++ owner ++ "-" ++ repo ++ "-" ++ instanceID.

Section WithEnv.
Variable env : Env.

Definition bundlePath (owner repo : string) : string :=
  tempDir env ++ "/" ++ "bundle-" ++ owner ++ "-" ++ repo ++ ".bundle".

Definition handleReplicate (r : ApiRequest ReplicateReq.t) : M Response :=
  if negb (String.eqb (ApiMethod r) "POST") then
    ret (Error [] "method not allowed" StatusMethodNotAllowed)
  else
  let authHeader := Authorization r in
  if String.eqb authHeader EmptyString then
    ret (jsonError "missing authorization" StatusUnauthorized)
  else
  match SplitN2 authHeader " " with
  | [scheme; token] =>
  if negb (String.eqb scheme "Bearer") then
    ret (jsonError "invalid authorization header" StatusUnauthorized)
  else
  let* v := Auth.ValidateAPIToken env token in
  match v with
  | Err _ => ret (jsonError "invalid token" StatusUnauthorized)
  | Ok username =>
  match Decoded r with
  | None => ret (jsonError "invalid request body" StatusBadRequest)
  | Some req =>
  let owner := ReplicateReq.Owner req in
  let repo := ReplicateReq.Repo req in
  if String.eqb owner EmptyString || String.eqb repo EmptyString
     || String.eqb (ReplicateReq.InstanceID req) EmptyString
     || String.eqb (ReplicateReq.InvitationKey req) EmptyString then
    ret (jsonError "owner, repo, instance_id, and invitation_key required"
                   StatusBadRequest)
  else if negb (isValidName owner) || negb (isValidName repo) then
    ret (jsonError "invalid owner or repo name" StatusBadRequest)
  else if String.eqb (ReplicateReq.Bundle req) EmptyString then
    ret (jsonError "missing bundle data" StatusBadRequest)
  else if negb (HasPrefix username "replication-") then
    ret (jsonError "unauthorized: not a replication user" StatusForbidden)
  else
  let expectedUser :=
    replicationUser owner repo (ReplicateReq.InstanceID req) in
  if negb (String.eqb username expectedUser) then
    ret (jsonError "unauthorized: token mismatch" StatusForbidden)
  else
  match base64_decode env (ReplicateReq.Bundle req) with
  | Err why => ret (jsonError ("decode bundle: " ++ why) StatusBadRequest)
  | Ok bundleData =>
  let* repoExists := Storage.RepoExists owner repo in
  (* the [if repoExists { ... } else { ... }] block: [Some resp] is a return
     taken inside it *)
  let* early :=
    if repoExists then
      let* m := Storage.GetMetadata owner repo in
      match m with
      | Err why =>
          ret (Some (jsonError ("get metadata failed: " ++ why)
                               StatusInternalServerError))
      | Ok existingMeta =>
          match Metadata.ReplicaOf existingMeta with
          | None =>
              ret (Some (jsonError
                           "cannot replicate: repo already exists as origin"
                           StatusConflict))
          | Some src =>
              if negb (String.eqb (ReplicaSource.InvitationKey src)
                                  (ReplicateReq.InvitationKey req))
              then ret (Some (jsonError "invalid invitation key" StatusForbidden))
              else ret None
          end
      end
    else
      let* err := Storage.CreateRepo env owner repo in
      match err with
      | Some why =>
          ret (Some (jsonError ("create repo failed: " ++ why)
                               StatusInternalServerError))
      | None => ret None
      end in
  match early with
  | Some resp => ret resp
  | None =>
  let repoPath := Storage.RepoPath env owner repo in
  let bundlePath := bundlePath owner repo in
  do emit (EvWriteTemp bundlePath) in
  match write_file_err env bundlePath with
  | Some why => ret (jsonError ("write bundle: " ++ why) StatusInternalServerError)
  | None =>
  (* from here on the deferred os.Remove(bundlePath) runs at every return *)
  let* out := Exec.spawn env ["git"; "fetch"; bundlePath; "refs/*:refs/*"]
                bundleData owner repo in
  let* resp :=
    match out with
    | NotStarted why =>
        ret (jsonError ("git fetch failed: " ++ why ++ ": ")
                       StatusInternalServerError)
    | Exited (Some why) output _ =>
        ret (jsonError ("git fetch failed: " ++ why ++ ": " ++ output)
                       StatusInternalServerError)
    | Exited None _ _ =>
        let meta :=
          Metadata.with_ReplicaOf (ReplicateReq.Metadata req)
            (Some (ReplicaSource.Build (ReplicateReq.InstanceID req)
                                       (ReplicateReq.InvitationKey req))) in
        let* err := Storage.SetMetadata env owner repo meta in
        match err with
        | Some why =>
            ret (jsonError ("set metadata failed: " ++ why)
                           StatusInternalServerError)
        | None => ret jsonSuccess
        end
    end in
  do emit (EvRemoveTemp bundlePath) in
  ret resp
  end end end end end
  | _ => ret (jsonError "invalid authorization header" StatusUnauthorized)
  end.

Definition handleRegisterReplication (r : ApiRequest RegisterReq.t)
  : M Response :=
  if negb (String.eqb (ApiMethod r) "POST") then
    ret (Error [] "method not allowed" StatusMethodNotAllowed)
  else
  match Decoded r with
  | None => ret (jsonError "invalid request body" StatusBadRequest)
  | Some req =>
      let owner := RegisterReq.Owner req in
      let repo := RegisterReq.Repo req in
      if String.eqb owner EmptyString || String.eqb repo EmptyString
         || String.eqb (RegisterReq.Token req) EmptyString
         || String.eqb (RegisterReq.OriginInstanceID req) EmptyString
         || String.eqb (RegisterReq.ReplicaURL req) EmptyString then
        ret (jsonError
               "owner, repo, token, origin_instance_id, and replica_url required"
               StatusBadRequest)
      else if negb (isValidName owner) || negb (isValidName repo) then
        ret (jsonError "invalid owner or repo name" StatusBadRequest)
      else
      let* ex := Storage.RepoExists owner repo in
      if negb ex then ret (jsonError "repository not found" StatusNotFound)
      else
      let* m := Storage.GetMetadata owner repo in
      match m with
      | Err why =>
          ret (jsonError ("get metadata failed: " ++ why)
                         StatusInternalServerError)
      | Ok meta =>
          if bool_decide (Metadata.ReplicaOf meta <> None) then
            ret (jsonError "cannot add replica: this is a replica itself"
                           StatusForbidden)
          else
          let replicationUser :=
            replicationUser owner repo (RegisterReq.OriginInstanceID req) in
          let* err := Auth.CreateUserWithToken env replicationUser
                        "replication" (RegisterReq.Token req) in
          match err with
          | Some why =>
              if negb (Contains why "already exists") then
                ret (jsonError ("create user failed: " ++ why)
                               StatusInternalServerError)
              else ret jsonSuccess
          | None => ret jsonSuccess
          end
      end
  end.

End WithEnv.
End Server.

(** ** package instance and the admin command line *)

Module Instance.
Record t : Type := Build
  { ID : string;
    Name : string }.
End Instance.

Module Admin.
Import GoStrings.

(** What an invocation of the tool leaves behind: the lines it printed
    and its exit status ([os.Exit(1)] on every refusal). *)
Record Outcome : Type := MkOutcome
  { Printed : list string;
    ExitCode : nat }.

Definition exit1 (lines : list string) : M Outcome :=
  ret (MkOutcome lines 1).

Section WithEnv.
Variable env : Env.

(** [instance.LoadOrCreate]: the identity is read from [instance.json],
    or generated once and written there. *)
Definition LoadOrCreate : M (result Instance.t) :=
  do emit EvReadInstance in
  let* w := get_world in
  match instance_json w with
  | InstanceDoc id => ret (Ok (Instance.Build id "openhub-instance"))
  | InstanceBadJSON why => ret (Err ("unmarshal instance: " ++ why))
  | InstanceUnreadable =>
      let inst := Instance.Build (new_uuid env) "openhub-instance" in
      do emit EvWriteInstance in
      match write_file_err env (basePath env ++ "/instance.json") with
      | Some why => ret (Err ("write instance: " ++ why))
      | None =>
          do put_world (set_instance w (InstanceDoc (Instance.ID inst))) in
          ret (Ok inst)
      end
  end.

Definition adminAddReplica (path url : string) : M Outcome :=
  match Split path "/" with
  | [owner; name] =>
  (* getStorage(): storage.New creates the storage root *)
  match mkdir_err env (basePath env) with
  | Some why => exit1 ["storage init: " ++ why]
  | None =>
  let* i := LoadOrCreate in
  match i with
  | Err why => exit1 ["error loading instance: " ++ why]
  | Ok inst =>
  let* m := Storage.GetMetadata owner name in
  match m with
  | Err why => exit1 ["error: " ++ why]
  | Ok meta =>
  if bool_decide (Metadata.ReplicaOf meta <> None) then
    exit1 ["error: cannot add replica to a replica repository"]
  else
  match rand_hex env 0 with
  | Err why => exit1 ["error generating token: " ++ why]
  | Ok token =>
  match rand_hex env 1 with
  | Err why => exit1 ["error generating invitation key: " ++ why]
  | Ok invitationKey =>
  let reqBody :=
    [("owner", owner); ("repo", name); ("replica_url", url);
     ("token", token); ("origin_instance_id", Instance.ID inst)] in
  let registerURL := url ++ "/api/repos/register-replication" in
  do emit (EvHTTPPost registerURL) in
  match http_post env registerURL reqBody with
  | PeerUnreachable why =>
      exit1 ["Registering with replica..."; "error contacting replica: " ++ why]
  | PeerUnreadable why =>
      exit1 ["Registering with replica..."; "error reading response: " ++ why]
  | PeerBadJSON why =>
      exit1 ["Registering with replica..."; "json decode error: " ++ why]
  | PeerJSON success error =>
  if negb (bool_decide (success = Some true)) then
    exit1 ["Registering with replica...";
           match error with
           | Some errMsg => "replica registration failed: " ++ errMsg
           | None => "replica registration failed: unknown error"
           end]
  else
  let replica :=
    Replica.Build (Instance.ID inst) url token invitationKey true zero_time in
  let meta := Metadata.with_Replicas meta (Metadata.Replicas meta ++ [replica]) in
  let* err := Storage.SetMetadata env owner name meta in
  match err with
  | Some why => exit1 ["Registering with replica..."; "error: " ++ why]
  | None =>
      ret (MkOutcome
             ["Registering with replica...";
              "✓ Replica configured successfully";
              "URL: " ++ url;
              "Invitation Key: " ++ invitationKey;
              EmptyString;
              "Share this invitation key with the replica administrator.";
              "They need it to accept replication from this origin.";
              "Replica will receive updates on push"]
             0)
  end end end end end end end
  | _ => exit1 ["invalid repo path, must be owner/name"]
  end.

End WithEnv.
End Admin.

(** ** Process composition (runServer) *)

Module Main.

(** [replManager := replication.NewManager(store, inst.ID)], seen through
    the [ReplicationQueue] interface. *)
Definition replManager : GitSSH.ReplicationQueue :=
  GitSSH.MkReplicationQueue Replication.Queue.

(** [git.NewSSHServer(cfg.SSHPort, store, authStore, hostKey, replManager)] *)
Definition sshServer : GitSSH.SSHServer :=
  GitSSH.MkSSHServer 2222 (Some replManager).

(** [git.NewHTTPServer(store, authStore)] takes no queue: the HTTP
    transport is [GitHTTP.handleRequest] as it stands. *)

End Main.

(** ** Vocabulary of the properties *)

Module Props.
Import GoStrings HTTP Names.

(** The metadata of (owner, name) has [replica_of] set. *)
Definition is_replica (w : World) (owner name : string) : Prop :=
  exists d m, repos w !! (owner, name) = Some d
              /\ openhub_json d = MetaDoc m
              /\ Metadata.ReplicaOf m <> None.

Definition is_exec (e : Event) : bool :=
  match e with EvExec _ _ _ => true | _ => false end.

(** The events that only read the file system. *)
Definition is_read (e : Event) : bool :=
  match e with
  | EvStat _ _ | EvReadMeta _ _ | EvReadUsersDir | EvReadUser _
  | EvReadInstance => true
  | _ => false
  end.

(** A push over the HTTP transport: the POST of the pack, or the
    advertisement that precedes it. *)
Definition is_http_push (r : Request) : Prop :=
  (Method r = "POST" /\ HasSuffix (URLPath r) "/git-receive-pack" = true)
  \/ (Method r = "GET" /\ HasSuffix (URLPath r) "/info/refs" = true
      /\ QueryService r = "git-receive-pack").

Definition replica_refusal : Response :=
  Error [] "cannot push: repository is a read-only replica" StatusForbidden.

Definition add_replica_refusal_event (owner name : string) (e : Event) : Prop :=
  e = EvReadInstance \/ e = EvWriteInstance
  \/ e = EvStat owner name \/ e = EvReadMeta owner name.

(** The request with its Authorization header removed. *)
Definition without_credentials (r : Request) : Request :=
  MkRequest (Method r) (URLPath r) (QueryService r) None
            (ContentEncoding r) (Body r).

(** Basic credentials that do not authenticate: an empty user name or
    password, a password that is no API token, or a token of someone else. *)
Definition bad_credentials (env : Env) (w : World) (user pass : string) : Prop :=
  user = EmptyString \/ pass = EmptyString
  \/ (exists why, answer (Auth.ValidateAPIToken env pass w) = Err why)
  \/ (exists v, answer (Auth.ValidateAPIToken env pass w) = Ok v /\ v <> user).

(** The reads of the credential store. *)
Definition is_auth_read (e : Event) : bool :=
  match e with
  | EvReadUsersDir | EvReadUser _ => true
  | _ => false
  end.

(** Two runs that give the same answer, leave the same world and did the
    same things once the reads of the credential store are set aside. *)
Definition agree {A} (x y : A * World * list Event) : Prop :=
  answer x = answer y /\ after x = after y
  /\ filter (fun e => negb (is_auth_read e)) (log x)
     = filter (fun e => negb (is_auth_read e)) (log y).

(** The request carries a bearer token that the credential store maps
    to [username]. *)
Definition authenticated {B} (env : Env) (w : World) (r : ApiRequest B)
           (username : string) : Prop :=
  ApiMethod r = "POST" /\ Authorization r <> EmptyString
  /\ exists token, SplitN2 (Authorization r) " " = ["Bearer"; token]
                   /\ answer (Auth.ValidateAPIToken env token w) = Ok username.

(** The body of a [/replicate] request passes the field checks of the
    handler: the four identifying fields and the bundle are present and
    owner and repo are valid names. *)
Definition body_valid (req : Server.ReplicateReq.t) : Prop :=
  Server.ReplicateReq.Owner req <> EmptyString
  /\ Server.ReplicateReq.Repo req <> EmptyString
  /\ Server.ReplicateReq.InstanceID req <> EmptyString
  /\ Server.ReplicateReq.InvitationKey req <> EmptyString
  /\ isValidName (Server.ReplicateReq.Owner req) = true
  /\ isValidName (Server.ReplicateReq.Repo req) = true
  /\ Server.ReplicateReq.Bundle req <> EmptyString.

(** The user name has the prefix and is the one built from the body. *)
Definition bound_user (username : string) (req : Server.ReplicateReq.t) : Prop :=
  HasPrefix username "replication-" = true
  /\ username = Server.replicationUser (Server.ReplicateReq.Owner req)
                                       (Server.ReplicateReq.Repo req)
                                       (Server.ReplicateReq.InstanceID req).

(** The [replica_of] a [/replicate] request asks the peer to record. *)
Definition source_of (req : Server.ReplicateReq.t) : ReplicaSource.t :=
  ReplicaSource.Build (Server.ReplicateReq.InstanceID req)
                      (Server.ReplicateReq.InvitationKey req).

(** A [/replicate] request that gets as far as the look at the
    repository: authenticated as the replication user its body names, with
    a valid body and a bundle that decodes. *)
Definition reaches_repo_check (env : Env) (w : World)
           (r : ApiRequest Server.ReplicateReq.t)
           (req : Server.ReplicateReq.t) (bundleData : string) : Prop :=
  authenticated env w r
    (Server.replicationUser (Server.ReplicateReq.Owner req)
       (Server.ReplicateReq.Repo req) (Server.ReplicateReq.InstanceID req))
  /\ Decoded r = Some req
  /\ body_valid req
  /\ base64_decode env (Server.ReplicateReq.Bundle req) = Ok bundleData.

(** A [/register-replication] request that the handler lets through to
    the creation of the user: a POST with all five fields, valid names,
    for a repository that exists here, with readable metadata, and is not
    a replica. *)
Definition register_passes_checks (w : World)
           (r : ApiRequest Server.RegisterReq.t)
           (req : Server.RegisterReq.t) : Prop :=
  ApiMethod r = "POST" /\ Decoded r = Some req
  /\ Server.RegisterReq.Owner req <> EmptyString
  /\ Server.RegisterReq.Repo req <> EmptyString
  /\ Server.RegisterReq.Token req <> EmptyString
  /\ Server.RegisterReq.OriginInstanceID req <> EmptyString
  /\ Server.RegisterReq.ReplicaURL req <> EmptyString
  /\ isValidName (Server.RegisterReq.Owner req) = true
  /\ isValidName (Server.RegisterReq.Repo req) = true
  /\ exists d meta,
      repos w !! (Server.RegisterReq.Owner req, Server.RegisterReq.Repo req)
        = Some d
      /\ Storage.readMetaFile (openhub_json d) = Ok meta
      /\ Metadata.ReplicaOf meta = None.

(** The user name the handshake provisions for a request. *)
Definition register_user (req : Server.RegisterReq.t) : string :=
  Server.replicationUser (Server.RegisterReq.Owner req)
                         (Server.RegisterReq.Repo req)
                         (Server.RegisterReq.OriginInstanceID req).

Definition is_queued (e : Event) : bool :=
  match e with EvQueued _ _ => true | _ => false end.

(** *** Three sentences about the handlers, as they are written *)

(** "For every authenticated POST to /api/repos/replicate, the request is
    rejected (403, no state change) unless the username owning the bearer
    token has the prefix and equals the one built from the body." *)
Definition replicate_binding_claim : Prop :=
  forall env w (r : ApiRequest Server.ReplicateReq.t) username,
    authenticated env w r username ->
    (forall req, Decoded r = Some req -> ~ bound_user username req) ->
    let res := run (Server.handleReplicate env r) w in
    Status (answer res) = StatusForbidden /\ after res = w.

(** "For every POST to /api/repos/replicate naming a repository that
    already exists on the receiver: 409 when [replica_of] is nil, 403 when
    the invitation keys differ, the bundle applied only when they agree." *)
Definition replicate_existing_claim : Prop :=
  forall env w (r : ApiRequest Server.ReplicateReq.t) req d meta,
    ApiMethod r = "POST" -> Decoded r = Some req ->
    repos w !! (Server.ReplicateReq.Owner req, Server.ReplicateReq.Repo req)
      = Some d ->
    Storage.readMetaFile (openhub_json d) = Ok meta ->
    let res := run (Server.handleReplicate env r) w in
    (Metadata.ReplicaOf meta = None ->
     Status (answer res) = StatusConflict /\ after res = w)
    /\ (forall src,
           Metadata.ReplicaOf meta = Some src ->
           ReplicaSource.InvitationKey src
             <> Server.ReplicateReq.InvitationKey req ->
           Status (answer res) = StatusForbidden /\ after res = w)
    /\ (existsb is_exec (log res) = true ->
        exists src, Metadata.ReplicaOf meta = Some src
                    /\ ReplicaSource.InvitationKey src
                       = Server.ReplicateReq.InvitationKey req).

(** "A repeated POST to /api/repos/register-replication for an (owner,
    repo, origin_instance_id) whose replication user already exists
    returns success but leaves the existing user record completely
    unchanged." *)
Definition register_again_claim : Prop :=
  forall env w (r : ApiRequest Server.RegisterReq.t) req u,
    ApiMethod r = "POST" -> Decoded r = Some req ->
    users w !! register_user req = Some (UserDoc u) ->
    let res := run (Server.handleRegisterReplication env r) w in
    answer res = Server.jsonSuccess
    /\ users (after res) !! register_user req = Some (UserDoc u).

End Props.

(** ** Concrete deployments, for the examples *)

Module Examples.
Import HTTP.

(** An environment in which nothing fails: the engine echoes what it
    read and appends it to the repository. *)
Definition env0 : Env :=
  MkEnv "/data" "/tmp" 1000
    (fun _ input before => Exited None ("out:" ++ input) (before ++ input))
    (fun _ => None) (fun _ => None) None
    (fun s => Ok s) (fun _ => None) (fun s => s)
    (fun _ => Ok "00ff") "uuid-1"
    (fun _ _ => PeerJSON (Some true) None).

Definition alice : User.t :=
  User.Build "alice" [] [APIToken.Build "laptop" "T" 0] 0.

Definition bob : User.t :=
  User.Build "bob" [] [APIToken.Build "laptop" "TB" 0] 0.

(** The replication user of origin instance "A" for alice/foo. *)
Definition repl_user : User.t :=
  User.Build "replication-alice-foo-A" []
    [APIToken.Build "replication" "TR" 0] 0.

Definition base_users : gmap string UserFile :=
  <["alice" := UserDoc alice]> (<["bob" := UserDoc bob]> ∅).

Definition all_users : gmap string UserFile :=
  <["replication-alice-foo-A" := UserDoc repl_user]> base_users.

Definition origin_meta : Metadata.t := Storage.defaultMetadata 5.

Definition replica_meta : Metadata.t :=
  Metadata.with_ReplicaOf origin_meta (Some (ReplicaSource.Build "A" "K")).

(** No repository at all. *)
Definition w_empty : World :=
  MkWorld ∅ all_users (InstanceDoc "B") [].

(** alice/foo is an origin repository. *)
Definition w_origin : World :=
  MkWorld (<[("alice", "foo") := MkRepoDir "g0" (MetaDoc origin_meta)]> ∅)
          all_users (InstanceDoc "B") [].

(** The same, on a peer that has not been asked to replicate yet. *)
Definition w_origin_fresh : World :=
  MkWorld (<[("alice", "foo") := MkRepoDir "g0" (MetaDoc origin_meta)]> ∅)
          base_users (InstanceDoc "B") [].

(** No repository and no replication user: a peer before the handshake. *)
Definition w_fresh : World :=
  MkWorld ∅ base_users (InstanceDoc "B") [].

(** alice/foo is a replica of instance "A", invitation key "K". *)
Definition w_replica : World :=
  MkWorld (<[("alice", "foo") := MkRepoDir "g0" (MetaDoc replica_meta)]> ∅)
          all_users (InstanceDoc "B") [].

Definition http_push (auth : option (string * string)) : Request :=
  MkRequest "POST" "/alice/foo.git/git-receive-pack" EmptyString auth
            EmptyString "pack".

Definition http_advertise (service : string) (auth : option (string * string))
  : Request :=
  MkRequest "GET" "/alice/foo.git/info/refs" service auth
            EmptyString EmptyString.

Definition ssh_push : string := "git-receive-pack 'alice/foo.git'".

(** The body origin "A" sends for alice/foo with invitation key "K". *)
Definition replicate_body (bundle : string) : Server.ReplicateReq.t :=
  Server.ReplicateReq.Build "alice" "foo" "A" "K" bundle origin_meta.

Definition replicate_post (authorization : string) (bundle : string)
  : ApiRequest Server.ReplicateReq.t :=
  MkApiRequest "POST" authorization (Some (replicate_body bundle)).

Definition register_post (owner repo token : string)
  : ApiRequest Server.RegisterReq.t :=
  MkApiRequest "POST" EmptyString
    (Some (Server.RegisterReq.Build owner repo "http://origin" token "A")).

End Examples.

(** ** The rest of the packages *)

From Stdlib Require Import DecimalString.

(** [storage.Repo] *)
Module Repo.
Record t : Type := Build
  { Owner : string;
    Name : string }.
End Repo.

(** What the operations below ask of the outside, besides [Env]. *)
Record Sys : Type := MkSys
  { (** the error of [os.RemoveAll] on a path, if it fails *)
    remove_all_err : string -> option string;
    (** the error of [os.ReadDir] on the storage root, if it fails *)
    read_storage_err : option string;
    (** the owner directories [os.ReadDir] cannot read *)
    owner_unreadable : string -> bool;
    (** [base64.StdEncoding.EncodeToString] *)
    base64_encode : string -> string;
    (** the error of [http.NewRequest] for a URL, if it does not parse *)
    new_request_err : string -> option string;
    (** [client.Do] on a request to [<url>/api/repos/replicate] with a
        bearer token and a body: the error, or the status and the body of
        the response *)
    peer_replicate : string -> string -> Server.ReplicateReq.t
                     -> result (nat * string) }.

(** [fmt.Sprintf("%d", n)] *)
Definition decimal (n : nat) : string := NilEmpty.string_of_uint (Nat.to_uint n).

Module GoStringsMore.
Import GoStrings.

Fixpoint TrimLeftSpace (s : string) : string :=
  match s with
  | EmptyString => EmptyString
  | String c t => if isSpace c then TrimLeftSpace t else s
  end.

Fixpoint TrimRightSpace (s : string) : string :=
  match s with
  | EmptyString => EmptyString
  | String c t =>
      let t' := TrimRightSpace t in
      if String.eqb t' EmptyString && isSpace c
      then EmptyString else String c t'
  end.

(** [strings.TrimSpace], for the white space [Fields] splits on. *)
Definition TrimSpace (s : string) : string :=
  TrimRightSpace (TrimLeftSpace s).

End GoStringsMore.

(** *** package storage: deleting and listing *)

Module StorageMore.
Section WithEnv.
Variable env : Env.
Variable sys : Sys.

(** A removal that fails leaves the directory as it was. *)
Definition DeleteRepo (owner name : string) : M (option string) :=
  let path := Storage.RepoPath env owner name in
  let* ex := Storage.RepoExists owner name in
  if negb ex then
    ret (Some ("repo does not exist: " ++ owner ++ "/" ++ name))
  else
    match remove_all_err sys path with
    | Some why => ret (Some ("delete repo: " ++ why))
    | None =>
        let* w := get_world in
        do put_world (set_repos w (delete (owner, name) (repos w))) in
        ret None
    end.

(** The order of [os.ReadDir]: by file name. *)
Definition name_le (a b : string) : Prop := String.leb a b = true.

#[global] Instance name_le_dec a b : Decision (name_le a b).
Proof. unfold name_le. apply _. Defined.

Definition git_entry_le (a b : string) : Prop :=
  String.leb (a ++ ".git") (b ++ ".git") = true.

#[global] Instance git_entry_le_dec a b : Decision (git_entry_le a b).
Proof. unfold git_entry_le. apply _. Defined.

(** The owner directories that hold a repository, in directory order.
    (Other entries of the storage root hold no [.git] directory and add
    nothing to the listing.) *)
Definition owner_dirs (r : gmap (string * string) RepoDir) : list string :=
  merge_sort name_le (remove_dups ((fun kv => fst (fst kv)) <$> map_to_list r)).

(** The names of the [<name>.git] directories of an owner, in directory
    order, with the suffix trimmed. *)
Definition git_dirs (r : gmap (string * string) RepoDir) (owner : string)
  : list string :=
  merge_sort git_entry_le
    ((fun kv => snd (fst kv))
       <$> filter (fun kv => fst (fst kv) = owner) (map_to_list r)).

Definition ListRepos : M (result (list Repo.t)) :=
  match read_storage_err sys with
  | Some why => ret (Err ("read storage dir: " ++ why))
  | None =>
      let* w := get_world in
      ret (Ok (concat
                 ((fun owner =>
                     if owner_unreadable sys owner then []
                     else Repo.Build owner <$> git_dirs (repos w) owner)
                    <$> owner_dirs (repos w))))
  end.

End WithEnv.
End StorageMore.

(** *** package auth: users, keys and tokens *)

Module AuthMore.
Import GoStrings GoStringsMore.
Section WithEnv.
Variable env : Env.

Definition CreateUser (username : string) : M (option string) :=
  let* r := Auth.GetUser username in
  match r with
  | Ok _ => ret (Some ("user already exists: " ++ username))
  | Err _ => Auth.saveUser env (User.Build username [] [] (now env))
  end.

Definition AddSSHKey (username name key : string) : M (option string) :=
  let* r := Auth.GetUser username in
  match r with
  | Err why => ret (Some why)
  | Ok user =>
      Auth.saveUser env
        (User.Build (User.Username user)
                    (User.SSHKeys user ++ [SSHKey.Build name key (now env)])
                    (User.APITokens user) (User.CreatedAt user))
  end.

Definition GenerateAPIToken (username name : string) : M (result string) :=
  let* r := Auth.GetUser username in
  match r with
  | Err why => ret (Err why)
  | Ok user =>
      match rand_hex env 0 with
      | Err why => ret (Err ("generate token: " ++ why))
      | Ok token =>
          let* err :=
            Auth.saveUser env
              (User.Build (User.Username user) (User.SSHKeys user)
                          (User.APITokens user
                             ++ [APIToken.Build name token (now env)])
                          (User.CreatedAt user)) in
          match err with
          | Some why => ret (Err why)
          | None => ret (Ok token)
          end
      end
  end.

Definition normalizeSSHKey (key : string) : string :=
  match Fields key with
  | p0 :: p1 :: _ => p0 ++ " " ++ p1
  | _ => TrimSpace key
  end.

(** [for _, k := range user.SSHKeys { if normalizeSSHKey(k.Key) == normalizedKey ... }] *)
Definition has_key (u : User.t) (normalizedKey : string) : bool :=
  existsb (fun k => String.eqb (normalizeSSHKey (SSHKey.Key k)) normalizedKey)
          (User.SSHKeys u).

Fixpoint scan_keys (entries : list string) (normalizedKey : string)
  : M (result string) :=
  match entries with
  | [] => ret (Err "invalid SSH key")
  | username :: rest =>
      let* r := Auth.GetUser username in
      match r with
      | Err _ => scan_keys rest normalizedKey
      | Ok user =>
          if has_key user normalizedKey then ret (Ok (User.Username user))
          else scan_keys rest normalizedKey
      end
  end.

Definition ValidateSSHKey (key : string) : M (result string) :=
  do emit EvReadUsersDir in
  match read_dir_err env with
  | Some why => ret (Err ("read users dir: " ++ why))
  | None =>
      let normalizedKey := normalizeSSHKey key in
      let* w := get_world in
      scan_keys (Auth.dir_entries (users w)) normalizedKey
  end.

End WithEnv.
End AuthMore.

(** *** package server: repositories and their metadata *)

Module ServerMore.
Import GoStrings HTTP Names.

Module CreateRepoRequest.
Record t : Type := Build
  { Owner : string;
    Name : string }.
End CreateRepoRequest.

(** The query and the body of a [/api/repos/metadata] request. *)
Record MetadataRequest : Type := MkMetadataRequest
  { MdMethod : string;
    QueryOwner : string;                    (* r.URL.Query().Get("owner") *)
    QueryName : string;                     (* r.URL.Query().Get("name") *)
    MdDecoded : option Metadata.t }.        (* the body, when it decodes *)

(** What a handler of this part writes. *)
Inductive Reply : Type :=
| PlainReply (status : nat) (text : string)    (* http.Error *)
| ErrorReply (status : nat) (msg : string)     (* s.jsonError *)
| CreatedReply (repoPath cloneURL : string)    (* CreateRepoResponse, success *)
| SuccessReply                                 (* the success flag alone *)
| MetadataReply (meta : Metadata.t).           (* the success flag and the metadata *)

Definition reply_status (r : Reply) : nat :=
  match r with
  | PlainReply status _ | ErrorReply status _ => status
  | _ => StatusOK
  end.

Section WithEnv.
Variable env : Env.
Variable sys : Sys.

Definition handleCreateRepo (r : ApiRequest CreateRepoRequest.t) : M Reply :=
  if negb (String.eqb (ApiMethod r) "POST") then
    ret (PlainReply StatusMethodNotAllowed "method not allowed")
  else
  match Decoded r with
  | None => ret (ErrorReply StatusBadRequest "invalid request body")
  | Some req =>
  let owner := CreateRepoRequest.Owner req in
  let name := CreateRepoRequest.Name req in
  if String.eqb owner EmptyString || String.eqb name EmptyString then
    ret (ErrorReply StatusBadRequest "owner and name required")
  else if negb (isValidName owner) || negb (isValidName name) then
    ret (ErrorReply StatusBadRequest "invalid owner or name")
  else
  let* ex := Storage.RepoExists owner name in
  if ex then ret (ErrorReply StatusConflict "repository already exists")
  else
  let* err := Storage.CreateRepo env owner name in
  match err with
  | Some why =>
      ret (ErrorReply StatusInternalServerError ("create failed: " ++ why))
  | None =>
      ret (CreatedReply (owner ++ "/" ++ name ++ ".git")
                        ("http://localhost:3000/" ++ owner ++ "/" ++ name ++ ".git"))
  end
  end.

Definition handleDeleteRepo (r : ApiRequest CreateRepoRequest.t) : M Reply :=
  if negb (String.eqb (ApiMethod r) "POST") then
    ret (PlainReply StatusMethodNotAllowed "method not allowed")
  else
  match Decoded r with
  | None => ret (ErrorReply StatusBadRequest "invalid request body")
  | Some req =>
  let owner := CreateRepoRequest.Owner req in
  let name := CreateRepoRequest.Name req in
  if String.eqb owner EmptyString || String.eqb name EmptyString then
    ret (ErrorReply StatusBadRequest "owner and name required")
  else
  let* ex := Storage.RepoExists owner name in
  if negb ex then ret (ErrorReply StatusNotFound "repository not found")
  else
  let* err := StorageMore.DeleteRepo env sys owner name in
  match err with
  | Some why =>
      ret (ErrorReply StatusInternalServerError ("delete failed: " ++ why))
  | None => ret SuccessReply
  end
  end.

Definition handleMetadata (r : MetadataRequest) : M Reply :=
  let owner := QueryOwner r in
  let name := QueryName r in
  if String.eqb owner EmptyString || String.eqb name EmptyString then
    ret (ErrorReply StatusBadRequest "owner and name required")
  else
  let* ex := Storage.RepoExists owner name in
  if negb ex then ret (ErrorReply StatusNotFound "repository not found")
  else
  if String.eqb (MdMethod r) "GET" then
    let* m := Storage.GetMetadata owner name in
    match m with
    | Err why =>
        ret (ErrorReply StatusInternalServerError
                        ("get metadata failed: " ++ why))
    | Ok meta => ret (MetadataReply meta)
    end
  else if String.eqb (MdMethod r) "POST" then
    match MdDecoded r with
    | None => ret (ErrorReply StatusBadRequest "invalid request body")
    | Some meta =>
        let* err := Storage.SetMetadata env owner name meta in
        match err with
        | Some why =>
            ret (ErrorReply StatusInternalServerError
                            ("set metadata failed: " ++ why))
        | None => ret SuccessReply
        end
    end
  else ret (PlainReply StatusMethodNotAllowed "method not allowed").

End WithEnv.
End ServerMore.

(** *** package replication: the worker *)

Module ReplicationMore.
Section WithEnv.
Variable env : Env.
Variable sys : Sys.
(** [m.instanceID] *)
Variable instanceID : string.

(** [git bundle create - --all] in the bare directory *)
Definition createBundle (owner repo : string) : M (result string) :=
  let* out := Exec.spawn env ["git"; "bundle"; "create"; "-"; "--all"]
                EmptyString owner repo in
  match out with
  | NotStarted why => ret (Err ("git bundle: " ++ why))
  | Exited (Some why) _ _ => ret (Err ("git bundle: " ++ why))
  | Exited None output _ => ret (Ok output)
  end.

(** [json.Marshal] of the payload does not fail: its values are strings
    and a metadata document that was read from JSON. *)
Definition pushToReplica (owner repo : string) (replica : Replica.t)
           (bundle : string) : M (option string) :=
  let url := Replica.URL replica ++ "/api/repos/replicate" in
  let* m := Storage.GetMetadata owner repo in
  match m with
  | Err why => ret (Some ("get metadata: " ++ why))
  | Ok meta =>
      let metaCopy := Metadata.with_Replicas meta [] in
      let payload :=
        Server.ReplicateReq.Build owner repo instanceID
          (Replica.InvitationKey replica) (base64_encode sys bundle) metaCopy in
      match new_request_err sys url with
      | Some why => ret (Some ("create request: " ++ why))
      | None =>
          do emit (EvHTTPPost url) in
          match peer_replicate sys url (Replica.Token replica) payload with
          | Err why => ret (Some ("send request: " ++ why))
          | Ok (status, body) =>
              if negb (Nat.eqb status HTTP.StatusOK) then
                ret (Some ("replica returned " ++ decimal status ++ ": " ++ body))
              else ret None
          end
      end
  end.

Definition with_LastSynced (r : Replica.t) (t : Time) : Replica.t :=
  Replica.Build (Replica.InstanceID r) (Replica.URL r) (Replica.Token r)
                (Replica.InvitationKey r) (Replica.Enabled r) t.

(** The loop [for i, replica := range meta.Replicas]: the list with the
    [LastSynced] of the replicas that took the bundle set. *)
Fixpoint push_each (owner repo : string) (bundle : string)
         (replicas : list Replica.t) : M (list Replica.t) :=
  match replicas with
  | [] => ret []
  | replica :: rest =>
      if negb (Replica.Enabled replica) then
        let* rest' := push_each owner repo bundle rest in
        ret (replica :: rest')
      else
        let* err := pushToReplica owner repo replica bundle in
        match err with
        | Some _ =>
            let* rest' := push_each owner repo bundle rest in
            ret (replica :: rest')
        | None =>
            let* rest' := push_each owner repo bundle rest in
            ret (with_LastSynced replica (now env) :: rest')
        end
  end.

Definition replicate (owner repo : string) : M (option string) :=
  let* m := Storage.GetMetadata owner repo in
  match m with
  | Err why => ret (Some ("get metadata: " ++ why))
  | Ok meta =>
      if (List.length (Metadata.Replicas meta) =? 0)%nat then ret None
      else
      let* b := createBundle owner repo in
      match b with
      | Err why => ret (Some ("create bundle: " ++ why))
      | Ok bundle =>
          let* replicas := push_each owner repo bundle (Metadata.Replicas meta) in
          let* err := Storage.SetMetadata env owner repo
                        (Metadata.with_Replicas meta replicas) in
          match err with
          | Some why => ret (Some ("update metadata: " ++ why))
          | None => ret None
          end
      end
  end.

Fixpoint queue_each (l : list Repo.t) : M unit :=
  match l with
  | [] => ret tt
  | repo :: rest =>
      do Replication.Queue (Repo.Owner repo) (Repo.Name repo) in
      queue_each rest
  end.

Definition SyncAll : M unit :=
  let* r := StorageMore.ListRepos sys in
  match r with
  | Err _ => ret tt
  | Ok repos => queue_each repos
  end.

End WithEnv.
End ReplicationMore.

(** *** the admin command line: remove-replica *)

Module AdminMore.
Import GoStrings.
Section WithEnv.
Variable env : Env.

Definition adminRemoveReplica (path instanceID : string) : M Admin.Outcome :=
  match Split path "/" with
  | [owner; name] =>
  match mkdir_err env (basePath env) with
  | Some why => Admin.exit1 ["storage init: " ++ why]
  | None =>
  let* m := Storage.GetMetadata owner name in
  match m with
  | Err why => Admin.exit1 ["error: " ++ why]
  | Ok meta =>
  let newReplicas :=
    List.filter (fun r => negb (String.eqb (Replica.InstanceID r) instanceID))
                (Metadata.Replicas meta) in
  let found :=
    existsb (fun r => String.eqb (Replica.InstanceID r) instanceID)
            (Metadata.Replicas meta) in
  if negb found then
    Admin.exit1 ["replica with instance ID " ++ instanceID ++ " not found"]
  else
  let* err := Storage.SetMetadata env owner name
                (Metadata.with_Replicas meta newReplicas) in
  match err with
  | Some why => Admin.exit1 ["error: " ++ why]
  | None =>
      ret (Admin.MkOutcome ["Replica removed from " ++ owner ++ "/" ++ name] 0)
  end
  end end
  | _ => Admin.exit1 ["invalid repo path, must be owner/name"]
  end.

End WithEnv.
End AdminMore.

(** *** More concrete deployments *)

Module ExamplesMore.

Definition sys0 : Sys :=
  MkSys (fun _ => None) None (fun _ => false) (fun s => s) (fun _ => None)
        (fun _ _ _ => Ok (200%nat, EmptyString)).

End ExamplesMore.

(** ** Vocabulary of the properties of the rest of the code *)

(** *** The credential store *)

(** The user file [<stem>.json] holds a document that lists [token]. *)
Definition holds_token (w : World) (stem : string) (token : string) : Prop :=
  exists usr, users w !! stem = Some (UserDoc usr)
              /\ Auth.has_token usr token = true.

(** The user file [<stem>.json] holds a document with a key whose normal
    form is [normalizedKey]. *)
Definition holds_key (w : World) (stem : string) (normalizedKey : string) : Prop :=
  exists usr, users w !! stem = Some (UserDoc usr)
              /\ AuthMore.has_key usr normalizedKey = true.

(** Every readable user file is named after the user it describes: what
    [saveUser] writes, which takes the path from [user.Username]. *)
Definition users_consistent (w : World) : Prop :=
  forall stem usr, users w !! stem = Some (UserDoc usr) -> User.Username usr = stem.

(** The same, as a test over the files of the directory. *)
Definition consistent_check (w : World) : bool :=
  forallb (fun kv => match snd kv with
                     | UserDoc usr => String.eqb (User.Username usr) (fst kv)
                     | _ => true
                     end)
          (map_to_list (users w)).

(** No user file lists [token]. *)
Definition no_holder (w : World) (token : string) : bool :=
  forallb (fun kv => match snd kv with
                     | UserDoc usr => negb (Auth.has_token usr token)
                     | _ => true
                     end)
          (map_to_list (users w)).

(** No user file other than [<username>.json] holds a key with this
    normal form. *)
Definition no_other_key_holder (w : World) (username normalizedKey : string) : bool :=
  forallb (fun kv => match snd kv with
                     | UserDoc usr =>
                         String.eqb (fst kv) username
                         || negb (AuthMore.has_key usr normalizedKey)
                     | _ => true
                     end)
          (map_to_list (users w)).

(** *** White space *)

Fixpoint no_space (s : string) : bool :=
  match s with
  | EmptyString => true
  | String c t => negb (GoStrings.isSpace c) && no_space t
  end.

Fixpoint all_space (s : string) : bool :=
  match s with
  | EmptyString => true
  | String c t => GoStrings.isSpace c && all_space t
  end.

(** A field of [strings.Fields]: not empty, no white space. *)
Definition is_field (s : string) : Prop := s <> EmptyString /\ no_space s = true.

(** The strings on which ASCII white space is all the white space there
    is: no byte above 127. *)
Fixpoint is_ascii (s : string) : bool :=
  match s with
  | EmptyString => true
  | String c t => (nat_of_ascii c <? 128)%nat && is_ascii t
  end.

Fixpoint no_slash (s : string) : bool :=
  match s with
  | EmptyString => true
  | String c t => negb (Ascii.eqb c "/") && no_slash t
  end.

(** *** The transports *)

(** The request carries the name [username] and a password that is one
    of the tokens the validator maps to that very name. *)
Definition presents_token_of (env : Env) (w : World) (r : HTTP.Request)
           (username : string) : Prop :=
  exists password,
    HTTP.BasicAuth r = Some (username, password)
    /\ password <> EmptyString
    /\ answer (Auth.ValidateAPIToken env password w) = Ok username.

(** What holds of a request of the HTTP transport when the engine is
    started with [argv] on the repository (owner, repo). *)
Definition http_allowed (env : Env) (w : World) (r : HTTP.Request)
           (argv : list string) (owner repo : string) : Prop :=
  exists service rest meta,
    argv = service :: rest
    /\ (service = "git-upload-pack" \/ service = "git-receive-pack")
    /\ GitHTTP.parseRepoPath (HTTP.URLPath r) = (owner, repo)
    /\ owner <> EmptyString /\ repo <> EmptyString
    /\ answer (Storage.GetMetadata owner repo w) = Ok meta
    /\ (service = "git-receive-pack" ->
        Metadata.ReplicaOf meta = None /\ presents_token_of env w r owner)
    /\ (Metadata.Private meta = true -> presents_token_of env w r owner).

(** The same for a session of the shell transport authenticated as
    [username]. *)
Definition ssh_allowed (w : World) (username : string) (argv : list string)
           (owner repo : string) : Prop :=
  exists gitCmd fullPath meta,
    argv = [gitCmd; fullPath]
    /\ GoStrings.HasPrefix gitCmd "git-" = true
    /\ owner <> EmptyString /\ repo <> EmptyString
    /\ answer (Storage.GetMetadata owner repo w) = Ok meta
    /\ (gitCmd = "git-receive-pack" ->
        Metadata.ReplicaOf meta = None /\ username = owner)
    /\ (Metadata.Private meta = true -> username = owner).

(** *** The replication worker *)

Definition is_post (e : Event) : bool :=
  match e with EvHTTPPost _ => true | _ => false end.

(** A replica record after a round of the worker: as it was, or, for an
    enabled replica, with its [LastSynced] set. *)
Definition stamped_or_same (t : Time) (r r' : Replica.t) : Prop :=
  r' = r \/ (Replica.Enabled r = true /\ r' = ReplicationMore.with_LastSynced r t).

(** The record of a round in which every enabled replica took the bundle. *)
Definition stamp_enabled (t : Time) (r : Replica.t) : Replica.t :=
  if Replica.Enabled r then ReplicationMore.with_LastSynced r t else r.

(** The requests the worker may send for a repository with metadata
    [meta]: to an enabled replica of the list, with the token and the
    invitation key of that replica, this instance's id, and the metadata
    without its replica list. *)
Definition worker_request (instanceID owner repo : string) (meta : Metadata.t)
           (url token : string) (p : Server.ReplicateReq.t) : Prop :=
  exists replica,
    In replica (Metadata.Replicas meta)
    /\ Replica.Enabled replica = true
    /\ url = Replica.URL replica ++ "/api/repos/replicate"
    /\ token = Replica.Token replica
    /\ Server.ReplicateReq.Owner p = owner
    /\ Server.ReplicateReq.Repo p = repo
    /\ Server.ReplicateReq.InstanceID p = instanceID
    /\ Server.ReplicateReq.InvitationKey p = Replica.InvitationKey replica
    /\ Server.ReplicateReq.Metadata p = Metadata.with_Replicas meta [].

(** [Job{Owner: repo.Owner, Repo: repo.Name}] *)
Definition job_of (r : Repo.t) : Job.t := Job.Build (Repo.Owner r) (Repo.Name r).

(** The records [remove-replica] keeps. *)
Definition keeps (instanceID : string) (r : Replica.t) : bool :=
  negb (String.eqb (Replica.InstanceID r) instanceID).

(** *** More concrete deployments *)

Module ExamplesFed.
Import HTTP.

Definition peer1 : Replica.t :=
  Replica.Build "A" "http://peer1" "tok1" "key1" true 0.

Definition peer2 : Replica.t :=
  Replica.Build "A" "http://peer2" "tok2" "key2" false 0.

(** alice/foo is an origin with an enabled and a disabled replica. *)
Definition fed_meta : Metadata.t :=
  Metadata.with_Replicas Examples.origin_meta [peer1; peer2].

Definition w_fed : World :=
  MkWorld (<[("alice", "foo") := MkRepoDir "g0" (MetaDoc fed_meta)]> ∅)
          Examples.base_users (InstanceDoc "A") [].

(** A deployment whose instance file is not written yet. *)
Definition w_new : World :=
  MkWorld (<[("alice", "foo") := MkRepoDir "g0" (MetaDoc Examples.origin_meta)]> ∅)
          Examples.base_users InstanceUnreadable [].

(** A peer that refuses everything. *)
Definition sys_down : Sys :=
  MkSys (fun _ => None) None (fun _ => false) (fun s => s) (fun _ => None)
        (fun _ _ _ => Err "connection refused").

(** A network on which only the first peer answers. *)
Definition sys_peer1_only : Sys :=
  MkSys (fun _ => None) None (fun _ => false) (fun s => s) (fun _ => None)
        (fun url _ _ =>
           if String.eqb url "http://peer1/api/repos/replicate"
           then Ok (200%nat, EmptyString) else Err "connection refused").

Definition key_line : string := "ssh-ed25519 AAAAC3Nz alice@laptop".

(** alice has registered a key. *)
Definition alice_keyed : User.t :=
  User.Build "alice" [SSHKey.Build "laptop" key_line 0] [] 0.

Definition w_keys : World :=
  MkWorld ∅ (<["alice" := UserDoc alice_keyed]> ∅) (InstanceDoc "B") [].

Definition create_post (owner name : string)
  : ApiRequest ServerMore.CreateRepoRequest.t :=
  MkApiRequest "POST" EmptyString (Some (ServerMore.CreateRepoRequest.Build owner name)).

End ExamplesFed.
(** * Facts *)

(** ** Strings *)

Section StringFacts.
Import GoStrings.

Lemma append_cons (c : ascii) (a b : string) :
  String c a ++ b = String c (a ++ b).
Proof. reflexivity. Qed.

Lemma append_empty (b : string) : EmptyString ++ b = b.
Proof. reflexivity. Qed.

Lemma len_append (a b : string) : len (a ++ b) = (len a + len b)%nat.
Proof.
  unfold len. induction a as [|c a IH]; [reflexivity|].
  rewrite append_cons. simpl. now rewrite IH.
Qed.

Lemma take_append (a b : string) : take (len a) (a ++ b) = a.
Proof.
  induction a as [|c a IH]; [reflexivity|].
  rewrite append_cons. simpl. now rewrite IH.
Qed.

Lemma drop_append (a b : string) : drop (len a) (a ++ b) = b.
Proof.
  induction a as [|c a IH]; [reflexivity|].
  rewrite append_cons. simpl. exact IH.
Qed.

Lemma take_drop (n : nat) (s : string) : take n s ++ drop n s = s.
Proof.
  revert s; induction n as [|n IH]; intros s; [reflexivity|].
  destruct s as [|c s]; [reflexivity|].
  simpl. rewrite append_cons. now rewrite IH.
Qed.

Lemma len_take (n : nat) (s : string) : (n <= len s)%nat -> len (take n s) = n.
Proof.
  revert s; induction n as [|n IH]; intros s H; simpl; [reflexivity|].
  destruct s; simpl in *; [lia|]. unfold len in *. simpl. f_equal. apply IH. lia.
Qed.

Lemma HasPrefix_correct (s p : string) :
  HasPrefix s p = true <-> exists t, s = p ++ t.
Proof.
  unfold HasPrefix. rewrite andb_true_iff, Nat.leb_le, String.eqb_eq. split.
  - intros [_ H]. exists (drop (len p) s). rewrite <- H at 1. symmetry. apply take_drop.
  - intros [t ->]. rewrite len_append, take_append. split; [lia | reflexivity].
Qed.

Lemma HasSuffix_correct (s suf : string) :
  HasSuffix s suf = true <-> exists t, s = t ++ suf.
Proof.
  unfold HasSuffix. rewrite andb_true_iff, Nat.leb_le, String.eqb_eq. split.
  - intros [_ H]. exists (take (len s - len suf) s). rewrite <- H at 2.
    symmetry. apply take_drop.
  - intros [t ->]. rewrite len_append.
    replace (len t + len suf - len suf)%nat with (len t) by lia.
    rewrite drop_append. split; [lia | reflexivity].
Qed.

End StringFacts.

Section NameFacts.
Import GoStrings Names.

Lemma byte_val_bounds (c : ascii) : 0 <= byte_val c < 256.
Proof.
  unfold byte_val. pose proof (N_ascii_bounded c). lia.
Qed.

Lemma allowed_lt_128 (r : Z) : allowed r = true -> 0 <= r < 128.
Proof. unfold allowed. lia. Qed.

Lemma DecodeRune_ascii (c : ascii) (t : string) :
  byte_val c < 128 -> DecodeRune c t = (byte_val c, 1%nat).
Proof. intros H. unfold DecodeRune. destruct (Z.ltb_spec (byte_val c) 128); [reflexivity | lia]. Qed.

Lemma DecodeRune_multibyte (c : ascii) (t : string) :
  128 <= byte_val c -> 128 <= fst (DecodeRune c t).
Proof.
  intros H. unfold DecodeRune.
  destruct (Z.ltb_spec (byte_val c) 128); [lia|].
  pose proof (byte_val_bounds c) as Hc.
  generalize dependent (byte_val c). intros s0 H _ Hc.
  unfold lead_size, in_range, accept_lo, accept_hi, RuneError.
  destruct t as [|c1 [|c2 [|c3 t]]];
    repeat match goal with
           | |- context [if ?b then _ else _] => destruct b eqn:?
           end;
    cbn [fst]; try lia;
    repeat match goal with
           | H : context [if ?b then _ else _] |- _ => destruct b eqn:?
           end;
    pose proof (byte_val_bounds c1);
    Z.div_mod_to_equations; lia.
Qed.

Lemma DecodeRune_width_pos (c : ascii) (t : string) :
  (1 <= snd (DecodeRune c t))%nat.
Proof.
  unfold DecodeRune.
  destruct t as [|c1 [|c2 [|c3 t]]];
    repeat match goal with
           | |- context [if ?b then _ else _] => destruct b eqn:?
           | |- context [match ?n with O => _ | S _ => _ end] => destruct n eqn:?
           end; cbn [snd]; lia.
Qed.



Lemma runes_ascii (s : string) :
  forallb allowed (bytes s) = true -> runes s = bytes s.
Proof.
  unfold runes, bytes. induction s as [|c s IH]; intros H; [reflexivity|].
  simpl in H. apply andb_true_iff in H as [Hc Hs].
  apply allowed_lt_128 in Hc.
  simpl. rewrite DecodeRune_ascii by lia. simpl. f_equal. auto.
Qed.

Lemma runes_allowed (s : string) :
  forallb allowed (runes s) = true -> runes s = bytes s.
Proof.
  unfold runes, bytes. induction s as [|c s IH]; intros H; [reflexivity|].
  destruct (Z.lt_ge_cases (byte_val c) 128) as [Hlt|Hge].
  - simpl in *. rewrite DecodeRune_ascii in * by lia. simpl in *.
    apply andb_true_iff in H as [_ Hs]. f_equal. auto.
  - exfalso. simpl in H. pose proof (DecodeRune_multibyte c s Hge) as Hr.
    destruct (DecodeRune c s) as [r w]. simpl in H, Hr.
    apply andb_true_iff in H as [Hc _]. apply allowed_lt_128 in Hc. lia.
Qed.


Lemma runes_empty (s : string) : runes s = [] -> s = EmptyString.
Proof.
  destruct s as [|c s]; [reflexivity|]. unfold runes. simpl.
  destruct (DecodeRune c s). discriminate.
Qed.


Example isValidName_examples :
  isValidName "alice" = true /\ isValidName "my-repo_2.0" = true
  /\ isValidName EmptyString = false /\ isValidName ".git" = false
  /\ isValidName "repo." = false /\ isValidName "a/b" = false
  /\ isValidName ".." = false.
Proof. vm_compute. repeat split. Qed.

End NameFacts.

(** ** Handlers run step by step *)

Section MonadFacts.
Import Props.

Lemma bind_eq {A B} (m : M A) (f : A -> M B) (w : World) a w1 t1 :
  m w = (a, w1, t1) ->
  bind m f w = (answer (f a w1), after (f a w1), (t1 ++ log (f a w1))%list).
Proof. unfold bind. intros ->. reflexivity. Qed.

Lemma bind_run {A B} (m : M A) (f : A -> M B) (w : World) :
  bind m f w
  = (answer (f (answer (m w)) (after (m w))),
     after (f (answer (m w)) (after (m w))),
     (log (m w) ++ log (f (answer (m w)) (after (m w))))%list).
Proof. reflexivity. Qed.

Lemma answer_bind {A B} (m : M A) (f : A -> M B) (w : World) :
  answer (bind m f w) = answer (f (answer (m w)) (after (m w))).
Proof. reflexivity. Qed.

Lemma after_bind {A B} (m : M A) (f : A -> M B) (w : World) :
  after (bind m f w) = after (f (answer (m w)) (after (m w))).
Proof. reflexivity. Qed.

Lemma log_bind {A B} (m : M A) (f : A -> M B) (w : World) :
  log (bind m f w) = (log (m w) ++ log (f (answer (m w)) (after (m w))))%list.
Proof. reflexivity. Qed.

Lemma RepoExists_eq (owner name : string) (w : World) :
  Storage.RepoExists owner name w
  = (bool_decide (is_Some (repos w !! (owner, name))), w, [EvStat owner name]).
Proof. reflexivity. Qed.

Lemma GetMetadata_found (owner name : string) (w : World) d :
  repos w !! (owner, name) = Some d ->
  Storage.GetMetadata owner name w
  = (Storage.readMetaFile (openhub_json d), w,
     [EvStat owner name; EvReadMeta owner name]).
Proof.
  intros H. unfold Storage.GetMetadata.
  rewrite (bind_eq _ _ _ _ _ _ (RepoExists_eq owner name w)).
  rewrite H. rewrite bool_decide_eq_true_2 by eauto. 
  cbn. rewrite H. reflexivity.
Qed.

Lemma GetMetadata_missing (owner name : string) (w : World) :
  repos w !! (owner, name) = None ->
  Storage.GetMetadata owner name w
  = (Err ("repo does not exist: " ++ owner ++ "/" ++ name), w,
     [EvStat owner name]).
Proof.
  intros H. unfold Storage.GetMetadata.
  rewrite (bind_eq _ _ _ _ _ _ (RepoExists_eq owner name w)).
  rewrite H. rewrite bool_decide_eq_false_2 by (intros [? ?]; discriminate).
  reflexivity.
Qed.


Lemma scan_users_reads entries token w :
  after (Auth.scan_users entries token w) = w
  /\ forallb is_read (log (Auth.scan_users entries token w)) = true.
Proof.
  induction entries as [|u rest IH]; [split; reflexivity|].
  cbn [Auth.scan_users].
  unfold Auth.GetUser.
  unfold bind at 1. unfold after, log in *. cbn [fst snd emit get_world bind].
  destruct (users w !! u) as [[?|?|usr]|]; cbn [fst snd ret];
    try (destruct IH as [IH1 IH2]; split; [exact IH1 | cbn; exact IH2]).
  destruct (Auth.has_token usr token); cbn [fst snd ret].
  - split; reflexivity.
  - destruct IH as [IH1 IH2]; split; [exact IH1 | cbn; exact IH2].
Qed.

Lemma ValidateAPIToken_reads env token w :
  after (Auth.ValidateAPIToken env token w) = w
  /\ forallb is_read (log (Auth.ValidateAPIToken env token w)) = true.
Proof.
  unfold Auth.ValidateAPIToken. unfold bind at 1, after, log.
  cbn [emit fst snd].
  destruct (read_dir_err env); [split; reflexivity|].
  unfold bind, get_world. cbn [fst snd].
  pose proof (scan_users_reads (Auth.dir_entries (users w)) token w) as [H1 H2].
  unfold after, log in *. split; [exact H1 | cbn; exact H2].
Qed.

Lemma getAuthenticatedUser_reads env r w :
  after (GitHTTP.getAuthenticatedUser env r w) = w
  /\ forallb is_read (log (GitHTTP.getAuthenticatedUser env r w)) = true.
Proof.
  unfold GitHTTP.getAuthenticatedUser.
  destruct (HTTP.BasicAuth r) as [[u p]|]; [|split; reflexivity].
  destruct (_ || _); [split; reflexivity|].
  pose proof (ValidateAPIToken_reads env p w) as [H1 H2].
  unfold bind, after, log in *. cbn [fst snd].
  destruct (Auth.ValidateAPIToken env p w) as [[v w1] t1]. cbn [fst snd] in *. subst w1.
  destruct v as [v|?]; [destruct (negb _)|]; cbn [ret fst snd]; rewrite app_nil_r; auto.
Qed.

Lemma spawn_eq env argv input owner name w :
  Exec.spawn env argv input owner name w
  = match exec_engine env argv input
            (default EmptyString (git_data <$> repos w !! (owner, name))) with
    | NotStarted why => (NotStarted why, w, [EvExec argv owner name])
    | Exited err out data =>
        (Exited err out data,
         set_repos w (alter (fun d => MkRepoDir data (openhub_json d))
                            (owner, name) (repos w)),
         [EvExec argv owner name])
    end.
Proof.
  unfold Exec.spawn, bind, emit, get_world, put_world, ret. cbn [fst snd].
  destruct (exec_engine env argv input _); reflexivity.
Qed.

End MonadFacts.

(** Rewriting a run into its answer, its world and its log. *)
Lemma answer_mk {A} (a : A) w t : answer (a, w, t) = a.
Proof. reflexivity. Qed.
Lemma after_mk {A} (a : A) w t : after (a, w, t) = w.
Proof. reflexivity. Qed.
Lemma log_mk {A} (a : A) w t : log (a, w, t) = t.
Proof. reflexivity. Qed.
Lemma answer_ret {A} (a : A) w : answer (ret a w) = a.
Proof. reflexivity. Qed.
Lemma after_ret {A} (a : A) w : after (ret a w) = w.
Proof. reflexivity. Qed.
Lemma log_ret {A} (a : A) w : log (ret a w) = [].
Proof. reflexivity. Qed.
Lemma after_emit e w : after (emit e w) = w.
Proof. reflexivity. Qed.

Create Rewrite HintDb run.
#[local] Hint Rewrite @answer_bind @after_bind @log_bind @answer_mk @after_mk @log_mk
  @answer_ret @after_ret @log_ret after_emit : run.

Ltac step := autorewrite with run; cbv beta.

(** Membership in a log written as a concatenation. *)
Ltac in_log := repeat (rewrite in_app_iff || cbn [In app]); auto 20.


(** A branch whose status contradicts the hypothesis [H]. *)
Ltac bad H :=
  exfalso;
  cbv [ret answer fst snd HTTP.Status Server.jsonError HTTP.Error
       HTTP.StatusOK HTTP.StatusBadRequest HTTP.StatusUnauthorized
       HTTP.StatusForbidden HTTP.StatusNotFound HTTP.StatusMethodNotAllowed
       HTTP.StatusConflict HTTP.StatusInternalServerError] in H;
  discriminate H.



Section Replica.
Import GoStrings HTTP Props.


Lemma checkAccess_replica meta username owner :
  Metadata.ReplicaOf meta <> None ->
  GitHTTP.checkAccess true meta username owner = Some replica_refusal.
Proof.
  intros H. unfold GitHTTP.checkAccess. rewrite bool_decide_eq_true_2 by exact H.
  reflexivity.
Qed.

Lemma forallb_app_true {A} (f : A -> bool) l1 l2 :
  forallb f l1 = true -> forallb f l2 = true -> forallb f (l1 ++ l2) = true.
Proof. intros H1 H2. rewrite forallb_app, H1, H2. reflexivity. Qed.

Lemma http_receive_pack_replica env w r owner name :
  is_replica w owner name -> owner <> EmptyString -> name <> EmptyString ->
  Method r = "POST" ->
  GitHTTP.parseRepoPath (URLPath r) = (owner, name) ->
  answer (GitHTTP.handleGitCommand env r "git-receive-pack" w) = replica_refusal
  /\ after (GitHTTP.handleGitCommand env r "git-receive-pack" w) = w
  /\ forallb is_read (log (GitHTTP.handleGitCommand env r "git-receive-pack" w)) = true.
Proof.
  intros (d & m & Hd & Hm & Hrep) Ho Hn Hmeth Hparse.
  unfold GitHTTP.handleGitCommand.
  rewrite Hmeth, Hparse, String.eqb_refl. cbn [negb].
  rewrite (proj2 (String.eqb_neq _ _) Ho), (proj2 (String.eqb_neq _ _) Hn).
  cbn [orb].
  rewrite (bind_eq _ _ _ _ _ _ (RepoExists_eq owner name w)).
  rewrite Hd, bool_decide_eq_true_2 by eauto. cbn [negb].
  rewrite (bind_eq _ _ _ _ _ _ (GetMetadata_found owner name w d Hd)).
  rewrite Hm. cbn [Storage.readMetaFile].
  destruct (getAuthenticatedUser_reads env r w) as [Ha Hl].
  unfold bind, answer, after, log in *.
  rewrite checkAccess_replica by exact Hrep.
  cbn [ret fst snd]. rewrite Ha.
  split; [reflexivity|]. split; [reflexivity|].
  rewrite app_nil_r. cbn [app forallb is_read andb]. exact Hl.
Qed.

Lemma http_info_refs_replica env w r owner name :
  is_replica w owner name -> owner <> EmptyString -> name <> EmptyString ->
  Method r = "GET" -> QueryService r = "git-receive-pack" ->
  GitHTTP.parseRepoPath (URLPath r) = (owner, name) ->
  answer (GitHTTP.handleInfoRefs env r w) = replica_refusal
  /\ after (GitHTTP.handleInfoRefs env r w) = w
  /\ forallb is_read (log (GitHTTP.handleInfoRefs env r w)) = true.
Proof.
  intros (d & m & Hd & Hm & Hrep) Ho Hn Hmeth Hsvc Hparse.
  unfold GitHTTP.handleInfoRefs.
  rewrite Hmeth, Hsvc, Hparse, !String.eqb_refl. cbn [negb andb].
  replace (String.eqb "git-receive-pack" "git-upload-pack") with false by reflexivity.
  cbn [negb andb].
  rewrite (proj2 (String.eqb_neq _ _) Ho), (proj2 (String.eqb_neq _ _) Hn).
  cbn [orb].
  rewrite (bind_eq _ _ _ _ _ _ (RepoExists_eq owner name w)).
  rewrite Hd, bool_decide_eq_true_2 by eauto. cbn [negb].
  rewrite (bind_eq _ _ _ _ _ _ (GetMetadata_found owner name w d Hd)).
  rewrite Hm. cbn [Storage.readMetaFile].
  destruct (getAuthenticatedUser_reads env r w) as [Ha Hl].
  unfold bind, answer, after, log in *.
  rewrite checkAccess_replica by exact Hrep.
  cbn [ret fst snd]. rewrite Ha.
  split; [reflexivity|]. split; [reflexivity|].
  rewrite app_nil_r. cbn [app forallb is_read andb]. exact Hl.
Qed.

Lemma ssh_receive_pack_replica env srv w input command username arg rest owner name :
  is_replica w owner name -> owner <> EmptyString -> name <> EmptyString ->
  Fields command = "git-receive-pack" :: arg :: rest ->
  GitSSH.parseRepoPath (Trim arg GitSSH.quotes) = (owner, name) ->
  answer (GitSSH.handleGitCommand env srv input command username w)
    = GitSSH.refuse "permission denied: repository is a read-only replica"
  /\ after (GitSSH.handleGitCommand env srv input command username w) = w
  /\ forallb is_read (log (GitSSH.handleGitCommand env srv input command username w)) = true.
Proof.
  intros (d & m & Hd & Hm & Hrep) Ho Hn Hf Hparse.
  unfold GitSSH.handleGitCommand.
  rewrite Hf, Hparse.
  replace (HasPrefix "git-receive-pack" "git-") with true by reflexivity.
  cbn [negb].
  rewrite (proj2 (String.eqb_neq _ _) Ho), (proj2 (String.eqb_neq _ _) Hn).
  cbn [orb].
  rewrite (bind_eq _ _ _ _ _ _ (RepoExists_eq owner name w)).
  rewrite Hd, bool_decide_eq_true_2 by eauto. cbn [negb].
  rewrite (bind_eq _ _ _ _ _ _ (GetMetadata_found owner name w d Hd)).
  rewrite Hm, String.eqb_refl. cbn [Storage.readMetaFile].
  unfold GitSSH.checkAccess. rewrite bool_decide_eq_true_2 by exact Hrep.
  repeat split.
Qed.

Lemma LoadOrCreate_frame env w :
  repos (after (Admin.LoadOrCreate env w)) = repos w
  /\ users (after (Admin.LoadOrCreate env w)) = users w
  /\ queue (after (Admin.LoadOrCreate env w)) = queue w
  /\ Forall (fun e => e = EvReadInstance \/ e = EvWriteInstance)
            (log (Admin.LoadOrCreate env w)).
Proof.
  unfold Admin.LoadOrCreate, bind, emit, get_world, put_world, ret, after, log.
  cbn [fst snd].
  destruct (instance_json w); cbn [fst snd];
    [ destruct (write_file_err env _); cbn [fst snd] | | ];
    repeat split; cbn [app];
    repeat (apply List.Forall_cons; [first [left; reflexivity | right; reflexivity]|]);
    apply List.Forall_nil.
Qed.

Lemma add_replica_replica env w path url owner name :
  is_replica w owner name ->
  Split path "/" = [owner; name] ->
  Admin.ExitCode (answer (Admin.adminAddReplica env path url w)) = 1%nat
  /\ repos (after (Admin.adminAddReplica env path url w)) = repos w
  /\ users (after (Admin.adminAddReplica env path url w)) = users w
  /\ queue (after (Admin.adminAddReplica env path url w)) = queue w
  /\ Forall (add_replica_refusal_event owner name)
            (log (Admin.adminAddReplica env path url w)).
Proof.
  intros (d & m & Hd & Hm & Hrep) Hs.
  unfold Admin.adminAddReplica. rewrite Hs.
  destruct (mkdir_err env (basePath env)).
  { repeat split; apply List.Forall_nil. }
  destruct (LoadOrCreate_frame env w) as (Hr & Hu & Hq & Hl).
  destruct (Admin.LoadOrCreate env w) as [[i w1] t1] eqn:E.
  rewrite (bind_eq _ _ _ _ _ _ E).
  unfold after, answer, log in Hr, Hu, Hq, Hl. cbn [fst snd] in Hr, Hu, Hq, Hl.
  assert (Hl' : Forall (add_replica_refusal_event owner name) t1).
  { eapply List.Forall_impl; [|exact Hl]. unfold add_replica_refusal_event. tauto. }
  destruct i as [inst|why].
  { assert (Hd1 : repos w1 !! (owner, name) = Some d) by (rewrite Hr; exact Hd).
    rewrite (bind_eq _ _ _ _ _ _ (GetMetadata_found owner name w1 d Hd1)).
    rewrite Hm. cbn [Storage.readMetaFile].
    rewrite bool_decide_eq_true_2 by exact Hrep.
    unfold Admin.exit1, ret, answer, after, log. cbn [fst snd].
    repeat split; auto.
    rewrite app_nil_r. apply Forall_app. split; [exact Hl'|].
    unfold add_replica_refusal_event.
    repeat (apply List.Forall_cons; [tauto|]); apply List.Forall_nil. }
  unfold Admin.exit1, ret, answer, after, log. cbn [fst snd].
  rewrite app_nil_r. auto.
Qed.

Lemma drop_drop (n m : nat) (s : string) : drop n (drop m s) = drop (m + n) s.
Proof.
  revert s. induction m as [|m IH]; intros s; [reflexivity|].
  destruct s as [|c s]; simpl; [destruct n; reflexivity | apply IH].
Qed.
End Replica.

(** ** Replicas are read-only *)

Section ReplicaReadOnly.
Import GoStrings HTTP Props.

Lemma HasSuffix_both (s a b : string) :
  HasSuffix s a = true -> HasSuffix s b = true -> (len a <= len b)%nat ->
  HasSuffix b a = true.
Proof.
  unfold HasSuffix. rewrite !andb_true_iff, !Nat.leb_le, !String.eqb_eq.
  intros [La Ha] [Lb Hb] Lab. split; [exact Lab|].
  transitivity (drop (len b - len a) (drop (len s - len b) s));
    [now rewrite Hb|].
  rewrite drop_drop.
  replace (len s - len b + (len b - len a))%nat with (len s - len a)%nat by lia.
  exact Ha.
Qed.

Lemma receive_pack_not_info_refs (s : string) :
  HasSuffix s "/git-receive-pack" = true -> HasSuffix s "/info/refs" = false.
Proof.
  intros H. destruct (HasSuffix s "/info/refs") eqn:E; [|reflexivity].
  assert (C : HasSuffix "/git-receive-pack" "/info/refs" = true);
    [apply (HasSuffix_both s _ _ E H)|].
  - vm_compute. lia.
  - vm_compute in C. discriminate C.
Qed.

Lemma receive_pack_not_upload_pack (s : string) :
  HasSuffix s "/git-receive-pack" = true -> HasSuffix s "/git-upload-pack" = false.
Proof.
  intros H. destruct (HasSuffix s "/git-upload-pack") eqn:E; [|reflexivity].
  assert (C : HasSuffix "/git-receive-pack" "/git-upload-pack" = true);
    [apply (HasSuffix_both s _ _ E H)|].
  - vm_compute. lia.
  - vm_compute in C. discriminate C.
Qed.

Lemma handleRequest_push env (r : Request) :
  HasSuffix (URLPath r) "/git-receive-pack" = true ->
  GitHTTP.handleRequest env r = GitHTTP.handleGitCommand env r "git-receive-pack".
Proof.
  intros H. unfold GitHTTP.handleRequest.
  rewrite (receive_pack_not_info_refs _ H), (receive_pack_not_upload_pack _ H), H.
  reflexivity.
Qed.

Lemma handleRequest_info_refs env (r : Request) :
  HasSuffix (URLPath r) "/info/refs" = true ->
  GitHTTP.handleRequest env r = GitHTTP.handleInfoRefs env r.
Proof. intros H. unfold GitHTTP.handleRequest. rewrite H. reflexivity. Qed.

(** C3. A repository whose metadata has [replica_of] set (its owner and
    name non-empty, as for every repository of the data model) is read-only:
    a push over HTTP (the POST of the pack or the advertisement for it) is
    answered 403, a push over the shell transport is answered on stderr
    with exit status 1, both after reading only and with the world as it
    was; [add-replica] for the repository exits with status 1, leaves the
    repositories, users and queue as they were, and contacts no peer. *)
Theorem replica_rejects_pushes env w owner name :
  is_replica w owner name -> owner <> EmptyString -> name <> EmptyString ->
  (forall r,
      is_http_push r -> GitHTTP.parseRepoPath (URLPath r) = (owner, name) ->
      let res := run (GitHTTP.handleRequest env r) w in
      Status (answer res) = StatusForbidden
      /\ Written (answer res)
         = Plain ("cannot push: repository is a read-only replica" ++ nl)
      /\ after res = w
      /\ forallb is_read (log res) = true)
  /\ (forall srv input command username arg rest,
         Fields command = "git-receive-pack" :: arg :: rest ->
         GitSSH.parseRepoPath (Trim arg GitSSH.quotes) = (owner, name) ->
         let res := run (GitSSH.handleGitCommand env srv input command username) w in
         GitSSH.ExitStatus (answer res) = 1%nat
         /\ GitSSH.Stderr (answer res)
            = "permission denied: repository is a read-only replica" ++ nl
         /\ GitSSH.Stdout (answer res) = EmptyString
         /\ after res = w
         /\ forallb is_read (log res) = true)
  /\ (forall path url,
         Split path "/" = [owner; name] ->
         let res := run (Admin.adminAddReplica env path url) w in
         Admin.ExitCode (answer res) = 1%nat
         /\ repos (after res) = repos w
         /\ users (after res) = users w
         /\ queue (after res) = queue w
         /\ Forall (add_replica_refusal_event owner name) (log res)).
Proof.
  intros Hrep Ho Hn. split; [|split].
  - intros r [[Hm Hs]|(Hm & Hs & Hq)] Hp; unfold run; cbn zeta.
    + rewrite (handleRequest_push env r Hs).
      destruct (http_receive_pack_replica env w r owner name Hrep Ho Hn Hm Hp)
        as (-> & -> & ->). repeat split.
    + rewrite (handleRequest_info_refs env r Hs).
      destruct (http_info_refs_replica env w r owner name Hrep Ho Hn Hm Hq Hp)
        as (-> & -> & ->). repeat split.
  - intros srv input command username arg rest Hf Hp. unfold run; cbn zeta.
    destruct (ssh_receive_pack_replica env srv w input command username arg rest
                owner name Hrep Ho Hn Hf Hp) as (-> & -> & ->).
    repeat split.
  - intros path url Hs. unfold run; cbn zeta.
    apply add_replica_replica; assumption.
Qed.

Lemma replica_rejects_pushes_witness :
  let http := run (GitHTTP.handleRequest Examples.env0
                     (Examples.http_push (Some ("alice", "T")))) Examples.w_replica in
  let ssh := run (GitSSH.handleGitCommand Examples.env0 Main.sshServer "pack"
                    Examples.ssh_push "alice") Examples.w_replica in
  let adm := run (Admin.adminAddReplica Examples.env0 "alice/foo" "http://peer")
                 Examples.w_replica in
  is_replica Examples.w_replica "alice" "foo"
  /\ Status (answer http) = 403%nat /\ after http = Examples.w_replica
  /\ GitSSH.ExitStatus (answer ssh) = 1%nat /\ after ssh = Examples.w_replica
  /\ Admin.ExitCode (answer adm) = 1%nat.
Proof.
  assert (Hrep : is_replica Examples.w_replica "alice" "foo").
  { eexists _, _. split; [vm_compute; reflexivity|]. split; [reflexivity|discriminate]. }
  destruct (replica_rejects_pushes Examples.env0 Examples.w_replica "alice" "foo" Hrep
              ltac:(discriminate) ltac:(discriminate)) as (Hhttp & Hssh & Hadm).
  cbn zeta. split; [exact Hrep|].
  destruct (Hhttp (Examples.http_push (Some ("alice", "T")))) as (H1 & _ & H2 & _).
  { left. split; reflexivity. }
  { vm_compute. reflexivity. }
  destruct (Hssh Main.sshServer "pack" Examples.ssh_push "alice" "'alice/foo.git'" [])
    as (H3 & _ & _ & H4 & _).
  { vm_compute. reflexivity. }
  { vm_compute. reflexivity. }
  destruct (Hadm "alice/foo" "http://peer") as (H5 & _).
  { vm_compute. reflexivity. }
  repeat split; assumption.
Defined.

End ReplicaReadOnly.

(** ** Credentials that do not authenticate count as none *)

Section WrongCredentials.
Import GoStrings HTTP Props.

Lemma agree_refl {A} (x : A * World * list Event) : agree x x.
Proof. repeat split. Qed.

Lemma agree_bind {A B} (m1 m2 : M A) (f1 f2 : A -> M B) (w : World) :
  agree (m1 w) (m2 w) ->
  agree (f1 (answer (m1 w)) (after (m1 w))) (f2 (answer (m1 w)) (after (m1 w))) ->
  agree (bind m1 f1 w) (bind m2 f2 w).
Proof.
  unfold agree, bind, answer, after, log. cbn [fst snd].
  intros (Ha & Hw & Hl) (Ha' & Hw' & Hl').
  rewrite <- Ha, <- Hw, !filter_app, Hl, Hl'. repeat split; assumption.
Qed.

Lemma GetMetadata_after (owner name : string) (w : World) :
  after (Storage.GetMetadata owner name w) = w.
Proof.
  destruct (repos w !! (owner, name)) as [d|] eqn:E.
  - now rewrite (GetMetadata_found _ _ _ _ E).
  - now rewrite (GetMetadata_missing _ _ _ E).
Qed.

Lemma filter_auth_reads_scan entries token w :
  filter (fun e => negb (is_auth_read e)) (log (Auth.scan_users entries token w)) = [].
Proof.
  induction entries as [|u rest IH]; [reflexivity|].
  cbn [Auth.scan_users]. unfold Auth.GetUser.
  unfold bind at 1. unfold log in *. cbn [fst snd emit get_world bind].
  destruct (users w !! u) as [[?|?|usr]|]; cbn [fst snd ret]; try exact IH.
  destruct (Auth.has_token usr token); cbn [fst snd ret]; [reflexivity | exact IH].
Qed.

Lemma filter_auth_reads_validate env token w :
  filter (fun e => negb (is_auth_read e)) (log (Auth.ValidateAPIToken env token w)) = [].
Proof.
  unfold Auth.ValidateAPIToken. unfold bind at 1, log. cbn [emit fst snd].
  destruct (read_dir_err env); [reflexivity|].
  unfold bind, get_world. cbn [fst snd].
  exact (filter_auth_reads_scan (Auth.dir_entries (users w)) token w).
Qed.

Lemma getAuthenticatedUser_bad env w r user pass :
  BasicAuth r = Some (user, pass) -> bad_credentials env w user pass ->
  agree (GitHTTP.getAuthenticatedUser env r w)
        (GitHTTP.getAuthenticatedUser env (without_credentials r) w).
Proof.
  intros Hb Hbad. unfold GitHTTP.getAuthenticatedUser.
  cbn [BasicAuth without_credentials]. rewrite Hb.
  destruct (String.eqb_spec user EmptyString) as [->|Hu]; [apply agree_refl|].
  destruct (String.eqb_spec pass EmptyString) as [->|Hp]; [apply agree_refl|].
  cbn [orb].
  pose proof (ValidateAPIToken_reads env pass w) as [Hw _].
  pose proof (filter_auth_reads_validate env pass w) as Hl.
  assert (Hans : match answer (Auth.ValidateAPIToken env pass w) with
                 | Ok v => v <> user
                 | Err _ => True
                 end).
  { destruct Hbad as [?|[?|[[why E]|(v & E & Hv)]]]; try contradiction;
      rewrite E; auto. }
  unfold agree, bind, ret, answer, after, log in *.
  destruct (Auth.ValidateAPIToken env pass w) as [[v w1] t1]. cbn [fst snd] in *.
  subst w1.
  destruct v as [v|why]; cbn [fst snd].
  - rewrite (proj2 (String.eqb_neq _ _) Hans). cbn [negb fst snd].
    rewrite app_nil_r, Hl. repeat split.
  - rewrite app_nil_r, Hl. repeat split.
Qed.

Lemma handleGitCommand_bad env w r service user pass :
  BasicAuth r = Some (user, pass) -> bad_credentials env w user pass ->
  agree (GitHTTP.handleGitCommand env r service w)
        (GitHTTP.handleGitCommand env (without_credentials r) service w).
Proof.
  intros Hb Hbad. unfold GitHTTP.handleGitCommand.
  cbn [Method URLPath ContentEncoding Body without_credentials].
  destruct (negb _); [apply agree_refl|].
  destruct (GitHTTP.parseRepoPath (URLPath r)) as [owner repo].
  destruct (_ || _); [apply agree_refl|].
  apply agree_bind; [apply agree_refl|].
  rewrite RepoExists_eq. unfold answer at 1 2, after at 1 2. cbn [fst snd].
  destruct (negb _); [apply agree_refl|].
  apply agree_bind; [apply agree_refl|].
  rewrite GetMetadata_after.
  destruct (answer (Storage.GetMetadata owner repo w)); [|apply agree_refl].
  apply agree_bind; [exact (getAuthenticatedUser_bad env w r user pass Hb Hbad)|].
  apply agree_refl.
Qed.

Lemma handleInfoRefs_bad env w r user pass :
  BasicAuth r = Some (user, pass) -> bad_credentials env w user pass ->
  agree (GitHTTP.handleInfoRefs env r w)
        (GitHTTP.handleInfoRefs env (without_credentials r) w).
Proof.
  intros Hb Hbad. unfold GitHTTP.handleInfoRefs.
  cbn [Method URLPath QueryService without_credentials].
  destruct (negb _); [apply agree_refl|].
  destruct (_ && _); [apply agree_refl|].
  destruct (GitHTTP.parseRepoPath (URLPath r)) as [owner repo].
  destruct (_ || _); [apply agree_refl|].
  apply agree_bind; [apply agree_refl|].
  rewrite RepoExists_eq. unfold answer at 1 2, after at 1 2. cbn [fst snd].
  destruct (negb _); [apply agree_refl|].
  apply agree_bind; [apply agree_refl|].
  rewrite GetMetadata_after.
  destruct (answer (Storage.GetMetadata owner repo w)); [|apply agree_refl].
  apply agree_bind; [exact (getAuthenticatedUser_bad env w r user pass Hb Hbad)|].
  apply agree_refl.
Qed.

(** C9. A request of the HTTP transport whose Basic credentials do not
    authenticate (empty user name or password, a password that is no API
    token, a token of another user) is handled as the same request without
    credentials: same response, same world afterwards, same actions apart
    from the reads of the credential store.  In particular the
    advertisement of a public repository is served: the engine is spawned,
    and when it exits cleanly the answer is 200. *)
Theorem wrong_credentials_are_anonymous env w r user pass :
  BasicAuth r = Some (user, pass) -> bad_credentials env w user pass ->
  agree (run (GitHTTP.handleRequest env r) w)
        (run (GitHTTP.handleRequest env (without_credentials r)) w)
  /\ (forall owner name d meta,
         Method r = "GET" -> HasSuffix (URLPath r) "/info/refs" = true ->
         QueryService r = "git-upload-pack" ->
         GitHTTP.parseRepoPath (URLPath r) = (owner, name) ->
         owner <> EmptyString -> name <> EmptyString ->
         repos w !! (owner, name) = Some d ->
         Storage.readMetaFile (openhub_json d) = Ok meta ->
         Metadata.Private meta = false ->
         let argv := ["git-upload-pack"; "--stateless-rpc"; "--advertise-refs";
                      Storage.RepoPath env owner name] in
         let res := run (GitHTTP.handleRequest env r) w in
         In (EvExec argv owner name) (log res)
         /\ (forall out data,
                exec_engine env argv EmptyString (git_data d) = Exited None out data ->
                Status (answer res) = StatusOK)).
Proof.
  intros Hb Hbad. split.
  - unfold run, GitHTTP.handleRequest. cbn [URLPath without_credentials].
    destruct (HasSuffix (URLPath r) "/info/refs");
      [exact (handleInfoRefs_bad env w r user pass Hb Hbad)|].
    destruct (HasSuffix (URLPath r) "/git-upload-pack");
      [exact (handleGitCommand_bad env w r _ user pass Hb Hbad)|].
    destruct (HasSuffix (URLPath r) "/git-receive-pack");
      [exact (handleGitCommand_bad env w r _ user pass Hb Hbad)|].
    apply agree_refl.
  - intros owner name d meta Hm Hs Hq Hp Ho Hn Hd Hmeta Hpub. cbn zeta.
    unfold run. rewrite (handleRequest_info_refs env r Hs).
    unfold GitHTTP.handleInfoRefs.
    rewrite Hm, Hq, Hp, !String.eqb_refl. cbn [negb andb].
    rewrite (proj2 (String.eqb_neq _ _) Ho), (proj2 (String.eqb_neq _ _) Hn).
    cbn [orb].
    rewrite (bind_eq _ _ _ _ _ _ (RepoExists_eq owner name w)).
    rewrite Hd, bool_decide_eq_true_2 by eauto. cbn [negb].
    rewrite (bind_eq _ _ _ _ _ _ (GetMetadata_found owner name w d Hd)).
    rewrite Hmeta.
    destruct (getAuthenticatedUser_reads env r w) as [Ha _].
    destruct (GitHTTP.getAuthenticatedUser env r w) as [[username w1] t1] eqn:E.
    unfold after in Ha. cbn [fst snd] in Ha. subst w1.
    rewrite (bind_eq _ _ _ _ _ _ E).
    replace (String.eqb "git-upload-pack" "git-receive-pack") with false by reflexivity.
    unfold GitHTTP.checkAccess. rewrite Hpub. cbn [andb].
    rewrite bind_run, spawn_eq.
    rewrite Hd.
    change (default EmptyString (git_data <$> Some d)) with (git_data d).
    split.
    + unfold log at 1. cbn [snd]. apply in_or_app. right.
      unfold log at 1. cbn [snd]. apply in_or_app. right.
      unfold log at 1. cbn [snd]. apply in_or_app. right.
      unfold log at 1. cbn [snd]. apply in_or_app. left.
      match goal with
      | |- context [exec_engine env ?a EmptyString (git_data d)] =>
          destruct (exec_engine env a EmptyString (git_data d))
      end; left; reflexivity.
    + intros out data Hx. rewrite Hx. reflexivity.
Qed.

Lemma wrong_credentials_are_anonymous_witness :
  let r := Examples.http_advertise "git-upload-pack" (Some ("bob", "T")) in
  bad_credentials Examples.env0 Examples.w_origin "bob" "T"
  /\ agree (run (GitHTTP.handleRequest Examples.env0 r) Examples.w_origin)
           (run (GitHTTP.handleRequest Examples.env0 (without_credentials r))
                Examples.w_origin)
  /\ Status (answer (run (GitHTTP.handleRequest Examples.env0 r) Examples.w_origin))
     = 200%nat.
Proof.
  cbn zeta.
  assert (Hbad : bad_credentials Examples.env0 Examples.w_origin "bob" "T").
  { right. right. right. exists "alice". split; [vm_compute; reflexivity | discriminate]. }
  destruct (wrong_credentials_are_anonymous Examples.env0 Examples.w_origin
              (Examples.http_advertise "git-upload-pack" (Some ("bob", "T")))
              "bob" "T" eq_refl Hbad) as [Hagree Hpub].
  split; [exact Hbad|]. split; [exact Hagree|].
  assert (Hparse : GitHTTP.parseRepoPath "/alice/foo.git/info/refs" = ("alice", "foo"))
    by (vm_compute; reflexivity).
  assert (Hd : repos Examples.w_origin !! ("alice", "foo")
               = Some (MkRepoDir "g0" (MetaDoc Examples.origin_meta)))
    by (vm_compute; reflexivity).
  destruct (Hpub "alice" "foo" _ Examples.origin_meta eq_refl eq_refl eq_refl Hparse
                 ltac:(discriminate) ltac:(discriminate) Hd eq_refl eq_refl)
    as [_ Hok].
  eapply Hok. vm_compute. reflexivity.
Defined.

End WrongCredentials.

(** ** The peer receiver *)

Section Replicate.
Import GoStrings HTTP Props Names.

Lemma SetMetadata_eq env owner name meta w :
  Storage.SetMetadata env owner name meta w
  = if bool_decide (is_Some (repos w !! (owner, name))) then
      match write_file_err env (Storage.metadataPath env owner name) with
      | Some why =>
          (Some ("write metadata: " ++ why), w,
           [EvStat owner name; EvWriteMeta owner name])
      | None =>
          (None,
           set_repos w (alter (fun d => MkRepoDir (git_data d) (MetaDoc meta))
                              (owner, name) (repos w)),
           [EvStat owner name; EvWriteMeta owner name])
      end
    else (Some ("repo does not exist: " ++ owner ++ "/" ++ name), w,
          [EvStat owner name]).
Proof.
  unfold Storage.SetMetadata.
  rewrite (bind_eq _ _ _ _ _ _ (RepoExists_eq owner name w)).
  destruct (bool_decide _); [|reflexivity].
  cbn [negb]. unfold bind, emit, get_world, put_world, ret, answer, after, log.
  cbn [fst snd].
  destruct (write_file_err env _); reflexivity.
Qed.

(** After a write that succeeded, the document is what the file holds. *)
Lemma SetMetadata_stored env owner name meta w :
  answer (Storage.SetMetadata env owner name meta w) = None ->
  exists d, repos (after (Storage.SetMetadata env owner name meta w)) !! (owner, name)
            = Some d /\ openhub_json d = MetaDoc meta.
Proof.
  rewrite SetMetadata_eq.
  destruct (repos w !! (owner, name)) as [d|] eqn:E.
  - rewrite bool_decide_eq_true_2 by eauto.
    destruct (write_file_err env _); [discriminate|].
    intros _. exists (MkRepoDir (git_data d) (MetaDoc meta)).
    unfold after. cbn [fst snd set_repos repos].
    rewrite lookup_alter_eq, E. split; reflexivity.
  - rewrite bool_decide_eq_false_2 by (intros [? ?]; discriminate).
    discriminate.
Qed.

Lemma Status_jsonError msg st : Status (Server.jsonError msg st) = st.
Proof. reflexivity. Qed.

(** From the write of the temporary bundle on: a success means the
    metadata was written. *)
Ltac replicate_tail env owner repo req :=
  let H := fresh "H" in
  let Hst := fresh "Hst" in
  let d := fresh "d" in
  let Hd := fresh "Hd" in
  let Hm := fresh "Hm" in
  intros ?w;
  destruct (write_file_err env (Server.bundlePath env owner repo));
    [step; intros H; bad H|];
  step; rewrite spawn_eq;
  match goal with
  | |- context [exec_engine env ?a ?i ?b] =>
      destruct (exec_engine env a i b) as [?|[?|] ? ?]
  end; step; try (intros H; bad H);
  match goal with
  | |- context [Storage.SetMetadata env owner repo ?m ?w1] =>
      pose proof (SetMetadata_stored env owner repo m w1) as Hst;
      destruct (answer (Storage.SetMetadata env owner repo m w1))
  end; step; [intros H; bad H|];
  intros _; destruct (Hst eq_refl) as (d & Hd & Hm);
  exists req; eexists; split; [reflexivity|];
  fold owner repo; unfold run;
  rewrite (GetMetadata_found _ _ _ _ Hd); step; rewrite Hm;
  split; [reflexivity|]; split; reflexivity.

(** C7. When the peer answers a [/replicate] request with success, the
    metadata it holds for the repository of the request is the metadata of
    the request with [replica_of] set to the instance id and invitation key
    of the request. *)
Theorem replicate_records_source env w r :
  let res := run (Server.handleReplicate env r) w in
  Status (answer res) = StatusOK ->
  exists req m,
    Decoded r = Some req
    /\ answer (run (Storage.GetMetadata (Server.ReplicateReq.Owner req)
                                        (Server.ReplicateReq.Repo req)) (after res))
       = Ok m
    /\ m = Metadata.with_ReplicaOf (Server.ReplicateReq.Metadata req)
                                   (Some (source_of req))
    /\ Metadata.ReplicaOf m
       = Some (ReplicaSource.Build (Server.ReplicateReq.InstanceID req)
                                   (Server.ReplicateReq.InvitationKey req)).
Proof.
  cbn zeta. unfold run, Server.handleReplicate.
  destruct (negb (String.eqb (ApiMethod r) "POST")); [intros H; bad H|].
  destruct (String.eqb (Authorization r) EmptyString); [intros H; bad H|].
  destruct (SplitN2 (Authorization r) " ") as [|scheme [|token [|]]];
    [intros H; bad H | intros H; bad H | | intros H; bad H].
  destruct (negb (String.eqb scheme "Bearer")); [intros H; bad H|].
  step.
  destruct (ValidateAPIToken_reads env token w) as [-> _].
  destruct (answer (Auth.ValidateAPIToken env token w)) as [username|?];
    [|intros H; bad H].
  destruct (Decoded r) as [req|]; [|intros H; bad H].
  destruct (_ || _); [intros H; bad H|].
  destruct (_ || _); [intros H; bad H|].
  destruct (String.eqb (Server.ReplicateReq.Bundle req) EmptyString); [intros H; bad H|].
  destruct (negb (HasPrefix _ _)); [intros H; bad H|].
  destruct (negb (String.eqb username _)); [intros H; bad H|].
  destruct (base64_decode env _) as [bundleData|?]; [|intros H; bad H].
  set (owner := Server.ReplicateReq.Owner req).
  set (repo := Server.ReplicateReq.Repo req).
  step. rewrite RepoExists_eq. step.
  destruct (bool_decide (is_Some (repos w !! (owner, repo)))).
  - step. rewrite GetMetadata_after.
    destruct (answer (Storage.GetMetadata owner repo w)) as [existingMeta|?];
      [|step; intros H; bad H].
    destruct (Metadata.ReplicaOf existingMeta) as [src|]; [|step; intros H; bad H].
    destruct (negb _); [step; intros H; bad H|].
    step. generalize w. replicate_tail env owner repo req.
  - step.
    destruct (answer (Storage.CreateRepo env owner repo w));
      [step; intros H; bad H|].
    step. generalize (after (Storage.CreateRepo env owner repo w)).
    replicate_tail env owner repo req.
Qed.



Lemma replicate_records_source_witness :
  let res := run (Server.handleReplicate Examples.env0
                    (Examples.replicate_post "Bearer TR" "QUJD")) Examples.w_empty in
  Status (answer res) = StatusOK
  /\ exists m,
      answer (run (Storage.GetMetadata "alice" "foo") (after res)) = Ok m
      /\ Metadata.ReplicaOf m = Some (ReplicaSource.Build "A" "K").
Proof.
  cbn zeta.
  assert (H : Status (answer (run (Server.handleReplicate Examples.env0
                                     (Examples.replicate_post "Bearer TR" "QUJD"))
                                  Examples.w_empty)) = StatusOK)
    by (vm_compute; reflexivity).
  split; [exact H|].
  destruct (replicate_records_source Examples.env0 Examples.w_empty
              (Examples.replicate_post "Bearer TR" "QUJD") H)
    as (req & m & Hreq & Hget & _ & Hsrc).
  injection Hreq as <-. exists m. split; [exact Hget | exact Hsrc].
Defined.

(** C4, as amended.  An authenticated [/replicate] request whose bearer
    token belongs to a user other than the one built from the body is
    rejected, the world is as it was and only reads were made; the status
    is 403 when the body passes the field checks and 400 when it does
    not. *)
Theorem replicate_unbound_user_rejected env w r username :
  authenticated env w r username ->
  (forall req, Decoded r = Some req -> ~ bound_user username req) ->
  let res := run (Server.handleReplicate env r) w in
  after res = w
  /\ forallb is_read (log res) = true
  /\ ((exists req, Decoded r = Some req /\ body_valid req) ->
      Status (answer res) = StatusForbidden)
  /\ (~ (exists req, Decoded r = Some req /\ body_valid req) ->
      Status (answer res) = StatusBadRequest).
Proof.
  intros (Hm & Ha & token & Hs & Hv) Hunbound. cbn zeta.
  unfold run, Server.handleReplicate.
  rewrite Hm, Hs, !String.eqb_refl, (proj2 (String.eqb_neq _ _) Ha).
  cbn [negb].
  destruct (ValidateAPIToken_reads env token w) as [Hw Hl].
  step. rewrite Hw, Hv.
  destruct (Decoded r) as [req|] eqn:Hd.
  2:{ step. rewrite app_nil_r. repeat split; auto.
      - intros (req & Hreq & _). discriminate.  }
  specialize (Hunbound req eq_refl).
  unfold body_valid.
  destruct (String.eqb_spec (Server.ReplicateReq.Owner req) EmptyString) as [Ho|Ho];
    [cbn [orb]; step; rewrite app_nil_r; repeat split; auto;
     intros (? & [= <-] & ?); tauto|].
  destruct (String.eqb_spec (Server.ReplicateReq.Repo req) EmptyString) as [Hr|Hr];
    [cbn [orb]; step; rewrite app_nil_r; repeat split; auto;
     intros (? & [= <-] & ?); tauto|].
  destruct (String.eqb_spec (Server.ReplicateReq.InstanceID req) EmptyString) as [Hi|Hi];
    [cbn [orb]; step; rewrite app_nil_r; repeat split; auto;
     intros (? & [= <-] & ?); tauto|].
  destruct (String.eqb_spec (Server.ReplicateReq.InvitationKey req) EmptyString) as [Hk|Hk];
    [cbn [orb]; step; rewrite app_nil_r; repeat split; auto;
     intros (? & [= <-] & ?); tauto|].
  cbn [orb].
  destruct (isValidName (Server.ReplicateReq.Owner req)) eqn:Hvo;
    [|cbn [negb orb]; step; rewrite app_nil_r; repeat split; auto;
      intros (? & [= <-] & ?); intuition congruence].
  destruct (isValidName (Server.ReplicateReq.Repo req)) eqn:Hvr;
    [|cbn [negb orb]; step; rewrite app_nil_r; repeat split; auto;
      intros (? & [= <-] & ?); intuition congruence].
  cbn [negb orb].
  destruct (String.eqb_spec (Server.ReplicateReq.Bundle req) EmptyString) as [Hb|Hb];
    [step; rewrite app_nil_r; repeat split; auto;
     intros (? & [= <-] & ?); tauto|].
  assert (Hvalid : exists req0, Some req = Some req0 /\ body_valid req0).
  { exists req. unfold body_valid. tauto. }
  destruct (HasPrefix username "replication-") eqn:Hp; cbn [negb].
  2:{ step. rewrite app_nil_r. repeat split; auto. intros C. elim C. exact Hvalid. }
  destruct (String.eqb_spec username
              (Server.replicationUser (Server.ReplicateReq.Owner req)
                 (Server.ReplicateReq.Repo req) (Server.ReplicateReq.InstanceID req)))
    as [He|He]; cbn [negb].
  { exfalso. apply Hunbound. split; assumption. }
  step. rewrite app_nil_r. repeat split; auto. intros C. elim C. exact Hvalid.
Qed.


Lemma replicate_unbound_user_rejected_witness :
  let res := run (Server.handleReplicate Examples.env0
                    (Examples.replicate_post "Bearer TB" "QUJD")) Examples.w_replica in
  authenticated Examples.env0 Examples.w_replica
                (Examples.replicate_post "Bearer TB" "QUJD") "bob"
  /\ after res = Examples.w_replica
  /\ Status (answer res) = StatusForbidden.
Proof.
  cbn zeta.
  assert (Hauth : authenticated Examples.env0 Examples.w_replica
                    (Examples.replicate_post "Bearer TB" "QUJD") "bob").
  { split; [reflexivity|]. split; [discriminate|].
    exists "TB". split; vm_compute; reflexivity. }
  assert (Hunbound : forall req,
             Decoded (Examples.replicate_post "Bearer TB" "QUJD") = Some req ->
             ~ bound_user "bob" req).
  { intros req _ [Hp _]. vm_compute in Hp. discriminate Hp. }
  destruct (replicate_unbound_user_rejected Examples.env0 Examples.w_replica
              (Examples.replicate_post "Bearer TB" "QUJD") "bob" Hauth Hunbound)
    as (Hw & _ & H403 & _).
  split; [exact Hauth|]. split; [exact Hw|].
  apply H403. eexists. split; [reflexivity|].
  repeat split; try discriminate; vm_compute; reflexivity.
Defined.

(** The binding compares the joined string: two different (owner, repo)
    pairs with the hyphen in different places give the same user name. *)
Example replication_user_collides :
  Server.replicationUser "a-b" "c" "A" = Server.replicationUser "a" "b-c" "A"
  /\ isValidName "a-b" = true /\ isValidName "b-c" = true.
Proof. vm_compute. repeat split. Qed.

(** C4, as it is written, fails: a request authenticated as alice, whose
    body names alice/foo but carries no bundle, is answered 400. *)
Lemma replicate_binding_claim_fails : ~ replicate_binding_claim.
Proof.
  intros C.
  destruct (C Examples.env0 Examples.w_origin
              (Examples.replicate_post "Bearer T" EmptyString) "alice") as [H _].
  - split; [reflexivity|]. split; [discriminate|].
    exists "T". split; vm_compute; reflexivity.
  - intros req _ [Hp _]. vm_compute in Hp. discriminate Hp.
  - vm_compute in H. discriminate H.
Qed.

Lemma replicationUser_prefix owner repo id :
  HasPrefix (Server.replicationUser owner repo id) "replication-" = true.
Proof. apply HasPrefix_correct. eexists. reflexivity. Qed.

(** The three cases of the look at an existing repository. *)
Lemma replicate_existing_repo_cases env w r req bundleData d meta :
  reaches_repo_check env w r req bundleData ->
  repos w !! (Server.ReplicateReq.Owner req, Server.ReplicateReq.Repo req) = Some d ->
  Storage.readMetaFile (openhub_json d) = Ok meta ->
  let owner := Server.ReplicateReq.Owner req in
  let repo := Server.ReplicateReq.Repo req in
  let res := run (Server.handleReplicate env r) w in
  (Metadata.ReplicaOf meta = None ->
   Status (answer res) = StatusConflict /\ after res = w
   /\ forallb is_read (log res) = true)
  /\ (forall src,
         Metadata.ReplicaOf meta = Some src ->
         ReplicaSource.InvitationKey src <> Server.ReplicateReq.InvitationKey req ->
         Status (answer res) = StatusForbidden /\ after res = w
         /\ forallb is_read (log res) = true)
  /\ (forall src,
         Metadata.ReplicaOf meta = Some src ->
         ReplicaSource.InvitationKey src = Server.ReplicateReq.InvitationKey req ->
         In (EvWriteTemp (Server.bundlePath env owner repo)) (log res)
         /\ (write_file_err env (Server.bundlePath env owner repo) = None ->
             In (EvExec ["git"; "fetch"; Server.bundlePath env owner repo;
                         "refs/*:refs/*"] owner repo) (log res))).
Proof.
  intros ((Hm & Ha & token & Hs & Hv) & Hd & Hbody & Hb64) Hrepo Hmeta.
  destruct Hbody as (Ho & Hr & Hi & Hk & Hvo & Hvr & Hb).
  cbn zeta. unfold run, Server.handleReplicate.
  rewrite Hm, Hs, Hd, !String.eqb_refl, (proj2 (String.eqb_neq _ _) Ha).
  cbn [negb].
  destruct (ValidateAPIToken_reads env token w) as [Hw Hl].
  step. rewrite Hw, Hv.
  rewrite (proj2 (String.eqb_neq _ _) Ho), (proj2 (String.eqb_neq _ _) Hr),
    (proj2 (String.eqb_neq _ _) Hi), (proj2 (String.eqb_neq _ _) Hk),
    (proj2 (String.eqb_neq _ _) Hb), Hvo, Hvr, replicationUser_prefix,
    String.eqb_refl, Hb64.
  cbn [negb orb].
  step. rewrite !RepoExists_eq. step.
  rewrite Hrepo, bool_decide_eq_true_2 by eauto.
  step. rewrite !(GetMetadata_found _ _ _ _ Hrepo). step. rewrite Hmeta.
  split; [|split].
  - intros ->. step. cbn [app].
    repeat split. rewrite forallb_app, Hl. reflexivity.
  - intros src -> Hne. rewrite (proj2 (String.eqb_neq _ _) Hne). cbn [negb].
    step. cbn [app].
    repeat split. rewrite forallb_app, Hl. reflexivity.
  - intros src -> ->. rewrite String.eqb_refl. cbn [negb].
    step. split.
    + unfold emit at 1. rewrite log_mk. in_log.
    + intros Hwr. rewrite Hwr. step. rewrite spawn_eq.
      match goal with
      | |- context [exec_engine env ?a ?i ?b] => destruct (exec_engine env a i b)
      end; rewrite log_mk; in_log.
Qed.


(** Whatever else a [/replicate] request carries, when it names a
    repository that exists with readable metadata and that is an origin,
    or a replica recorded under another invitation key, the handler only
    reads, leaves the world as it was and does not answer 200. *)
Lemma replicate_existing_repo_refused env w r req d meta :
  Decoded r = Some req ->
  repos w !! (Server.ReplicateReq.Owner req, Server.ReplicateReq.Repo req) = Some d ->
  Storage.readMetaFile (openhub_json d) = Ok meta ->
  (forall src, Metadata.ReplicaOf meta = Some src ->
               ReplicaSource.InvitationKey src <> Server.ReplicateReq.InvitationKey req) ->
  let res := run (Server.handleReplicate env r) w in
  after res = w /\ forallb is_read (log res) = true
  /\ Status (answer res) <> StatusOK.
Proof.
  intros Hd Hrepo Hmeta Hkeys. cbn zeta. unfold run, Server.handleReplicate.
  rewrite Hd.
  destruct (negb _); [step; repeat split; intros H; bad H|].
  destruct (String.eqb (Authorization r) EmptyString);
    [step; repeat split; intros H; bad H|].
  destruct (SplitN2 _ _) as [|scheme [|token [|? ?]]];
    try (step; repeat split; intros H; bad H).
  destruct (negb _); [step; repeat split; intros H; bad H|].
  destruct (ValidateAPIToken_reads env token w) as [Hw Hl].
  step. rewrite Hw.
  destruct (answer (Auth.ValidateAPIToken env token w)) as [username|why].
  2:{ step. rewrite app_nil_r. repeat split; [exact Hl | intros H; bad H]. }
  destruct (_ || _ || _ || _);
    [step; rewrite app_nil_r; repeat split; [exact Hl | intros H; bad H]|].
  destruct (negb _ || negb _);
    [step; rewrite app_nil_r; repeat split; [exact Hl | intros H; bad H]|].
  destruct (String.eqb _ _);
    [step; rewrite app_nil_r; repeat split; [exact Hl | intros H; bad H]|].
  destruct (negb _);
    [step; rewrite app_nil_r; repeat split; [exact Hl | intros H; bad H]|].
  destruct (negb _);
    [step; rewrite app_nil_r; repeat split; [exact Hl | intros H; bad H]|].
  destruct (base64_decode env _) as [bundleData|why];
    [|step; rewrite app_nil_r; repeat split; [exact Hl | intros H; bad H]].
  step. rewrite !RepoExists_eq. step.
  rewrite Hrepo, bool_decide_eq_true_2 by eauto.
  step. rewrite !(GetMetadata_found _ _ _ _ Hrepo). step. rewrite Hmeta.
  destruct (Metadata.ReplicaOf meta) as [src|] eqn:Hsrc.
  - rewrite (proj2 (String.eqb_neq _ _) (Hkeys src eq_refl)). cbn [negb].
    step. cbn [app]. rewrite forallb_app, Hl.
    repeat split. intros H; bad H.
  - step. cbn [app]. rewrite forallb_app, Hl.
    repeat split. intros H; bad H.
Qed.


(** C6, as amended.  For every [/replicate] request that names a
    repository that exists with readable metadata:
    with [replica_of] nil the request is refused -- the answer is not 200,
    the world is as it was and the handler only read -- and the answer is
    409 when the request passes the checks that come first (it is
    authenticated as the replication user of its body, has a valid body
    and a bundle that decodes);
    with [replica_of] set under another invitation key the request is
    refused in the same way, and the answer is 403 when the request passes
    those checks;
    anything but a read -- the write of the bundle, a run of the engine --
    happens only when [replica_of] is set and the keys are equal; and a
    request that passes the checks, with equal keys, does have its bundle
    written and, when that write succeeds, fetched from. *)
Theorem replicate_existing_repo env w r req d meta :
  Decoded r = Some req ->
  repos w !! (Server.ReplicateReq.Owner req, Server.ReplicateReq.Repo req) = Some d ->
  Storage.readMetaFile (openhub_json d) = Ok meta ->
  let owner := Server.ReplicateReq.Owner req in
  let repo := Server.ReplicateReq.Repo req in
  let res := run (Server.handleReplicate env r) w in
  (Metadata.ReplicaOf meta = None ->
   Status (answer res) <> StatusOK /\ after res = w
   /\ forallb is_read (log res) = true
   /\ (forall bundleData, reaches_repo_check env w r req bundleData ->
                          Status (answer res) = StatusConflict))
  /\ (forall src,
         Metadata.ReplicaOf meta = Some src ->
         ReplicaSource.InvitationKey src <> Server.ReplicateReq.InvitationKey req ->
         Status (answer res) <> StatusOK /\ after res = w
         /\ forallb is_read (log res) = true
         /\ (forall bundleData, reaches_repo_check env w r req bundleData ->
                                Status (answer res) = StatusForbidden))
  /\ (forall e, In e (log res) -> is_read e = false ->
                exists src, Metadata.ReplicaOf meta = Some src
                            /\ ReplicaSource.InvitationKey src
                               = Server.ReplicateReq.InvitationKey req)
  /\ (forall src bundleData,
         reaches_repo_check env w r req bundleData ->
         Metadata.ReplicaOf meta = Some src ->
         ReplicaSource.InvitationKey src = Server.ReplicateReq.InvitationKey req ->
         In (EvWriteTemp (Server.bundlePath env owner repo)) (log res)
         /\ (write_file_err env (Server.bundlePath env owner repo) = None ->
             In (EvExec ["git"; "fetch"; Server.bundlePath env owner repo;
                         "refs/*:refs/*"] owner repo) (log res))).
Proof.
  intros Hd Hrepo Hmeta. cbn zeta.
  pose proof (replicate_existing_repo_refused env w r req d meta Hd Hrepo Hmeta)
    as Hrefused. cbn zeta in Hrefused.
  split; [|split; [|split]].
  - intros Hnil.
    destruct Hrefused as (Hw & Hl & Hs); [intros src; rewrite Hnil; discriminate|].
    split; [exact Hs|]. split; [exact Hw|]. split; [exact Hl|].
    intros bundleData Hreach.
    destruct (replicate_existing_repo_cases env w r req bundleData d meta
                Hreach Hrepo Hmeta) as (H409 & _).
    exact (proj1 (H409 Hnil)).
  - intros src Hsrc Hne.
    destruct Hrefused as (Hw & Hl & Hs);
      [intros src'; rewrite Hsrc; intros [= <-]; exact Hne|].
    split; [exact Hs|]. split; [exact Hw|]. split; [exact Hl|].
    intros bundleData Hreach.
    destruct (replicate_existing_repo_cases env w r req bundleData d meta
                Hreach Hrepo Hmeta) as (_ & H403 & _).
    exact (proj1 (H403 src Hsrc Hne)).
  - intros e Hin Hnot.
    destruct (Metadata.ReplicaOf meta) as [src|] eqn:Hsrc.
    + destruct (String.eqb_spec (ReplicaSource.InvitationKey src)
                                (Server.ReplicateReq.InvitationKey req)) as [Heq|Hne];
        [exists src; split; [reflexivity | exact Heq]|].
      destruct Hrefused as (_ & Hl & _); [intros src' [= <-]; exact Hne|].
      rewrite forallb_forall in Hl. rewrite (Hl e Hin) in Hnot. discriminate Hnot.
    + destruct Hrefused as (_ & Hl & _); [intros src'; discriminate|].
      rewrite forallb_forall in Hl. rewrite (Hl e Hin) in Hnot. discriminate Hnot.
  - intros src bundleData Hreach Hsrc Heq.
    destruct (replicate_existing_repo_cases env w r req bundleData d meta
                Hreach Hrepo Hmeta) as (_ & _ & Hgo).
    exact (Hgo src Hsrc Heq).
Qed.

Lemma replicate_existing_repo_witness :
  let res := run (Server.handleReplicate Examples.env0
                    (Examples.replicate_post "Bearer TR" "QUJD")) Examples.w_origin in
  reaches_repo_check Examples.env0 Examples.w_origin
                     (Examples.replicate_post "Bearer TR" "QUJD")
                     (Examples.replicate_body "QUJD") "QUJD"
  /\ Status (answer res) = StatusConflict /\ after res = Examples.w_origin.
Proof.
  cbn zeta.
  assert (Hreach : reaches_repo_check Examples.env0 Examples.w_origin
                     (Examples.replicate_post "Bearer TR" "QUJD")
                     (Examples.replicate_body "QUJD") "QUJD").
  { split; [|split; [reflexivity|split; [|reflexivity]]].
    - split; [reflexivity|]. split; [discriminate|].
      exists "TR". split; vm_compute; reflexivity.
    - repeat split; try discriminate; vm_compute; reflexivity. }
  assert (Hd : repos Examples.w_origin !! ("alice", "foo")
               = Some (MkRepoDir "g0" (MetaDoc Examples.origin_meta)))
    by (vm_compute; reflexivity).
  destruct (replicate_existing_repo Examples.env0 Examples.w_origin
              (Examples.replicate_post "Bearer TR" "QUJD")
              (Examples.replicate_body "QUJD") _ Examples.origin_meta
              eq_refl Hd eq_refl) as (Hnil & _).
  destruct (Hnil eq_refl) as (_ & Hw & _ & H409).
  split; [exact Hreach|]. split; [exact (H409 _ Hreach) | exact Hw].
Defined.

(** C6, as it is written, fails: a POST without credentials that names
    the origin repository alice/foo is answered 401, not 409. *)
Lemma replicate_existing_claim_fails : ~ replicate_existing_claim.
Proof.
  intros C.
  destruct (C Examples.env0 Examples.w_origin
              (Examples.replicate_post EmptyString "QUJD")
              (Examples.replicate_body "QUJD")
              (MkRepoDir "g0" (MetaDoc Examples.origin_meta)) Examples.origin_meta
              eq_refl eq_refl) as [H _].
  - vm_compute. reflexivity.
  - reflexivity.
  - destruct (H eq_refl) as [H401 _]. vm_compute in H401. discriminate H401.
Qed.

End Replicate.

(** ** The peer handshake *)

Section Register.
Import GoStrings HTTP Props Names.

Lemma Contains_already_exists (username : string) :
  Contains ("user already exists: " ++ username) "already exists" = true.
Proof. reflexivity. Qed.

Lemma CreateUserWithToken_existing env username tokenName token w u :
  users w !! username = Some (UserDoc u) ->
  Auth.CreateUserWithToken env username tokenName token w
  = (Some ("user already exists: " ++ username), w, [EvReadUser username]).
Proof.
  intros H. unfold Auth.CreateUserWithToken, Auth.GetUser.
  unfold bind, emit, get_world, ret. cbn [fst snd]. rewrite H. reflexivity.
Qed.

Lemma CreateUserWithToken_frame env username tokenName token w :
  repos (after (Auth.CreateUserWithToken env username tokenName token w)) = repos w
  /\ queue (after (Auth.CreateUserWithToken env username tokenName token w)) = queue w.
Proof.
  unfold Auth.CreateUserWithToken, Auth.GetUser, Auth.saveUser.
  unfold bind, emit, get_world, put_world, ret, after. cbn [fst snd].
  destruct (users w !! username) as [[?|?|?]|]; cbn [fst snd];
    try (destruct (write_file_err env _); cbn [fst snd]); split; reflexivity.
Qed.

(** A return before the look-up of the user: nothing but reads of the
    repository happened, and the answer is an error. *)
Ltac early_return :=
  let H := fresh "H" in
  step; split; [reflexivity|]; split; [reflexivity|];
  split; [intros H; cbn [In] in H;
          repeat (destruct H as [H|H]; [discriminate H|]); destruct H
         | intros H; apply (f_equal Status) in H;
           cbv [Server.jsonSuccess] in H; bad H].

(** The handshake for a user that exists: nothing is written, and the
    answer is success exactly when the handler gets as far as the look-up
    of the user, which [CreateUserWithToken] starts with. *)
Lemma register_existing_user env w r req u :
  Decoded r = Some req ->
  users w !! register_user req = Some (UserDoc u) ->
  let res := run (Server.handleRegisterReplication env r) w in
  after res = w
  /\ forallb is_read (log res) = true
  /\ (In (EvReadUser (register_user req)) (log res)
      <-> answer res = Server.jsonSuccess).
Proof.
  intros Hd Hu. cbn zeta. unfold run, Server.handleRegisterReplication.
  rewrite Hd.
  destruct (negb _); [early_return|].
  destruct (_ || _ || _ || _ || _); [early_return|].
  destruct (negb _ || negb _); [early_return|].
  step. rewrite !RepoExists_eq. step.
  destruct (repos w !! (Server.RegisterReq.Owner req, Server.RegisterReq.Repo req))
    as [d|] eqn:Hrepo.
  2:{ rewrite bool_decide_eq_false_2 by (intros [? ?]; discriminate).
      cbn [negb]. early_return. }
  rewrite bool_decide_eq_true_2 by eauto. cbn [negb].
  step. rewrite !(GetMetadata_found _ _ _ _ Hrepo). step.
  destruct (Storage.readMetaFile (openhub_json d)) as [meta|why] eqn:Hmeta;
    [|early_return].
  destruct (Metadata.ReplicaOf meta) as [src|] eqn:Hsrc.
  { rewrite bool_decide_eq_true_2 by discriminate. early_return. }
  rewrite bool_decide_eq_false_2 by (intros C; apply C; reflexivity).
  step. fold (register_user req).
  rewrite !(CreateUserWithToken_existing env _ _ _ w u Hu). step.
  rewrite Contains_already_exists. cbn [negb]. step.
  split; [reflexivity|]. split; [reflexivity|].
  split; [intros _; reflexivity | intros _; in_log].
Qed.

(** A POST that lacks one of the five fields or carries an invalid name
    is answered 400. *)
Lemma register_incomplete env w r req :
  ApiMethod r = "POST" -> Decoded r = Some req ->
  Server.RegisterReq.Owner req = EmptyString
  \/ Server.RegisterReq.Repo req = EmptyString
  \/ Server.RegisterReq.Token req = EmptyString
  \/ Server.RegisterReq.OriginInstanceID req = EmptyString
  \/ Server.RegisterReq.ReplicaURL req = EmptyString
  \/ isValidName (Server.RegisterReq.Owner req) = false
  \/ isValidName (Server.RegisterReq.Repo req) = false ->
  Status (answer (run (Server.handleRegisterReplication env r) w)) = StatusBadRequest.
Proof.
  intros Hm Hd H. unfold run, Server.handleRegisterReplication.
  rewrite Hm, Hd. cbn [String.eqb Ascii.eqb Bool.eqb negb].
  destruct (_ || _ || _ || _ || _) eqn:Hf; [reflexivity|].
  destruct (negb _ || negb _) eqn:Hv; [reflexivity|].
  exfalso.
  repeat (apply orb_false_iff in Hf; destruct Hf as [Hf ?]).
  apply orb_false_iff in Hv. destruct Hv as [Hv1 Hv2].
  apply negb_false_iff in Hv1, Hv2.
  destruct H as [H|[H|[H|[H|[H|[H|H]]]]]];
    try (rewrite H in *; discriminate); congruence.
Qed.

(** C10, as amended.  When the replication user of a
    [/register-replication] request already exists, the handler leaves the
    world as it was, whatever it answers -- the user record and its token
    included, so the token of the request is never stored -- and it only
    reads.  The answer is success exactly when the handler gets as far as
    the creation of the user, which begins with the look-up of the user
    file; a POST that lacks one of the five fields or carries an invalid
    owner or repository name does not get there and is answered 400. *)
Theorem register_again_keeps_user env w r req u :
  Decoded r = Some req ->
  users w !! register_user req = Some (UserDoc u) ->
  let res := run (Server.handleRegisterReplication env r) w in
  after res = w
  /\ users (after res) !! register_user req = Some (UserDoc u)
  /\ forallb is_read (log res) = true
  /\ (In (EvReadUser (register_user req)) (log res)
      <-> answer res = Server.jsonSuccess)
  /\ (ApiMethod r = "POST" ->
      Server.RegisterReq.Owner req = EmptyString
      \/ Server.RegisterReq.Repo req = EmptyString
      \/ Server.RegisterReq.Token req = EmptyString
      \/ Server.RegisterReq.OriginInstanceID req = EmptyString
      \/ Server.RegisterReq.ReplicaURL req = EmptyString
      \/ isValidName (Server.RegisterReq.Owner req) = false
      \/ isValidName (Server.RegisterReq.Repo req) = false ->
      Status (answer res) = StatusBadRequest).
Proof.
  intros Hd Hu. cbn zeta.
  destruct (register_existing_user env w r req u Hd Hu) as (Hw & Hl & Hs).
  split; [exact Hw|]. split; [rewrite Hw; exact Hu|]. split; [exact Hl|].
  split; [exact Hs|]. intros Hm H. exact (register_incomplete env w r req Hm Hd H).
Qed.

Lemma register_again_keeps_user_witness :
  let r := Examples.register_post "alice" "foo" "OTHER" in
  let res := run (Server.handleRegisterReplication Examples.env0 r) Examples.w_origin in
  users Examples.w_origin !! "replication-alice-foo-A"
    = Some (UserDoc Examples.repl_user)
  /\ after res = Examples.w_origin
  /\ answer res = Server.jsonSuccess.
Proof.
  cbn zeta.
  assert (Hu : users Examples.w_origin !! "replication-alice-foo-A"
               = Some (UserDoc Examples.repl_user)) by (vm_compute; reflexivity).
  destruct (register_again_keeps_user Examples.env0 Examples.w_origin
              (Examples.register_post "alice" "foo" "OTHER") _ Examples.repl_user
              eq_refl Hu) as (Hw & _ & _ & Hs & _).
  split; [exact Hu|]. split; [exact Hw|].
  apply Hs. vm_compute. auto 10.
Defined.

(** C10, as it is written, fails: on a peer that holds the replication
    user of alice/foo but not the repository, the repeated handshake is
    answered 404, not success. *)
Lemma register_again_claim_fails : ~ register_again_claim.
Proof.
  intros C.
  destruct (C Examples.env0 Examples.w_empty
              (Examples.register_post "alice" "foo" "OTHER") _ Examples.repl_user
              eq_refl eq_refl) as [H _].
  - vm_compute. reflexivity.
  - vm_compute in H. discriminate H.
Qed.

(** The answers of the repeated handshake that are not success: 400 for
    a request without its replica URL, sent to the peer that holds the
    repository as an origin; 500 on a peer whose metadata file for the
    repository is not JSON; 404 on a peer without the repository, 403 on a
    peer that holds it as a replica.  The user is there in all four, and
    nothing changes. *)
Lemma register_again_refusals :
  let post := Server.handleRegisterReplication Examples.env0 in
  let again := Examples.register_post "alice" "foo" "OTHER" in
  let no_url := MkApiRequest "POST" EmptyString
                  (Some (Server.RegisterReq.Build "alice" "foo" EmptyString
                                                  "OTHER" "A")) in
  let w_damaged := MkWorld (<[("alice", "foo") :=
                               MkRepoDir "g0" (MetaBadJSON "unexpected end")]> ∅)
                           Examples.all_users (InstanceDoc "B") [] in
  (Status (answer (run (post no_url) Examples.w_origin)) = StatusBadRequest
   /\ after (run (post no_url) Examples.w_origin) = Examples.w_origin)
  /\ (Status (answer (run (post again) w_damaged)) = StatusInternalServerError
      /\ after (run (post again) w_damaged) = w_damaged)
  /\ (Status (answer (run (post again) Examples.w_empty)) = StatusNotFound
      /\ after (run (post again) Examples.w_empty) = Examples.w_empty)
  /\ (Status (answer (run (post again) Examples.w_replica)) = StatusForbidden
      /\ after (run (post again) Examples.w_replica) = Examples.w_replica).
Proof. vm_compute. repeat split. Qed.

(** In the code as it stands, the requests that get as far as the
    creation of the user are the complete ones for a repository that the
    peer holds as an origin: for those the repeated handshake succeeds. *)
Lemma register_again_on_origin env w r req u :
  users w !! register_user req = Some (UserDoc u) ->
  register_passes_checks w r req ->
  answer (run (Server.handleRegisterReplication env r) w) = Server.jsonSuccess.
Proof.
  intros Hu (Hm & Hd & Ho & Hr & Ht & Hi & Hl & Hvo & Hvr
             & d & meta & Hrepo & Hmeta & Hnil).
  unfold run, Server.handleRegisterReplication.
  rewrite Hm, Hd, String.eqb_refl.
  rewrite (proj2 (String.eqb_neq _ _) Ho), (proj2 (String.eqb_neq _ _) Hr),
    (proj2 (String.eqb_neq _ _) Ht), (proj2 (String.eqb_neq _ _) Hi),
    (proj2 (String.eqb_neq _ _) Hl), Hvo, Hvr.
  cbn [negb orb].
  step. rewrite !RepoExists_eq. step.
  rewrite Hrepo, bool_decide_eq_true_2 by eauto. cbn [negb].
  step. rewrite !(GetMetadata_found _ _ _ _ Hrepo). step. rewrite Hmeta, Hnil.
  rewrite bool_decide_eq_false_2 by (intros C; apply C; reflexivity).
  step. fold (register_user req).
  rewrite !(CreateUserWithToken_existing env _ _ _ w u Hu). step.
  rewrite Contains_already_exists. reflexivity.
Qed.

End Register.

(** ** Where the code and the specification part ways *)

Section Divergences.
Import GoStrings HTTP Props Names.

(** The handshake succeeds only for a repository that exists on the peer
    and is not a replica there. *)
Lemma register_success_needs_local_origin env w r :
  Status (answer (run (Server.handleRegisterReplication env r) w)) = StatusOK ->
  exists req d meta,
    Decoded r = Some req
    /\ repos w !! (Server.RegisterReq.Owner req, Server.RegisterReq.Repo req) = Some d
    /\ Storage.readMetaFile (openhub_json d) = Ok meta
    /\ Metadata.ReplicaOf meta = None.
Proof.
  unfold run, Server.handleRegisterReplication.
  destruct (negb _); [intros H; bad H|].
  destruct (Decoded r) as [req|]; [|intros H; bad H].
  destruct (_ || _); [intros H; bad H|].
  destruct (_ || _); [intros H; bad H|].
  step. rewrite RepoExists_eq. step.
  destruct (repos w !! (Server.RegisterReq.Owner req, Server.RegisterReq.Repo req))
    as [d|] eqn:Hrepo.
  2:{ rewrite bool_decide_eq_false_2 by (intros [? ?]; discriminate).
      cbn [negb]. step. intros H; bad H. }
  rewrite bool_decide_eq_true_2 by eauto. cbn [negb].
  step. rewrite !(GetMetadata_found _ _ _ _ Hrepo). step.
  destruct (Storage.readMetaFile (openhub_json d)) as [meta|why] eqn:Hmeta;
    [|step; intros H; bad H].
  destruct (Metadata.ReplicaOf meta) as [src|] eqn:Hsrc.
  { rewrite bool_decide_eq_true_2 by discriminate. step. intros H; bad H. }
  intros _. exists req, d, meta. auto.
Qed.

Lemma register_keeps_repos env w r :
  repos (after (run (Server.handleRegisterReplication env r) w)) = repos w.
Proof.
  unfold run, Server.handleRegisterReplication.
  destruct (negb _); [reflexivity|].
  destruct (Decoded r) as [req|]; [|reflexivity].
  destruct (_ || _); [reflexivity|].
  destruct (_ || _); [reflexivity|].
  step. rewrite !RepoExists_eq. step.
  destruct (negb _); [reflexivity|].
  step. rewrite !GetMetadata_after.
  destruct (answer (Storage.GetMetadata _ _ w)); [|reflexivity].
  destruct (bool_decide _); [reflexivity|].
  step.
  match goal with
  | |- context [Auth.CreateUserWithToken env ?u ?a ?b w] =>
      destruct (CreateUserWithToken_frame env u a b w) as [Hr _];
      destruct (answer (Auth.CreateUserWithToken env u a b w));
      [destruct (negb _)|]; step; exact Hr
  end.
Qed.

(** The handshake and the receiver exclude each other: once a peer has
    accepted the handshake for a repository, every [/replicate] request
    for that repository that gets as far as the look at the repository is
    answered 409, because the repository the handshake required is a live
    origin there. *)
Lemma handshake_then_replicate_conflicts env w r r' req' bundleData :
  let w1 := after (run (Server.handleRegisterReplication env r) w) in
  Status (answer (run (Server.handleRegisterReplication env r) w)) = StatusOK ->
  reaches_repo_check env w1 r' req' bundleData ->
  (forall req, Decoded r = Some req ->
               Server.RegisterReq.Owner req = Server.ReplicateReq.Owner req'
               /\ Server.RegisterReq.Repo req = Server.ReplicateReq.Repo req') ->
  Status (answer (run (Server.handleReplicate env r') w1)) = StatusConflict.
Proof.
  cbn zeta. intros Hok Hreach Hsame.
  destruct (register_success_needs_local_origin env w r Hok)
    as (req & d & meta & Hd & Hrepo & Hmeta & Hnil).
  destruct (Hsame req Hd) as [Ho Hr]. rewrite Ho, Hr in Hrepo.
  rewrite <- (register_keeps_repos env w r) in Hrepo.
  destruct (replicate_existing_repo_cases env _ r' req' bundleData d meta
              Hreach Hrepo Hmeta) as (H409 & _).
  exact (proj1 (H409 Hnil)).
Qed.

(** C2 (the code departs from the claim).  The handshake for a
    repository the peer does not have is answered 404 and no user is
    created; for a repository that is a replica on the peer it is answered
    403; for a repository that is a live origin on the peer it succeeds and
    the replication user is created with the supplied token. *)
Theorem register_replication_inverted :
  let post := Server.handleRegisterReplication Examples.env0
                (Examples.register_post "alice" "foo" "TR") in
  let absent := run post Examples.w_fresh in
  let replica := run post Examples.w_replica in
  let origin := run post Examples.w_origin_fresh in
  (Status (answer absent) = StatusNotFound
   /\ after absent = Examples.w_fresh
   /\ users (after absent) !! "replication-alice-foo-A" = None)
  /\ (Status (answer replica) = StatusForbidden
      /\ after replica = Examples.w_replica)
  /\ (answer origin = Server.jsonSuccess
      /\ users (after origin) !! "replication-alice-foo-A"
         = Some (UserDoc (User.Build "replication-alice-foo-A" []
                            [APIToken.Build "replication" "TR" 1000] 1000))).
Proof. vm_compute. repeat split. Qed.

(** The HTTP transport never sends a job to the replication manager. *)
Lemma http_never_enqueues env r w :
  queue (after (run (GitHTTP.handleRequest env r) w)) = queue w
  /\ existsb is_queued (log (run (GitHTTP.handleRequest env r) w)) = false.
Proof.
  assert (Hauth : forall w0,
             existsb is_queued (log (GitHTTP.getAuthenticatedUser env r w0)) = false).
  { intros w0. destruct (getAuthenticatedUser_reads env r w0) as [_ Hl].
    induction (log (GitHTTP.getAuthenticatedUser env r w0)) as [|e l IH];
      [reflexivity|].
    cbn [forallb existsb] in *. apply andb_true_iff in Hl as [He Hl].
    rewrite (IH Hl). destruct e; try discriminate He; reflexivity. }
  assert (Hinfo : queue (after (GitHTTP.handleInfoRefs env r w)) = queue w
                  /\ existsb is_queued (log (GitHTTP.handleInfoRefs env r w)) = false).
  { unfold GitHTTP.handleInfoRefs.
    destruct (negb _); [split; reflexivity|].
    destruct (_ && _); [split; reflexivity|].
    destruct (GitHTTP.parseRepoPath (URLPath r)) as [owner repo].
    destruct (_ || _); [split; reflexivity|].
    step. rewrite !RepoExists_eq. step.
    destruct (negb _); [split; reflexivity|].
    step. rewrite !GetMetadata_after.
    assert (Hg : existsb is_queued (log (Storage.GetMetadata owner repo w)) = false).
    { destruct (repos w !! (owner, repo)) eqn:E;
        [rewrite (GetMetadata_found _ _ _ _ E) | rewrite (GetMetadata_missing _ _ _ E)];
        reflexivity. }
    destruct (answer (Storage.GetMetadata owner repo w));
      [|step; rewrite !existsb_app, Hg; split; reflexivity].
    step. destruct (getAuthenticatedUser_reads env r w) as [-> _].
    destruct (GitHTTP.checkAccess _ _ _ _);
      [step; rewrite !existsb_app, Hg, Hauth; split; reflexivity|].
    step. rewrite !spawn_eq.
    match goal with
    | |- context [exec_engine env ?a ?i ?b] =>
        destruct (exec_engine env a i b) as [?|[?|] ? ?]
    end; step; rewrite !existsb_app, Hg, Hauth; split; reflexivity. }
  assert (Hcmd : forall service,
             queue (after (GitHTTP.handleGitCommand env r service w)) = queue w
             /\ existsb is_queued (log (GitHTTP.handleGitCommand env r service w)) = false).
  { intros service. unfold GitHTTP.handleGitCommand.
    destruct (negb _); [split; reflexivity|].
    destruct (GitHTTP.parseRepoPath (URLPath r)) as [owner repo].
    destruct (_ || _); [split; reflexivity|].
    step. rewrite !RepoExists_eq. step.
    destruct (negb _); [split; reflexivity|].
    step. rewrite !GetMetadata_after.
    assert (Hg : existsb is_queued (log (Storage.GetMetadata owner repo w)) = false).
    { destruct (repos w !! (owner, repo)) eqn:E;
        [rewrite (GetMetadata_found _ _ _ _ E) | rewrite (GetMetadata_missing _ _ _ E)];
        reflexivity. }
    destruct (answer (Storage.GetMetadata owner repo w));
      [|step; rewrite !existsb_app, Hg; split; reflexivity].
    step. destruct (getAuthenticatedUser_reads env r w) as [-> _].
    destruct (GitHTTP.checkAccess _ _ _ _);
      [step; rewrite !existsb_app, Hg, Hauth; split; reflexivity|].
    destruct (if String.eqb (ContentEncoding r) "gzip" then _ else _);
      [step; rewrite !existsb_app, Hg, Hauth; split; reflexivity|].
    step. rewrite !spawn_eq.
    match goal with
    | |- context [exec_engine env ?a ?i ?b] =>
        destruct (exec_engine env a i b) as [?|[?|] ? ?]
    end; step; rewrite !existsb_app, Hg, Hauth; split; reflexivity. }
  unfold run, GitHTTP.handleRequest.
  destruct (HasSuffix _ _); [exact Hinfo|].
  destruct (HasSuffix _ _); [apply Hcmd|].
  destruct (HasSuffix _ _); [apply Hcmd|].
  split; reflexivity.
Qed.

(** C1 (the code departs from the claim).  The owner's push over HTTP
    passes the access checks, the engine runs and the answer is 200, yet
    no job is queued; the same push over the shell transport queues the
    job for alice/foo. *)
Theorem http_push_not_replicated :
  let http := run (GitHTTP.handleRequest Examples.env0
                     (Examples.http_push (Some ("alice", "T")))) Examples.w_origin in
  let ssh := run (GitSSH.handleGitCommand Examples.env0 Main.sshServer "pack"
                    Examples.ssh_push "alice") Examples.w_origin in
  (Status (answer http) = StatusOK
   /\ existsb is_exec (log http) = true
   /\ existsb is_queued (log http) = false
   /\ queue (after http) = [])
  /\ (GitSSH.ExitStatus (answer ssh) = 0%nat
      /\ existsb is_queued (log ssh) = true
      /\ queue (after ssh) = [Job.Build "alice" "foo"]).
Proof. vm_compute. repeat split. Qed.

(** C5 (the code departs from the claim).  The shell transport and the
    HTTP transport look the repository up on disk for names the validator
    rejects: the first file-system operation of each handler is a stat with
    such a name. *)
Theorem transports_skip_name_validation :
  let ssh := run (GitSSH.handleGitCommand Examples.env0 Main.sshServer EmptyString
                    "git-upload-pack '../evil'" "bob") Examples.w_origin in
  let http := run (GitHTTP.handleRequest Examples.env0
                     (MkRequest "GET" "/.hidden/x.git/info/refs" "git-upload-pack"
                                None EmptyString EmptyString)) Examples.w_origin in
  (log ssh = [EvStat ".." "evil"] /\ isValidName ".." = false)
  /\ (log http = [EvStat ".hidden" "x"] /\ isValidName ".hidden" = false).
Proof. vm_compute. repeat split. Qed.

(** The management API does validate before it touches the disk: every
    repository operation of the handshake handler is made with names the
    validator accepts. *)
Lemma register_validates_names env w r e owner name :
  In e (log (run (Server.handleRegisterReplication env r) w)) ->
  event_repo e = Some (owner, name) ->
  isValidName owner = true /\ isValidName name = true.
Proof.
  unfold run, Server.handleRegisterReplication.
  destruct (negb _); [intros []|].
  destruct (Decoded r) as [req|]; [|intros []].
  destruct (_ || _); [intros []|].
  destruct (isValidName (Server.RegisterReq.Owner req)) eqn:Ho; [|intros []].
  destruct (isValidName (Server.RegisterReq.Repo req)) eqn:Hr; [|intros []].
  cbn [negb orb].
  step. rewrite !RepoExists_eq. step.
  assert (Hev : forall e0,
             e0 = EvStat (Server.RegisterReq.Owner req) (Server.RegisterReq.Repo req)
             \/ e0 = EvReadMeta (Server.RegisterReq.Owner req) (Server.RegisterReq.Repo req)
             \/ event_repo e0 = None ->
             event_repo e0 = Some (owner, name) ->
             isValidName owner = true /\ isValidName name = true).
  { intros e0 [ -> | [ -> | -> ] ]; cbn [event_repo];
      first [intros [= <- <-]; auto | discriminate]. }
  destruct (negb _).
  { step. cbn [app In]. intros [ <- | [] ]. apply Hev. auto. }
  step. rewrite !GetMetadata_after.
  assert (Hg : forall e0, In e0 (log (Storage.GetMetadata (Server.RegisterReq.Owner req)
                                        (Server.RegisterReq.Repo req) w)) ->
                          e0 = EvStat (Server.RegisterReq.Owner req) (Server.RegisterReq.Repo req)
                          \/ e0 = EvReadMeta (Server.RegisterReq.Owner req)
                                             (Server.RegisterReq.Repo req)).
  { intros e0.
    destruct (repos w !! (Server.RegisterReq.Owner req, Server.RegisterReq.Repo req)) eqn:E;
      [rewrite (GetMetadata_found _ _ _ _ E) | rewrite (GetMetadata_missing _ _ _ E)];
      rewrite log_mk; cbn [In]; intuition auto. }
  assert (Hc : forall e0 u t1 t2 w0,
             In e0 (log (Auth.CreateUserWithToken env u t1 t2 w0)) ->
             event_repo e0 = None).
  { intros e0 u t1 t2 w0.
    unfold Auth.CreateUserWithToken, Auth.GetUser, Auth.saveUser.
    unfold bind, emit, get_world, put_world, ret, log. cbn [fst snd].
    destruct (users w0 !! u) as [[?|?|?]|]; cbn [fst snd];
      try (destruct (write_file_err env _); cbn [fst snd]);
      cbn [app In]; intuition (subst; reflexivity). }
  destruct (answer (Storage.GetMetadata _ _ w)).
  2:{ step. rewrite !in_app_iff. cbn [In].
      intros [ [ <- | [] ] | [ H | [] ] ]; apply Hev; auto.
      destruct (Hg _ H); auto. }
  destruct (bool_decide _).
  { step. rewrite !in_app_iff. cbn [In].
    intros [ [ <- | [] ] | [ H | [] ] ]; apply Hev; auto.
    destruct (Hg _ H); auto. }
  step. rewrite !in_app_iff. cbn [In].
  intros [ [ <- | [] ] | [ H | [ H | H ] ] ]; apply Hev; auto.
  - destruct (Hg _ H); auto.
  - right. right. eapply Hc. exact H.
  - right. right.
    destruct (answer (Auth.CreateUserWithToken _ _ _ _ _)) as [why|];
      [destruct (negb _)|]; destruct H.
Qed.

End Divergences.

(** * The rest of the code *)

(** ** The repository store and the management API *)

Section StoreFacts.
Import GoStrings HTTP Props.

Lemma SetMetadata_round_trip env owner name meta w :
  answer (run (Storage.SetMetadata env owner name meta) w) = None ->
  let w' := after (run (Storage.SetMetadata env owner name meta) w) in
  answer (run (Storage.GetMetadata owner name) w') = Ok meta
  /\ (forall o n, (o, n) <> (owner, name) ->
                  repos w' !! (o, n) = repos w !! (o, n))
  /\ git_data <$> repos w' !! (owner, name) = git_data <$> repos w !! (owner, name)
  /\ users w' = users w /\ queue w' = queue w
  /\ instance_json w' = instance_json w.
Proof.
  unfold run. intros H. cbn zeta.
  destruct (SetMetadata_stored env owner name meta w H) as (d & Hd & Hm).
  split.
  { rewrite (GetMetadata_found _ _ _ _ Hd), answer_mk, Hm. reflexivity. }
  revert H. rewrite SetMetadata_eq.
  destruct (bool_decide _); [|discriminate].
  destruct (write_file_err env _); [discriminate|]. intros _.
  rewrite after_mk. cbn [set_repos repos users queue instance_json].
  repeat split.
  - intros o n Hne. apply lookup_alter_ne. congruence.
  - rewrite lookup_alter_eq. destruct (repos w !! (owner, name)); reflexivity.
Qed.


(** X1. For an owner and a name that are valid names: a metadata
    document that [SetMetadata] stored is the one [GetMetadata] returns
    afterwards; the write leaves every other repository with valid names,
    the Git data of this one, the users, the queue and the instance file
    as they were. *)
Theorem metadata_round_trip env owner name meta w :
  Names.isValidName owner = true -> Names.isValidName name = true ->
  answer (run (Storage.SetMetadata env owner name meta) w) = None ->
  let w' := after (run (Storage.SetMetadata env owner name meta) w) in
  answer (run (Storage.GetMetadata owner name) w') = Ok meta
  /\ (forall o n, Names.isValidName o = true -> Names.isValidName n = true ->
                  (o, n) <> (owner, name) ->
                  repos w' !! (o, n) = repos w !! (o, n))
  /\ git_data <$> repos w' !! (owner, name) = git_data <$> repos w !! (owner, name)
  /\ users w' = users w /\ queue w' = queue w
  /\ instance_json w' = instance_json w.
Proof.
  intros _ _ H. cbn zeta.
  destruct (SetMetadata_round_trip env owner name meta w H)
    as (Hget & Hframe & Hgit & Hrest).
  split; [exact Hget|]. split; [|split; [exact Hgit | exact Hrest]].
  intros o n _ _ Hne. exact (Hframe o n Hne).
Qed.

Lemma metadata_round_trip_witness :
  answer (run (Storage.GetMetadata "alice" "foo")
              (after (run (Storage.SetMetadata Examples.env0 "alice" "foo"
                             Examples.replica_meta) Examples.w_origin)))
  = Ok Examples.replica_meta.
Proof.
  exact (proj1 (metadata_round_trip Examples.env0 "alice" "foo" Examples.replica_meta
                  Examples.w_origin ltac:(vm_compute; reflexivity)
                  ltac:(vm_compute; reflexivity) ltac:(vm_compute; reflexivity))).
Defined.

Lemma CreateRepo_eq env owner name w :
  Storage.CreateRepo env owner name w
  = if bool_decide (is_Some (repos w !! (owner, name))) then
      (Some ("repo already exists: " ++ owner ++ "/" ++ name), w, [EvStat owner name])
    else
      let path := Storage.RepoPath env owner name in
      match mkdir_err env (basePath env ++ "/" ++ owner) with
      | Some why =>
          (Some ("create owner dir: " ++ why), w,
           [EvStat owner name; EvMkdirOwner owner name])
      | None =>
          match exec_engine env ["git"; "init"; "--bare"; path]
                            EmptyString EmptyString with
          | NotStarted why =>
              (Some ("git init: " ++ why), w,
               [EvStat owner name; EvMkdirOwner owner name;
                EvExec ["git"; "init"; "--bare"; path] owner name])
          | Exited (Some why) _ _ =>
              (Some ("git init: " ++ why), w,
               [EvStat owner name; EvMkdirOwner owner name;
                EvExec ["git"; "init"; "--bare"; path] owner name])
          | Exited None _ fresh =>
              let w1 := set_repos w (<[(owner, name) := MkRepoDir fresh MetaMissing]>
                                       (repos w)) in
              match write_file_err env (Storage.metadataPath env owner name) with
              | Some why =>
                  (Some ("set metadata: " ++ ("write metadata: " ++ why)), w1,
                   [EvStat owner name; EvMkdirOwner owner name;
                    EvExec ["git"; "init"; "--bare"; path] owner name;
                    EvStat owner name; EvWriteMeta owner name])
              | None =>
                  (None,
                   set_repos w
                     (<[(owner, name) :=
                          MkRepoDir fresh
                            (MetaDoc (Metadata.Build EmptyString false "main"
                                                     (now env) [] None))]>
                        (repos w)),
                   [EvStat owner name; EvMkdirOwner owner name;
                    EvExec ["git"; "init"; "--bare"; path] owner name;
                    EvStat owner name; EvWriteMeta owner name])
              end
          end
      end.
Proof.
  unfold Storage.CreateRepo. cbv zeta.
  rewrite (bind_eq _ _ _ _ _ _ (RepoExists_eq owner name w)).
  destruct (bool_decide (is_Some (repos w !! (owner, name)))); [reflexivity|].
  rewrite (bind_eq _ _ _ _ _ _ (eq_refl : emit (EvMkdirOwner owner name) w = (tt, w, _))).
  destruct (mkdir_err env _); [reflexivity|].
  set (path := Storage.RepoPath env owner name).
  rewrite (bind_eq _ _ _ _ _ _
             (eq_refl : emit (EvExec ["git"; "init"; "--bare"; path] owner name) w
                        = (tt, w, _))).
  destruct (exec_engine env _ _ _) as [?|[?|] ? fresh]; try reflexivity.
  rewrite (bind_eq _ _ _ _ _ _ (eq_refl : get_world w = (w, w, []))).
  set (w1 := set_repos w (<[(owner, name) := MkRepoDir fresh MetaMissing]> (repos w))).
  rewrite (bind_eq _ _ _ _ _ _ (eq_refl : put_world w1 w = (tt, w1, []))).
  pose proof (SetMetadata_eq env owner name
                (Metadata.Build EmptyString false "main" (now env) [] None) w1) as Es.
  rewrite bool_decide_eq_true_2 in Es
    by (subst w1; cbn [repos set_repos]; rewrite lookup_insert_eq; eauto).
  destruct (write_file_err env _);
    rewrite (bind_eq _ _ _ _ _ _ Es);
    unfold ret; rewrite !answer_mk, !after_mk, !log_mk; cbn [app]; [reflexivity|].
  subst w1. unfold set_repos. cbn [repos users instance_json queue].
  rewrite alter_insert_eq. reflexivity.
Qed.

Lemma CreateRepo_fresh env owner name w :
  answer (run (Storage.CreateRepo env owner name) w) = None ->
  let w' := after (run (Storage.CreateRepo env owner name) w) in
  repos w !! (owner, name) = None
  /\ answer (run (Storage.GetMetadata owner name) w')
     = Ok (Metadata.Build EmptyString false "main" (now env) [] None)
  /\ (forall o n, (o, n) <> (owner, name) ->
                  repos w' !! (o, n) = repos w !! (o, n))
  /\ users w' = users w /\ queue w' = queue w.
Proof.
  unfold run. rewrite CreateRepo_eq.
  destruct (repos w !! (owner, name)) as [d|] eqn:E.
  { rewrite bool_decide_eq_true_2 by eauto. discriminate. }
  rewrite bool_decide_eq_false_2 by (intros [? ?]; discriminate).
  cbn zeta.
  destruct (mkdir_err env _); [discriminate|].
  destruct (exec_engine env _ _ _) as [?|[?|] ? fresh]; try discriminate.
  destruct (write_file_err env _); [discriminate|].
  intros _. rewrite after_mk. split; [reflexivity|]. split.
  { match goal with
    | |- answer (Storage.GetMetadata owner name ?w1) = _ =>
        assert (Hd : repos w1 !! (owner, name)
                     = Some (MkRepoDir fresh
                               (MetaDoc (Metadata.Build EmptyString false "main"
                                                        (now env) [] None))))
          by (cbn [set_repos repos]; apply lookup_insert_eq);
        rewrite (GetMetadata_found _ _ _ _ Hd), answer_mk
    end. reflexivity. }
  cbn [set_repos repos users queue]. repeat split.
  intros o n Hne. apply lookup_insert_ne. congruence.
Qed.


(** X2. When [CreateRepo] succeeds the repository did not exist before,
    its metadata afterwards is the default document (public, branch
    "main", created now, no replica, no source), and every other
    repository, the users and the queue are as they were. *)
Theorem create_repo_fresh env owner name w :
  answer (run (Storage.CreateRepo env owner name) w) = None ->
  let w' := after (run (Storage.CreateRepo env owner name) w) in
  repos w !! (owner, name) = None
  /\ answer (run (Storage.GetMetadata owner name) w')
     = Ok (Metadata.Build EmptyString false "main" (now env) [] None)
  /\ (forall o n, (o, n) <> (owner, name) ->
                  repos w' !! (o, n) = repos w !! (o, n))
  /\ users w' = users w /\ queue w' = queue w.
Proof. exact (CreateRepo_fresh env owner name w). Qed.


Lemma create_repo_fresh_witness :
  answer (run (Storage.GetMetadata "carol" "bar")
              (after (run (Storage.CreateRepo Examples.env0 "carol" "bar")
                          Examples.w_origin)))
  = Ok (Metadata.Build EmptyString false "main" 1000 [] None).
Proof.
  exact (proj1 (proj2 (create_repo_fresh Examples.env0 "carol" "bar" Examples.w_origin
                         ltac:(vm_compute; reflexivity)))).
Defined.

Lemma DeleteRepo_eq env sys owner name w :
  StorageMore.DeleteRepo env sys owner name w
  = if bool_decide (is_Some (repos w !! (owner, name))) then
      match remove_all_err sys (Storage.RepoPath env owner name) with
      | Some why => (Some ("delete repo: " ++ why), w, [EvStat owner name])
      | None => (None, set_repos w (delete (owner, name) (repos w)),
                 [EvStat owner name])
      end
    else (Some ("repo does not exist: " ++ owner ++ "/" ++ name), w,
          [EvStat owner name]).
Proof.
  unfold StorageMore.DeleteRepo, Storage.RepoExists,
    bind, emit, get_world, put_world, ret.
  cbn [fst snd].
  destruct (bool_decide _); [|reflexivity]. cbn [negb].
  destruct (remove_all_err sys _); reflexivity.
Qed.


(** X3. For an owner and a name that are valid names: when
    [DeleteRepo] succeeds the repository existed before and [RepoExists]
    is false afterwards; every other repository with valid names, the
    users and the queue are as they were. *)
Theorem delete_repo_removes env sys owner name w :
  Names.isValidName owner = true -> Names.isValidName name = true ->
  answer (run (StorageMore.DeleteRepo env sys owner name) w) = None ->
  let w' := after (run (StorageMore.DeleteRepo env sys owner name) w) in
  is_Some (repos w !! (owner, name))
  /\ answer (run (Storage.RepoExists owner name) w') = false
  /\ (forall o n, Names.isValidName o = true -> Names.isValidName n = true ->
                  (o, n) <> (owner, name) ->
                  repos w' !! (o, n) = repos w !! (o, n))
  /\ users w' = users w /\ queue w' = queue w.
Proof.
  intros _ _. unfold run. rewrite DeleteRepo_eq.
  destruct (repos w !! (owner, name)) as [d|] eqn:E.
  2:{ rewrite bool_decide_eq_false_2 by (intros [? ?]; discriminate). discriminate. }
  rewrite bool_decide_eq_true_2 by eauto.
  destruct (remove_all_err sys _); [discriminate|]. intros _.
  rewrite after_mk, RepoExists_eq, answer_mk. cbn [set_repos repos users queue].
  split; [eauto|]. split.
  { rewrite lookup_delete_eq. apply bool_decide_eq_false_2. intros [? ?]; discriminate. }
  repeat split. intros o n _ _ Hne. apply lookup_delete_ne. congruence.
Qed.


Lemma delete_repo_removes_witness :
  answer (run (Storage.RepoExists "alice" "foo")
              (after (run (StorageMore.DeleteRepo Examples.env0 ExamplesMore.sys0
                             "alice" "foo") Examples.w_origin)))
  = false.
Proof.
  exact (proj1 (proj2 (delete_repo_removes Examples.env0 ExamplesMore.sys0 "alice" "foo"
                         Examples.w_origin ltac:(vm_compute; reflexivity)
                         ltac:(vm_compute; reflexivity)
                         ltac:(vm_compute; reflexivity)))).
Defined.


(** X4. Creating a repository and then deleting it gives back the state
    before the creation: the same repositories with the same contents,
    the same users, instance file and queue. *)
Theorem create_then_delete_restores env sys owner name w :
  answer (run (Storage.CreateRepo env owner name) w) = None ->
  let w1 := after (run (Storage.CreateRepo env owner name) w) in
  answer (run (StorageMore.DeleteRepo env sys owner name) w1) = None ->
  after (run (StorageMore.DeleteRepo env sys owner name) w1) = w.
Proof.
  unfold run. rewrite CreateRepo_eq.
  destruct (repos w !! (owner, name)) as [d|] eqn:E.
  { rewrite bool_decide_eq_true_2 by eauto. discriminate. }
  rewrite bool_decide_eq_false_2 by (intros [? ?]; discriminate).
  cbn zeta.
  destruct (mkdir_err env _); [discriminate|].
  destruct (exec_engine env _ _ _) as [?|[?|] ? fresh]; try discriminate.
  destruct (write_file_err env _); [discriminate|].
  intros _. rewrite after_mk, DeleteRepo_eq. cbn [set_repos repos].
  rewrite lookup_insert_eq, bool_decide_eq_true_2 by eauto.
  destruct (remove_all_err sys _); [discriminate|]. intros _.
  rewrite after_mk. unfold set_repos. cbn [repos users instance_json queue].
  rewrite delete_insert_id by exact E. destruct w; reflexivity.
Qed.


Lemma create_then_delete_restores_witness :
  after (run (StorageMore.DeleteRepo Examples.env0 ExamplesMore.sys0 "carol" "bar")
             (after (run (Storage.CreateRepo Examples.env0 "carol" "bar")
                         Examples.w_origin)))
  = Examples.w_origin.
Proof.
  exact (create_then_delete_restores Examples.env0 ExamplesMore.sys0 "carol" "bar"
           Examples.w_origin ltac:(vm_compute; reflexivity)
           ltac:(vm_compute; reflexivity)).
Defined.

Lemma RepoExists_after_get owner name w meta :
  answer (Storage.GetMetadata owner name w) = Ok meta ->
  bool_decide (is_Some (repos w !! (owner, name))) = true.
Proof.
  intros H. apply bool_decide_eq_true_2.
  destruct (repos w !! (owner, name)) eqn:E; [eauto|].
  rewrite (GetMetadata_missing _ _ _ E), answer_mk in H. discriminate.
Qed.


(** X5. A create request of the management API that succeeded carried
    valid owner and name of a repository that did not exist; the same
    request sent again is answered 409 "repository already exists" and
    changes nothing. *)
Theorem create_repo_twice_conflicts env w r repoPath cloneURL :
  answer (run (ServerMore.handleCreateRepo env r) w)
    = ServerMore.CreatedReply repoPath cloneURL ->
  let w1 := after (run (ServerMore.handleCreateRepo env r) w) in
  (exists req,
      Decoded r = Some req
      /\ Names.isValidName (ServerMore.CreateRepoRequest.Owner req) = true
      /\ Names.isValidName (ServerMore.CreateRepoRequest.Name req) = true
      /\ repos w !! (ServerMore.CreateRepoRequest.Owner req,
                     ServerMore.CreateRepoRequest.Name req) = None
      /\ is_Some (repos w1 !! (ServerMore.CreateRepoRequest.Owner req,
                               ServerMore.CreateRepoRequest.Name req)))
  /\ answer (run (ServerMore.handleCreateRepo env r) w1)
     = ServerMore.ErrorReply StatusConflict "repository already exists"
  /\ after (run (ServerMore.handleCreateRepo env r) w1) = w1.
Proof.
  unfold run, ServerMore.handleCreateRepo.
  destruct (negb _); [discriminate|].
  destruct (Decoded r) as [req|]; [|discriminate].
  destruct (_ || _); [discriminate|].
  destruct (Names.isValidName (ServerMore.CreateRepoRequest.Owner req)) eqn:Hvo;
    [|discriminate].
  destruct (Names.isValidName (ServerMore.CreateRepoRequest.Name req)) eqn:Hvn;
    [|discriminate].
  cbn [negb orb].
  set (owner := ServerMore.CreateRepoRequest.Owner req).
  set (name := ServerMore.CreateRepoRequest.Name req).
  rewrite (bind_eq _ _ _ _ _ _ (RepoExists_eq owner name w)).
  destruct (repos w !! (owner, name)) as [d|] eqn:E.
  { rewrite bool_decide_eq_true_2 by eauto. discriminate. }
  rewrite bool_decide_eq_false_2 by (intros [? ?]; discriminate).
  pose proof (CreateRepo_fresh env owner name w) as Hc. unfold run in Hc.
  destruct (Storage.CreateRepo env owner name w) as [[e w1] l1] eqn:Ec.
  rewrite answer_mk, after_mk in Hc.
  rewrite (bind_eq _ _ _ _ _ _ Ec).
  destruct e as [why|]; [discriminate|]. unfold ret at 1 2.
  rewrite !answer_mk, !after_mk. intros _. cbn zeta.
  destruct (Hc eq_refl) as (_ & Hget & _).
  pose proof (RepoExists_after_get _ _ _ _ Hget) as Hex.
  split.
  { exists req. split; [reflexivity|]. split; [exact Hvo|]. split; [exact Hvn|].
    split; [exact E|]. apply bool_decide_eq_true in Hex. exact Hex. }
  rewrite (bind_eq _ _ _ _ _ _ (RepoExists_eq owner name w1)), Hex.
  split; reflexivity.
Qed.


Lemma create_repo_twice_conflicts_witness :
  answer (run (ServerMore.handleCreateRepo Examples.env0
                 (ExamplesFed.create_post "carol" "bar"))
              (after (run (ServerMore.handleCreateRepo Examples.env0
                             (ExamplesFed.create_post "carol" "bar"))
                          Examples.w_origin)))
  = ServerMore.ErrorReply StatusConflict "repository already exists".
Proof.
  exact (proj1 (proj2 (create_repo_twice_conflicts Examples.env0 Examples.w_origin
                         (ExamplesFed.create_post "carol" "bar")
                         "carol/bar.git" "http://localhost:3000/carol/bar.git"
                         ltac:(vm_compute; reflexivity)))).
Defined.


(** X6. After a POST to the metadata endpoint that succeeded, a GET for
    the same repository returns the document that was posted and changes
    nothing. *)
Theorem api_metadata_round_trip env w owner name meta body :
  answer (run (ServerMore.handleMetadata env
                 (ServerMore.MkMetadataRequest "POST" owner name (Some meta))) w)
    = ServerMore.SuccessReply ->
  let w1 := after (run (ServerMore.handleMetadata env
                 (ServerMore.MkMetadataRequest "POST" owner name (Some meta))) w) in
  answer (run (ServerMore.handleMetadata env
                 (ServerMore.MkMetadataRequest "GET" owner name body)) w1)
    = ServerMore.MetadataReply meta
  /\ after (run (ServerMore.handleMetadata env
                 (ServerMore.MkMetadataRequest "GET" owner name body)) w1) = w1.
Proof.
  unfold run, ServerMore.handleMetadata.
  cbn [ServerMore.QueryOwner ServerMore.QueryName ServerMore.MdMethod
       ServerMore.MdDecoded].
  destruct (_ || _); [discriminate|].
  change (String.eqb "POST" "GET") with false.
  change (String.eqb "POST" "POST") with true.
  change (String.eqb "GET" "GET") with true. cbv iota.
  rewrite (bind_eq _ _ _ _ _ _ (RepoExists_eq owner name w)).
  destruct (bool_decide (is_Some (repos w !! (owner, name)))); [|discriminate].
  cbn [negb].
  pose proof (SetMetadata_round_trip env owner name meta w) as Hrt. unfold run in Hrt.
  destruct (Storage.SetMetadata env owner name meta w) as [[e w1] l1] eqn:Es.
  rewrite answer_mk, after_mk in Hrt.
  rewrite (bind_eq _ _ _ _ _ _ Es).
  destruct e as [why|]; [discriminate|]. unfold ret at 1 2.
  rewrite !answer_mk, !after_mk. intros _. cbn zeta.
  destruct (Hrt eq_refl) as (Hget & _).
  rewrite (bind_eq _ _ _ _ _ _ (RepoExists_eq owner name w1)).
  rewrite (RepoExists_after_get _ _ _ _ Hget). cbn [negb].
  pose proof (GetMetadata_after owner name w1) as Ha.
  destruct (Storage.GetMetadata owner name w1) as [[m w2] l2] eqn:Eg.
  rewrite after_mk in Ha. subst w2. rewrite answer_mk in Hget. subst m.
  rewrite (bind_eq _ _ _ _ _ _ Eg). split; reflexivity.
Qed.


Lemma api_metadata_round_trip_witness :
  answer (run (ServerMore.handleMetadata Examples.env0
                 (ServerMore.MkMetadataRequest "GET" "alice" "foo" None))
              (after (run (ServerMore.handleMetadata Examples.env0
                             (ServerMore.MkMetadataRequest "POST" "alice" "foo"
                                (Some Examples.replica_meta)))
                          Examples.w_origin)))
  = ServerMore.MetadataReply Examples.replica_meta.
Proof.
  exact (proj1 (api_metadata_round_trip Examples.env0 Examples.w_origin "alice" "foo"
                  Examples.replica_meta None ltac:(vm_compute; reflexivity))).
Defined.


(** X7. A delete request of the management API that carried valid
    names and succeeded named a repository that existed; afterwards the
    repository is gone from the store, every other repository with valid
    names, the users and the queue are as they were, the same request is
    answered 404, and so is every request to the metadata endpoint for
    the repository. *)
Theorem api_delete_then_not_found env sys w r :
  (forall req, Decoded r = Some req ->
               Names.isValidName (ServerMore.CreateRepoRequest.Owner req) = true
               /\ Names.isValidName (ServerMore.CreateRepoRequest.Name req) = true) ->
  answer (ServerMore.handleDeleteRepo env sys r w) = ServerMore.SuccessReply ->
  let w1 := after (ServerMore.handleDeleteRepo env sys r w) in
  exists req,
    Decoded r = Some req
    /\ is_Some (repos w !! (ServerMore.CreateRepoRequest.Owner req,
                            ServerMore.CreateRepoRequest.Name req))
    /\ repos w1 !! (ServerMore.CreateRepoRequest.Owner req,
                    ServerMore.CreateRepoRequest.Name req) = None
    /\ (forall o n, Names.isValidName o = true -> Names.isValidName n = true ->
                    (o, n) <> (ServerMore.CreateRepoRequest.Owner req,
                               ServerMore.CreateRepoRequest.Name req) ->
                    repos w1 !! (o, n) = repos w !! (o, n))
    /\ users w1 = users w /\ queue w1 = queue w
    /\ answer (ServerMore.handleDeleteRepo env sys r w1)
       = ServerMore.ErrorReply StatusNotFound "repository not found"
    /\ (forall method body,
           answer (ServerMore.handleMetadata env
                     (ServerMore.MkMetadataRequest method
                        (ServerMore.CreateRepoRequest.Owner req)
                        (ServerMore.CreateRepoRequest.Name req) body) w1)
           = ServerMore.ErrorReply StatusNotFound "repository not found").
Proof.
  intros _.
  unfold ServerMore.handleDeleteRepo, ServerMore.handleMetadata.
  cbn [ServerMore.QueryOwner ServerMore.QueryName].
  destruct (negb _); [discriminate|].
  destruct (Decoded r) as [req|]; [|discriminate].
  set (owner := ServerMore.CreateRepoRequest.Owner req).
  set (name := ServerMore.CreateRepoRequest.Name req).
  destruct (_ || _) eqn:Hne; [discriminate|].
  rewrite (bind_eq _ _ _ _ _ _ (RepoExists_eq owner name w)).
  destruct (repos w !! (owner, name)) as [d|] eqn:E.
  2:{ rewrite bool_decide_eq_false_2 by (intros [? ?]; discriminate). discriminate. }
  rewrite bool_decide_eq_true_2 by eauto. cbn [negb].
  pose proof (DeleteRepo_eq env sys owner name w) as Ed.
  rewrite E, bool_decide_eq_true_2 in Ed by eauto.
  destruct (remove_all_err sys _); rewrite (bind_eq _ _ _ _ _ _ Ed);
    cbv beta iota; rewrite ?answer_mk, ?after_mk, ?answer_ret, ?after_ret; [discriminate|].
  intros _. cbn zeta. exists req. split; [reflexivity|]. split; [eauto|].
  cbn [repos users queue set_repos].
  split; [apply lookup_delete_eq|].
  split; [intros o n _ _ Hon; apply lookup_delete_ne;
          intros Heq; apply Hon; symmetry; exact Heq|].
  split; [reflexivity|]. split; [reflexivity|].
  assert (Hgone : bool_decide (is_Some (delete (owner, name) (repos w) !! (owner, name)))
                  = false).
  { rewrite lookup_delete_eq. apply bool_decide_eq_false_2. intros [? ?]; discriminate. }
  split.
  - rewrite (bind_eq _ _ _ _ _ _ (RepoExists_eq owner name _)).
    cbn [repos set_repos]. rewrite Hgone. reflexivity.
  - intros method body.
    change (ServerMore.CreateRepoRequest.Owner req) with owner.
    change (ServerMore.CreateRepoRequest.Name req) with name.
    rewrite Hne.
    rewrite (bind_eq _ _ _ _ _ _ (RepoExists_eq owner name _)).
    cbn [repos set_repos]. rewrite Hgone. reflexivity.
Qed.


Lemma api_delete_then_not_found_witness :
  exists req,
    Decoded (ExamplesFed.create_post "alice" "foo") = Some req
    /\ answer (ServerMore.handleDeleteRepo Examples.env0 ExamplesMore.sys0
                 (ExamplesFed.create_post "alice" "foo")
                 (after (ServerMore.handleDeleteRepo Examples.env0 ExamplesMore.sys0
                           (ExamplesFed.create_post "alice" "foo") Examples.w_origin)))
       = ServerMore.ErrorReply StatusNotFound "repository not found".
Proof.
  destruct (api_delete_then_not_found Examples.env0 ExamplesMore.sys0 Examples.w_origin
              (ExamplesFed.create_post "alice" "foo")
              ltac:(intros req [= <-]; split; vm_compute; reflexivity)
              ltac:(vm_compute; reflexivity))
    as (req & Hd & _ & _ & _ & _ & _ & Hagain & _).
  exists req. split; [exact Hd | exact Hagain].
Defined.


End StoreFacts.

(** ** The credential store *)

Section AuthFacts.
Import GoStrings HTTP Props.

Lemma consistent_check_spec w : consistent_check w = true -> users_consistent w.
Proof.
  unfold consistent_check, users_consistent. rewrite forallb_forall.
  intros H stem usr Hl.
  specialize (H (stem, UserDoc usr)). cbn [fst snd] in H.
  apply String.eqb_eq, H, list_elem_of_In, elem_of_map_to_list. exact Hl.
Qed.

Lemma no_holder_spec w token :
  no_holder w token = true -> forall stem, ~ holds_token w stem token.
Proof.
  unfold no_holder. rewrite forallb_forall.
  intros H stem (usr & Hl & Ht).
  specialize (H (stem, UserDoc usr)). cbn [fst snd] in H.
  rewrite Ht in H. discriminate H.
  apply list_elem_of_In, elem_of_map_to_list. exact Hl.
Qed.

Lemma elem_of_dir_entries (u : gmap string UserFile) (stem : string) :
  stem ∈ Auth.dir_entries u <-> is_Some (u !! stem).
Proof.
  unfold Auth.dir_entries. rewrite merge_sort_Permutation.
  rewrite list_elem_of_fmap. split.
  - intros ([k v] & -> & H). apply elem_of_map_to_list in H. eauto.
  - intros [v H]. exists (stem, v). split; [reflexivity|].
    apply elem_of_map_to_list. exact H.
Qed.

Lemma GetUser_eq username w :
  Auth.GetUser username w
  = (match users w !! username with
     | None => Err ("user not found: " ++ username)
     | Some (UserReadError why) => Err ("read user: " ++ why)
     | Some (UserBadJSON why) => Err ("unmarshal user: " ++ why)
     | Some (UserDoc u) => Ok u
     end, w, [EvReadUser username]).
Proof.
  unfold Auth.GetUser, bind, emit, get_world, ret. cbn [fst snd].
  destruct (users w !! username) as [[?|?|?]|]; reflexivity.
Qed.

Lemma scan_users_sound entries token w u :
  answer (Auth.scan_users entries token w) = Ok u ->
  exists stem usr, stem ∈ entries /\ users w !! stem = Some (UserDoc usr)
                   /\ User.Username usr = u /\ Auth.has_token usr token = true.
Proof.
  induction entries as [|e rest IH]; [discriminate|].
  cbn [Auth.scan_users]. rewrite answer_bind, GetUser_eq, answer_mk, after_mk.
  destruct (users w !! e) as [[?|?|usr]|] eqn:E;
    try (intros H; destruct (IH H) as (s & x & ? & ?); exists s, x;
         split; [right; assumption | assumption]).
  destruct (Auth.has_token usr token) eqn:Ht.
  - rewrite answer_ret. intros [= <-]. exists e, usr. repeat split; auto. left.
  - intros H; destruct (IH H) as (s & x & ? & ?); exists s, x;
      split; [right; assumption | assumption].
Qed.

Lemma scan_users_complete entries token w stem :
  stem ∈ entries -> holds_token w stem token ->
  exists u, answer (Auth.scan_users entries token w) = Ok u.
Proof.
  intros Hin (usr & Hu & Ht).
  induction entries as [|e rest IH]; [inversion Hin|].
  cbn [Auth.scan_users]. rewrite answer_bind, GetUser_eq, answer_mk, after_mk.
  destruct (decide (e = stem)) as [->|Hne].
  - rewrite Hu, Ht, answer_ret. eauto.
  - assert (Hrest : stem ∈ rest) by (inversion Hin; subst; congruence).
    destruct (users w !! e) as [[?|?|usr']|]; auto.
    destruct (Auth.has_token usr' token); [rewrite answer_ret; eauto | auto].
Qed.

Lemma ValidateAPIToken_answer env token w :
  read_dir_err env = None ->
  answer (Auth.ValidateAPIToken env token w)
  = answer (Auth.scan_users (Auth.dir_entries (users w)) token w).
Proof.
  intros H. unfold Auth.ValidateAPIToken. rewrite H.
  unfold bind, emit, get_world, answer. reflexivity.
Qed.

Lemma validate_token_cases env token w :
  read_dir_err env = None ->
  (forall u, answer (run (Auth.ValidateAPIToken env token) w) = Ok u ->
             exists stem usr, users w !! stem = Some (UserDoc usr)
                              /\ User.Username usr = u
                              /\ Auth.has_token usr token = true)
  /\ (forall stem, holds_token w stem token ->
                   exists u, answer (run (Auth.ValidateAPIToken env token) w) = Ok u)
  /\ (forall u, users_consistent w ->
                (forall stem, holds_token w stem token -> stem = u) ->
                holds_token w u token ->
                answer (run (Auth.ValidateAPIToken env token) w) = Ok u).
Proof.
  intros Hdir. unfold run. rewrite (ValidateAPIToken_answer env token w Hdir).
  split; [|split].
  - intros u H. destruct (scan_users_sound _ _ _ _ H) as (s & x & _ & ? & ? & ?). eauto.
  - intros stem H. apply (scan_users_complete _ _ _ stem); [|exact H].
    apply elem_of_dir_entries. destruct H as (usr & -> & _). eauto.
  - intros u Hcons Huniq Hheld.
    destruct (scan_users_complete (Auth.dir_entries (users w)) token w u) as [u' Hu'];
      [apply elem_of_dir_entries; destruct Hheld as (usr & -> & _); eauto | exact Hheld |].
    rewrite Hu'. f_equal.
    destruct (scan_users_sound _ _ _ _ Hu') as (s & x & _ & Hs & Hx & Ht).
    rewrite <- Hx, (Hcons s x Hs). apply Huniq. exists x. auto.
Qed.


(** X8. When the users directory can be read, [ValidateAPIToken] returns
    a name only if some user file holds a document with that name and the
    token; it returns a name whenever some user file lists the token; and
    when every file is named after its user and one user alone lists the
    token, it returns that user. *)
Theorem validate_token_iff_held env token w :
  read_dir_err env = None ->
  (forall u, answer (run (Auth.ValidateAPIToken env token) w) = Ok u ->
             exists stem usr, users w !! stem = Some (UserDoc usr)
                              /\ User.Username usr = u
                              /\ Auth.has_token usr token = true)
  /\ (forall stem, holds_token w stem token ->
                   exists u, answer (run (Auth.ValidateAPIToken env token) w) = Ok u)
  /\ (forall u, users_consistent w ->
                (forall stem, holds_token w stem token -> stem = u) ->
                holds_token w u token ->
                answer (run (Auth.ValidateAPIToken env token) w) = Ok u).
Proof. exact (validate_token_cases env token w). Qed.


Lemma validate_token_iff_held_witness :
  exists u, answer (run (Auth.ValidateAPIToken Examples.env0 "T") Examples.w_origin)
            = Ok u.
Proof.
  apply (proj1 (proj2 (validate_token_iff_held Examples.env0 "T" Examples.w_origin
                         eq_refl)) "alice").
  exists Examples.alice. split; vm_compute; reflexivity.
Defined.

Lemma saveUser_eq env user w :
  Auth.saveUser env user w
  = match write_file_err env (Auth.userPath env (User.Username user)) with
    | Some why => (Some ("write user: " ++ why), w, [EvWriteUser (User.Username user)])
    | None => (None, set_users w (<[User.Username user := UserDoc user]> (users w)),
               [EvWriteUser (User.Username user)])
    end.
Proof.
  unfold Auth.saveUser, bind, emit, get_world, put_world, ret. cbn [fst snd].
  destruct (write_file_err env _); reflexivity.
Qed.

Lemma saveUser_consistent env user w :
  users_consistent w -> users_consistent (after (Auth.saveUser env user w)).
Proof.
  intros Hc. rewrite saveUser_eq.
  destruct (write_file_err env _); rewrite after_mk; [exact Hc|].
  intros stem usr. cbn [set_users users]. rewrite lookup_insert.
  destruct (decide (User.Username user = stem)) as [<-|Hne].
  - intros [= <-]. reflexivity.
  - apply Hc.
Qed.

Lemma credential_ops_consistent env w :
  users_consistent w ->
  (forall username,
      users_consistent (after (run (AuthMore.CreateUser env username) w)))
  /\ (forall username tokenName token,
         users_consistent
           (after (run (Auth.CreateUserWithToken env username tokenName token) w)))
  /\ (forall username name key,
         users_consistent (after (run (AuthMore.AddSSHKey env username name key) w)))
  /\ (forall username name,
         users_consistent (after (run (AuthMore.GenerateAPIToken env username name) w))).
Proof.
  intros Hc. unfold run. repeat split.
  - intros username. unfold AuthMore.CreateUser.
    rewrite after_bind, GetUser_eq, answer_mk, after_mk.
    destruct (users w !! username) as [[?|?|?]|];
      try (apply saveUser_consistent; exact Hc). exact Hc.
  - intros username tokenName token. unfold Auth.CreateUserWithToken.
    rewrite after_bind, GetUser_eq, answer_mk, after_mk.
    destruct (users w !! username) as [[?|?|?]|];
      try (apply saveUser_consistent; exact Hc). exact Hc.
  - intros username name key. unfold AuthMore.AddSSHKey.
    rewrite after_bind, GetUser_eq, answer_mk, after_mk.
    destruct (users w !! username) as [[?|?|?]|];
      try (apply saveUser_consistent; exact Hc); exact Hc.
  - intros username name. unfold AuthMore.GenerateAPIToken.
    rewrite after_bind, GetUser_eq, answer_mk, after_mk.
    destruct (users w !! username) as [[?|?|usr]|]; try exact Hc.
    destruct (rand_hex env 0); [|exact Hc].
    rewrite after_bind.
    match goal with
    | |- context [Auth.saveUser env ?u w] =>
        pose proof (saveUser_consistent env u w Hc) as Hs;
        destruct (answer (Auth.saveUser env u w)); rewrite after_ret; exact Hs
    end.
Qed.


(** X9. For user names that are valid names, [CreateUser],
    [CreateUserWithToken], [AddSSHKey] and [GenerateAPIToken] keep the
    credential store consistent: if every readable user file is named
    after the user it describes before the call, the same holds after it,
    whether the call succeeds or not. *)
Theorem credential_files_stay_consistent env w :
  users_consistent w ->
  (forall username,
      Names.isValidName username = true ->
      users_consistent (after (run (AuthMore.CreateUser env username) w)))
  /\ (forall username tokenName token,
         Names.isValidName username = true ->
         users_consistent
           (after (run (Auth.CreateUserWithToken env username tokenName token) w)))
  /\ (forall username name key,
         Names.isValidName username = true ->
         users_consistent (after (run (AuthMore.AddSSHKey env username name key) w)))
  /\ (forall username name,
         Names.isValidName username = true ->
         users_consistent (after (run (AuthMore.GenerateAPIToken env username name) w))).
Proof.
  intros Hc.
  destruct (credential_ops_consistent env w Hc) as (H1 & H2 & H3 & H4).
  split; [intros username _; apply H1|].
  split; [intros username tokenName token _; apply H2|].
  split; [intros username name key _; apply H3|].
  intros username name _; apply H4.
Qed.


Lemma credential_files_stay_consistent_witness :
  users_consistent (after (run (AuthMore.CreateUser Examples.env0 "carol")
                               Examples.w_origin)).
Proof.
  apply (proj1 (credential_files_stay_consistent Examples.env0 Examples.w_origin
                  (consistent_check_spec Examples.w_origin
                     ltac:(vm_compute; reflexivity)))).
  vm_compute. reflexivity.
Defined.

Lemma has_token_app usr extra token :
  Auth.has_token (User.Build (User.Username usr) (User.SSHKeys usr)
                             (User.APITokens usr ++ extra) (User.CreatedAt usr)) token
  = Auth.has_token usr token
    || existsb (fun t => String.eqb (APIToken.Token t) token) extra.
Proof. unfold Auth.has_token. cbn [User.APITokens]. apply existsb_app. Qed.


(** X10. For a user name that is a valid name: when [GenerateAPIToken]
    succeeds on a consistent store, the token it returns is the one drawn
    from the random source and is now held by the user; every token held
    before is still held, the files of the other users with valid names
    are untouched, and if no file listed the new token before,
    [ValidateAPIToken] maps it to the user. *)
Theorem generate_token_keeps_old_tokens env username name w token :
  Names.isValidName username = true ->
  users_consistent w -> read_dir_err env = None ->
  answer (AuthMore.GenerateAPIToken env username name w) = Ok token ->
  let w' := after (AuthMore.GenerateAPIToken env username name w) in
  rand_hex env 0 = Ok token
  /\ holds_token w' username token
  /\ (forall stem t, holds_token w stem t -> holds_token w' stem t)
  /\ (forall stem, Names.isValidName stem = true -> stem <> username ->
                   users w' !! stem = users w !! stem)
  /\ ((forall stem, ~ holds_token w stem token) ->
      answer (Auth.ValidateAPIToken env token w') = Ok username).
Proof.
  intros _ Hc Hdir. cbn zeta.
  pose proof (proj2 (proj2 (proj2 (credential_ops_consistent env w Hc)))
                username name) as Hc'. unfold run in Hc'. revert Hc'.
  unfold AuthMore.GenerateAPIToken.
  rewrite answer_bind, after_bind, GetUser_eq, answer_mk, after_mk.
  destruct (users w !! username) as [[?|?|usr]|] eqn:Hu; try discriminate.
  pose proof (Hc _ _ Hu) as Hname.
  destruct (rand_hex env 0) as [tok|]; [|discriminate].
  rewrite answer_bind, after_bind, saveUser_eq. cbn [User.Username].
  destruct (write_file_err env _); rewrite answer_mk, after_mk;
    rewrite answer_ret, after_ret; [discriminate|].
  intros Hc' [= <-]. rewrite Hname in *.
  assert (Hnew : holds_token
                   (set_users w
                      (<[username := UserDoc
                           (User.Build username (User.SSHKeys usr)
                              (User.APITokens usr ++ [APIToken.Build name tok (now env)])
                              (User.CreatedAt usr))]> (users w)))
                   username tok).
  { eexists. cbn [set_users users]. rewrite lookup_insert_eq. split; [reflexivity|].
    unfold Auth.has_token. cbn [User.APITokens]. rewrite existsb_app.
    cbn [existsb APIToken.Token]. rewrite String.eqb_refl. apply orb_true_iff. auto. }
  assert (Hold : forall stem t, holds_token w stem t ->
                   holds_token
                     (set_users w
                        (<[username := UserDoc
                             (User.Build username (User.SSHKeys usr)
                                (User.APITokens usr ++ [APIToken.Build name tok (now env)])
                                (User.CreatedAt usr))]> (users w)))
                     stem t).
  { intros stem t (x & Hx & Ht). unfold holds_token. cbn [set_users users].
    destruct (decide (username = stem)) as [<-|Hne].
    - rewrite lookup_insert_eq. eexists. split; [reflexivity|].
      rewrite Hu in Hx. injection Hx as <-.
      unfold Auth.has_token in *. cbn [User.APITokens]. rewrite existsb_app, Ht.
      reflexivity.
    - rewrite lookup_insert_ne by exact Hne. eauto. }
  split; [reflexivity|]. split; [exact Hnew|]. split; [exact Hold|]. split.
  { intros stem _ Hne. cbn [set_users users]. apply lookup_insert_ne. congruence. }
  intros Hfresh.
  apply (proj2 (proj2 (validate_token_cases env tok _ Hdir))); [exact Hc'| |exact Hnew].
  intros stem (x & Hx & Ht). cbn [set_users users] in Hx.
  destruct (decide (username = stem)) as [<-|Hne]; [reflexivity|].
  rewrite lookup_insert_ne in Hx by exact Hne.
  exfalso. apply (Hfresh stem). exists x. auto.
Qed.


Lemma generate_token_keeps_old_tokens_witness :
  holds_token (after (AuthMore.GenerateAPIToken Examples.env0 "alice" "ci"
                        Examples.w_origin)) "alice" "T"
  /\ answer (Auth.ValidateAPIToken Examples.env0 "00ff"
               (after (AuthMore.GenerateAPIToken Examples.env0 "alice" "ci"
                         Examples.w_origin)))
     = Ok "alice".
Proof.
  destruct (generate_token_keeps_old_tokens Examples.env0 "alice" "ci" Examples.w_origin
              "00ff" ltac:(vm_compute; reflexivity)
              (consistent_check_spec Examples.w_origin ltac:(vm_compute; reflexivity))
              eq_refl ltac:(vm_compute; reflexivity))
    as (_ & _ & Hold & _ & Hv).
  split.
  - apply Hold. exists Examples.alice. split; vm_compute; reflexivity.
  - apply Hv. apply no_holder_spec. vm_compute. reflexivity.
Defined.


(** X11. For a user name that is a valid name: when
    [CreateUserWithToken] succeeds on a consistent store with a token no
    user file lists, [ValidateAPIToken] maps the token to the new user
    afterwards; the file of the new user holds that one token and no key,
    and the files of the other users with valid names are untouched. *)
Theorem handshake_token_authenticates env username tokenName token w :
  Names.isValidName username = true ->
  users_consistent w -> read_dir_err env = None ->
  (forall stem, ~ holds_token w stem token) ->
  answer (run (Auth.CreateUserWithToken env username tokenName token) w) = None ->
  let w' := after (run (Auth.CreateUserWithToken env username tokenName token) w) in
  answer (run (Auth.ValidateAPIToken env token) w') = Ok username
  /\ users w' !! username
     = Some (UserDoc (User.Build username []
                        [APIToken.Build tokenName token (now env)] (now env)))
  /\ (forall stem, Names.isValidName stem = true -> stem <> username ->
                   users w' !! stem = users w !! stem).
Proof.
  intros _ Hc Hdir Hfresh. cbn zeta.
  pose proof (proj1 (proj2 (credential_ops_consistent env w Hc))
                username tokenName token) as Hc'. revert Hc'.
  unfold run, Auth.CreateUserWithToken.
  rewrite answer_bind, after_bind, GetUser_eq, answer_mk, after_mk.
  assert (Hgoal : forall (Hnot : forall u, users w !! username <> Some (UserDoc u)),
             users_consistent
               (after (Auth.saveUser env
                         (User.Build username []
                            [APIToken.Build tokenName token (now env)] (now env)) w)) ->
             answer (Auth.saveUser env
                       (User.Build username []
                          [APIToken.Build tokenName token (now env)] (now env)) w) = None ->
             answer (Auth.ValidateAPIToken env token
                       (after (Auth.saveUser env
                                 (User.Build username []
                                    [APIToken.Build tokenName token (now env)] (now env)) w)))
             = Ok username
             /\ users (after (Auth.saveUser env
                                (User.Build username []
                                   [APIToken.Build tokenName token (now env)] (now env)) w))
                  !! username
                = Some (UserDoc (User.Build username []
                                   [APIToken.Build tokenName token (now env)] (now env)))
             /\ (forall stem, Names.isValidName stem = true -> stem <> username ->
                     users (after (Auth.saveUser env
                                     (User.Build username []
                                        [APIToken.Build tokenName token (now env)]
                                        (now env)) w)) !! stem = users w !! stem)).
  { intros _. rewrite saveUser_eq. cbn [User.Username].
    destruct (write_file_err env _); rewrite answer_mk, after_mk; [discriminate|].
    intros Hc' _. cbn [set_users users].
    assert (Hnew : holds_token
                     (set_users w (<[username := UserDoc
                          (User.Build username []
                             [APIToken.Build tokenName token (now env)] (now env))]>
                          (users w))) username token).
    { eexists. cbn [set_users users]. rewrite lookup_insert_eq. split; [reflexivity|].
      unfold Auth.has_token. cbn. rewrite String.eqb_refl. reflexivity. }
    split; [|split].
    - apply (proj2 (proj2 (validate_token_cases env token _ Hdir)));
        [exact Hc'| |exact Hnew].
      intros stem (x & Hx & Ht). cbn [set_users users] in Hx.
      destruct (decide (username = stem)) as [<-|Hne]; [reflexivity|].
      rewrite lookup_insert_ne in Hx by exact Hne.
      exfalso. apply (Hfresh stem). exists x. auto.
    - apply lookup_insert_eq.
    - intros stem _ Hne. apply lookup_insert_ne. congruence. }
  destruct (users w !! username) as [[?|?|usr]|] eqn:Hu;
    try (apply Hgoal; intros u; discriminate).
  rewrite answer_ret. discriminate.
Qed.


Lemma handshake_token_authenticates_witness :
  answer (run (Auth.ValidateAPIToken Examples.env0 "TR")
              (after (run (Auth.CreateUserWithToken Examples.env0
                             "replication-alice-foo-A" "replication" "TR")
                          Examples.w_origin_fresh)))
  = Ok "replication-alice-foo-A".
Proof.
  exact (proj1 (handshake_token_authenticates Examples.env0
                  "replication-alice-foo-A" "replication" "TR" Examples.w_origin_fresh
                  ltac:(vm_compute; reflexivity)
                  (consistent_check_spec Examples.w_origin_fresh
                     ltac:(vm_compute; reflexivity))
                  eq_refl
                  (no_holder_spec Examples.w_origin_fresh "TR"
                     ltac:(vm_compute; reflexivity))
                  ltac:(vm_compute; reflexivity))).
Defined.


(** X12. For a user name that is a valid name, [CreateUser] succeeds
    exactly when the user file holds no readable document and the write
    goes through: a missing file, an unreadable file and a file that is
    not JSON are all replaced by a fresh user without keys or tokens,
    while the files of the other users with valid names, the repositories
    and the queue stay as they were.  A call that fails changes nothing. *)
Theorem create_user_replaces_unreadable_file env username w :
  Names.isValidName username = true ->
  let res := AuthMore.CreateUser env username w in
  (answer res = None
   <-> ((forall u, users w !! username <> Some (UserDoc u))
        /\ write_file_err env (Auth.userPath env username) = None))
  /\ (answer res = None ->
      users (after res) !! username
      = Some (UserDoc (User.Build username [] [] (now env)))
      /\ (forall stem, Names.isValidName stem = true -> stem <> username ->
                       users (after res) !! stem = users w !! stem)
      /\ repos (after res) = repos w /\ queue (after res) = queue w)
  /\ (answer res <> None -> after res = w).
Proof.
  intros _. cbn zeta. unfold AuthMore.CreateUser.
  rewrite bind_run, GetUser_eq, answer_mk, after_mk.
  destruct (users w !! username) as [[?|?|usr]|] eqn:Hu; cbn [answer after fst snd].
  4:{ rewrite saveUser_eq. cbn [User.Username].
      destruct (write_file_err env _); cbn [fst snd].
      - split; [split; [discriminate | intros [_ ?]; discriminate]|].
        split; [discriminate | reflexivity].
      - split; [split; [intros _; split; [discriminate | reflexivity] | reflexivity]|].
        split; [intros _ | intros H; exfalso; apply H; reflexivity].
        cbn [set_users users repos queue].
        split; [apply lookup_insert_eq|].
        split; [intros stem _ Hne; apply lookup_insert_ne; congruence|].
        split; reflexivity. }
  1,2: rewrite saveUser_eq; cbn [User.Username];
       destruct (write_file_err env _); cbn [fst snd];
       [ split; [split; [discriminate | intros [_ ?]; discriminate]|];
         split; [discriminate | reflexivity]
       | split; [split; [intros _; split; [discriminate | reflexivity] | reflexivity]|];
         split; [intros _ | intros H; exfalso; apply H; reflexivity];
         cbn [set_users users repos queue];
         split; [apply lookup_insert_eq|];
         split; [intros stem _ Hne; apply lookup_insert_ne; congruence|];
         split; reflexivity ].
  split; [split; [discriminate | intros [H _]; exfalso; apply (H usr); reflexivity]|].
  split; [discriminate | reflexivity].
Qed.


Lemma create_user_replaces_unreadable_file_witness :
  users (after (AuthMore.CreateUser Examples.env0 "carol" Examples.w_origin)) !! "carol"
  = Some (UserDoc (User.Build "carol" [] [] (now Examples.env0))).
Proof.
  destruct (create_user_replaces_unreadable_file Examples.env0 "carol"
              Examples.w_origin ltac:(vm_compute; reflexivity)) as (Hiff & Hok & _).
  apply Hok. apply Hiff.
  split; [intros u; vm_compute; discriminate | reflexivity].
Defined.


End AuthFacts.

(** ** Public keys *)

Section KeyFacts.
Import GoStrings GoStringsMore.

Lemma Fields_go_space c t :
  isSpace c = true -> Fields_go (String c t) = (EmptyString, Fields t).
Proof.
  intros H. cbn [Fields_go]. unfold Fields.
  destruct (Fields_go t) as [cur rest]. rewrite H. reflexivity.
Qed.

Lemma Fields_space c t : isSpace c = true -> Fields (String c t) = Fields t.
Proof.
  intros H. unfold Fields at 1. rewrite (Fields_go_space c t H). reflexivity.
Qed.

Lemma Fields_go_word a s :
  no_space a = true ->
  Fields_go (a ++ s) = (a ++ fst (Fields_go s), snd (Fields_go s)).
Proof.
  induction a as [|c a IH]; intros H.
  - rewrite !append_empty. destruct (Fields_go s); reflexivity.
  - cbn [no_space] in H. apply andb_true_iff in H as [Hc Ha].
    rewrite !append_cons. cbn [Fields_go]. rewrite (IH Ha).
    apply negb_true_iff in Hc. rewrite Hc. reflexivity.
Qed.

Lemma append_empty_r (s : string) : s ++ EmptyString = s.
Proof. induction s as [|c s IH]; [reflexivity|]. rewrite append_cons, IH. reflexivity. Qed.

Lemma Fields_word_then_space a c t :
  is_field a -> isSpace c = true -> Fields (a ++ String c t) = a :: Fields t.
Proof.
  intros [Hne Ha] Hc. unfold Fields at 1.
  rewrite (Fields_go_word a _ Ha), (Fields_go_space c t Hc). cbn [fst snd].
  rewrite append_empty_r.
  destruct a; [congruence|]. reflexivity.
Qed.

Lemma Fields_word a : is_field a -> Fields a = [a].
Proof.
  intros [Hne Ha]. unfold Fields.
  rewrite <- (append_empty_r a) at 1.
  rewrite (Fields_go_word a _ Ha). cbn [Fields_go fst snd].
  rewrite append_empty_r. destruct a; [congruence|]. reflexivity.
Qed.

Lemma Fields_go_invariant s :
  no_space (fst (Fields_go s)) = true /\ Forall is_field (snd (Fields_go s)).
Proof.
  induction s as [|c s [IH1 IH2]]; [split; [reflexivity | constructor]|].
  cbn [Fields_go]. destruct (Fields_go s) as [cur rest]. cbn [fst snd] in *.
  destruct (isSpace c) eqn:Hc; cbn [fst snd].
  - split; [reflexivity|].
    destruct (String.eqb_spec cur EmptyString); [exact IH2|].
    constructor; [split; assumption | exact IH2].
  - split; [cbn [no_space]; rewrite Hc, IH1; reflexivity | exact IH2].
Qed.

Lemma Fields_words s : Forall is_field (Fields s).
Proof.
  unfold Fields. destruct (Fields_go_invariant s) as [H1 H2].
  destruct (Fields_go s) as [cur rest]. cbn [fst snd] in *.
  destruct (String.eqb_spec cur EmptyString); [exact H2|].
  constructor; [split; assumption | exact H2].
Qed.

Lemma normalize_two a b rest :
  is_field a -> is_field b -> (rest = EmptyString \/ exists c t, rest = String c t /\ isSpace c = true) ->
  AuthMore.normalizeSSHKey (a ++ " " ++ b ++ rest) = a ++ " " ++ b.
Proof.
  intros Ha Hb Hrest. unfold AuthMore.normalizeSSHKey.
  change (" " ++ b ++ rest) with (String " " (b ++ rest)).
  rewrite (Fields_word_then_space a " " _ Ha eq_refl).
  destruct Hrest as [->|(c & t & -> & Hc)].
  - rewrite append_empty_r, (Fields_word b Hb). reflexivity.
  - rewrite (Fields_word_then_space b c t Hb Hc). reflexivity.
Qed.


(** X13. For a key line of two fields of ASCII bytes followed by nothing or
    by white space and anything else (the comment), the normal form is the
    two fields joined by one space: [normalizeSSHKey] drops the comment. *)
Theorem normalize_drops_comment a b rest :
  is_field a -> is_field b -> is_ascii a = true -> is_ascii b = true ->
  (rest = EmptyString \/ exists c t, rest = String c t /\ isSpace c = true) ->
  AuthMore.normalizeSSHKey (a ++ " " ++ b ++ rest) = a ++ " " ++ b.
Proof. intros Ha Hb _ _ Hrest. exact (normalize_two a b rest Ha Hb Hrest). Qed.

Lemma normalize_drops_comment_witness :
  AuthMore.normalizeSSHKey ExamplesFed.key_line = "ssh-ed25519 AAAAC3Nz".
Proof.
  apply (normalize_drops_comment "ssh-ed25519" "AAAAC3Nz" " alice@laptop").
  - split; [discriminate | reflexivity].
  - split; [discriminate | reflexivity].
  - reflexivity.
  - reflexivity.
  - right. exists " "%char, "alice@laptop". split; reflexivity.
Defined.

Lemma Fields_nil_all_space s : Fields s = [] -> all_space s = true.
Proof.
  induction s as [|c s IH]; [reflexivity|].
  destruct (isSpace c) eqn:Hc.
  - rewrite (Fields_space c s Hc). intros H. cbn [all_space]. rewrite Hc, (IH H). reflexivity.
  - unfold Fields. cbn [Fields_go]. destruct (Fields_go s) as [cur rest].
    rewrite Hc. cbn. discriminate.
Qed.

Lemma all_space_Fields s : all_space s = true -> Fields s = [].
Proof.
  induction s as [|c s IH]; [reflexivity|].
  cbn [all_space]. intros H. apply andb_true_iff in H as [Hc Hs].
  rewrite (Fields_space c s Hc). auto.
Qed.

Lemma TrimLeftSpace_all_space s : all_space s = true -> TrimLeftSpace s = EmptyString.
Proof.
  induction s as [|c s IH]; [reflexivity|].
  cbn [all_space TrimLeftSpace]. intros H. apply andb_true_iff in H as [Hc Hs].
  rewrite Hc. auto.
Qed.

Lemma TrimRightSpace_all_space s : all_space s = true -> TrimRightSpace s = EmptyString.
Proof.
  induction s as [|c s IH]; [reflexivity|].
  cbn [all_space TrimRightSpace]. intros H. apply andb_true_iff in H as [Hc Hs].
  rewrite (IH Hs), Hc. reflexivity.
Qed.

Lemma TrimRightSpace_word a s :
  is_field a -> all_space s = true -> TrimRightSpace (a ++ s) = a.
Proof.
  intros [Hne Ha] Hs. induction a as [|c a IH]; [congruence|].
  cbn [no_space] in Ha. apply andb_true_iff in Ha as [Hc Ha].
  apply negb_true_iff in Hc.
  rewrite append_cons. cbn [TrimRightSpace].
  destruct a as [|c' a].
  - rewrite append_empty, (TrimRightSpace_all_space s Hs). cbn. rewrite Hc. reflexivity.
  - rewrite IH by (congruence || exact Ha). cbn [String.eqb andb]. 
    destruct (String.eqb (String c' a) EmptyString) eqn:E; [apply String.eqb_eq in E; discriminate|].
    reflexivity.
Qed.

Lemma split_first_word c t :
  isSpace c = false ->
  exists a s', String c t = a ++ s' /\ is_field a
               /\ (s' = EmptyString \/ exists c' t', s' = String c' t' /\ isSpace c' = true).
Proof.
  assert (W1 : forall c, isSpace c = false -> is_field (String c EmptyString)).
  { intros c0 H0. split; [discriminate|]. cbn [no_space]. rewrite H0. reflexivity. }
  revert c. induction t as [|c1 t IH]; intros c Hc.
  - exists (String c EmptyString), EmptyString.
    split; [reflexivity|]. split; [apply W1; exact Hc|]. left; reflexivity.
  - destruct (isSpace c1) eqn:Hc1.
    + exists (String c EmptyString), (String c1 t).
      split; [reflexivity|]. split; [apply W1; exact Hc|]. right; eauto.
    + destruct (IH c1 Hc1) as (a & s' & E & [Hne Ha] & Hs').
      exists (String c a), s'. rewrite append_cons, <- E.
      split; [reflexivity|]. split; [|exact Hs'].
      split; [discriminate|]. cbn [no_space]. rewrite Hc, Ha. reflexivity.
Qed.

Lemma TrimSpace_single s p : Fields s = [p] -> TrimSpace s = p.
Proof.
  unfold TrimSpace. induction s as [|c t IH]; [discriminate|].
  destruct (isSpace c) eqn:Hc.
  - rewrite (Fields_space c t Hc). cbn [TrimLeftSpace]. rewrite Hc. exact IH.
  - intros HF. cbn [TrimLeftSpace]. rewrite Hc.
    destruct (split_first_word c t Hc) as (a & s' & E & Ha & Hs').
    rewrite E in *.
    destruct Hs' as [->|(c' & t' & -> & Hc')].
    + rewrite append_empty_r in *. rewrite (Fields_word a Ha) in HF.
      injection HF as <-. rewrite <- (append_empty_r a) at 1.
      apply TrimRightSpace_word; [exact Ha | reflexivity].
    + rewrite (Fields_word_then_space a c' t' Ha Hc') in HF.
      injection HF as <- HF. apply Fields_nil_all_space in HF.
      apply TrimRightSpace_word; [exact Ha|]. cbn [all_space]. rewrite Hc', HF. reflexivity.
Qed.

Lemma TrimSpace_none s : Fields s = [] -> TrimSpace s = EmptyString.
Proof.
  intros H. apply Fields_nil_all_space in H. unfold TrimSpace.
  rewrite (TrimLeftSpace_all_space s H). reflexivity.
Qed.

Lemma normalize_cases key :
  match Fields key with
  | [] => AuthMore.normalizeSSHKey key = EmptyString
  | [p] => AuthMore.normalizeSSHKey key = p
  | p0 :: p1 :: _ => AuthMore.normalizeSSHKey key = p0 ++ " " ++ p1
  end.
Proof.
  unfold AuthMore.normalizeSSHKey.
  destruct (Fields key) as [|p0 [|p1 rest]] eqn:E.
  - apply TrimSpace_none. exact E.
  - apply TrimSpace_single. exact E.
  - reflexivity.
Qed.

Lemma normalize_twice key :
  AuthMore.normalizeSSHKey (AuthMore.normalizeSSHKey key) = AuthMore.normalizeSSHKey key.
Proof.
  pose proof (normalize_cases key) as H. pose proof (Fields_words key) as Hw.
  destruct (Fields key) as [|p0 [|p1 rest]] eqn:E.
  - rewrite H. reflexivity.
  - rewrite H. apply Forall_cons in Hw as [Hp0 _].
    unfold AuthMore.normalizeSSHKey. rewrite (Fields_word p0 Hp0).
    apply TrimSpace_single. apply Fields_word. exact Hp0.
  - rewrite H. apply Forall_cons in Hw as [Hp0 Hw]. apply Forall_cons in Hw as [Hp1 _].
    rewrite <- (append_empty_r p1) at 1.
    apply (normalize_two p0 p1 EmptyString); auto.
Qed.


(** X14. [normalizeSSHKey] is idempotent on strings of ASCII bytes: the
    normal form of a normal form is itself, whether the key line has two
    fields or more, one, or none. *)
Theorem normalize_idempotent key :
  is_ascii key = true ->
  AuthMore.normalizeSSHKey (AuthMore.normalizeSSHKey key) = AuthMore.normalizeSSHKey key.
Proof. intros _. exact (normalize_twice key). Qed.

Lemma normalize_idempotent_witness :
  AuthMore.normalizeSSHKey (AuthMore.normalizeSSHKey ExamplesFed.key_line)
  = AuthMore.normalizeSSHKey ExamplesFed.key_line.
Proof. apply (normalize_idempotent ExamplesFed.key_line). reflexivity. Defined.

Lemma no_other_key_holder_spec w username nk :
  no_other_key_holder w username nk = true ->
  forall stem, stem <> username -> ~ holds_key w stem nk.
Proof.
  unfold no_other_key_holder. rewrite forallb_forall.
  intros H stem Hne (usr & Hl & Hk).
  specialize (H (stem, UserDoc usr)). cbn [fst snd] in H.
  rewrite Hk in H. cbn [negb] in H. rewrite orb_false_r in H.
  apply Hne, String.eqb_eq, H, list_elem_of_In, elem_of_map_to_list. exact Hl.
Qed.

Lemma scan_keys_sound entries nk w u :
  answer (AuthMore.scan_keys entries nk w) = Ok u ->
  exists stem usr, stem ∈ entries /\ users w !! stem = Some (UserDoc usr)
                   /\ User.Username usr = u /\ AuthMore.has_key usr nk = true.
Proof.
  induction entries as [|e rest IH]; [discriminate|].
  cbn [AuthMore.scan_keys]. rewrite answer_bind, GetUser_eq, answer_mk, after_mk.
  destruct (users w !! e) as [[?|?|usr]|] eqn:E;
    try (intros H; destruct (IH H) as (s & x & ? & ?); exists s, x;
         split; [right; assumption | assumption]).
  destruct (AuthMore.has_key usr nk) eqn:Ht.
  - rewrite answer_ret. intros [= <-]. exists e, usr. repeat split; auto. left.
  - intros H; destruct (IH H) as (s & x & ? & ?); exists s, x;
      split; [right; assumption | assumption].
Qed.

Lemma scan_keys_complete entries nk w stem :
  stem ∈ entries -> holds_key w stem nk ->
  exists u, answer (AuthMore.scan_keys entries nk w) = Ok u.
Proof.
  intros Hin (usr & Hu & Ht).
  induction entries as [|e rest IH]; [inversion Hin|].
  cbn [AuthMore.scan_keys]. rewrite answer_bind, GetUser_eq, answer_mk, after_mk.
  destruct (decide (e = stem)) as [->|Hne].
  - rewrite Hu, Ht, answer_ret. eauto.
  - assert (Hrest : stem ∈ rest) by (inversion Hin; subst; congruence).
    destruct (users w !! e) as [[?|?|usr']|]; auto.
    destruct (AuthMore.has_key usr' nk); [rewrite answer_ret; eauto | auto].
Qed.

Lemma scan_keys_frame entries nk w :
  after (AuthMore.scan_keys entries nk w) = w.
Proof.
  induction entries as [|e rest IH]; [reflexivity|].
  cbn [AuthMore.scan_keys]. rewrite after_bind, GetUser_eq, answer_mk, after_mk.
  destruct (users w !! e) as [[?|?|usr']|]; auto.
  destruct (AuthMore.has_key usr' nk); [reflexivity | auto].
Qed.

Lemma ValidateSSHKey_answer env key w :
  read_dir_err env = None ->
  answer (AuthMore.ValidateSSHKey env key w)
  = answer (AuthMore.scan_keys (Auth.dir_entries (users w))
                               (AuthMore.normalizeSSHKey key) w).
Proof.
  intros H. unfold AuthMore.ValidateSSHKey. rewrite H.
  unfold bind, emit, get_world, answer. reflexivity.
Qed.

Lemma ValidateSSHKey_frame env key w :
  after (AuthMore.ValidateSSHKey env key w) = w.
Proof.
  unfold AuthMore.ValidateSSHKey.
  destruct (read_dir_err env); [reflexivity|].
  rewrite after_bind, after_emit, after_bind. apply scan_keys_frame.
Qed.

Lemma validate_key_cases env key w :
  read_dir_err env = None ->
  (forall u, answer (run (AuthMore.ValidateSSHKey env key) w) = Ok u ->
             exists stem usr k,
               users w !! stem = Some (UserDoc usr)
               /\ User.Username usr = u
               /\ k ∈ User.SSHKeys usr
               /\ AuthMore.normalizeSSHKey (SSHKey.Key k) = AuthMore.normalizeSSHKey key)
  /\ (forall stem, holds_key w stem (AuthMore.normalizeSSHKey key) ->
                   exists u, answer (run (AuthMore.ValidateSSHKey env key) w) = Ok u)
  /\ (forall u, users_consistent w ->
                (forall stem, holds_key w stem (AuthMore.normalizeSSHKey key) -> stem = u) ->
                holds_key w u (AuthMore.normalizeSSHKey key) ->
                answer (run (AuthMore.ValidateSSHKey env key) w) = Ok u)
  /\ (forall key', AuthMore.normalizeSSHKey key' = AuthMore.normalizeSSHKey key ->
                   answer (run (AuthMore.ValidateSSHKey env key') w)
                   = answer (run (AuthMore.ValidateSSHKey env key) w))
  /\ after (run (AuthMore.ValidateSSHKey env key) w) = w.
Proof.
  intros Hdir. unfold run. rewrite (ValidateSSHKey_answer env key w Hdir).
  split; [|split; [|split; [|split]]].
  - intros u H. destruct (scan_keys_sound _ _ _ _ H) as (s & x & _ & Hs & Hx & Hk).
    unfold AuthMore.has_key in Hk. apply existsb_exists in Hk as (k & Hin & Hk).
    apply String.eqb_eq in Hk. exists s, x, k. repeat split; auto.
    apply list_elem_of_In. exact Hin.
  - intros stem H. apply (scan_keys_complete _ _ _ stem); [|exact H].
    apply elem_of_dir_entries. destruct H as (usr & -> & _). eauto.
  - intros u Hcons Huniq Hheld.
    destruct (scan_keys_complete (Auth.dir_entries (users w))
                (AuthMore.normalizeSSHKey key) w u) as [u' Hu'];
      [apply elem_of_dir_entries; destruct Hheld as (usr & -> & _); eauto | exact Hheld |].
    rewrite Hu'. f_equal.
    destruct (scan_keys_sound _ _ _ _ Hu') as (s & x & _ & Hs & Hx & Ht).
    rewrite <- Hx, (Hcons s x Hs). apply Huniq. exists x. auto.
  - intros key' E. rewrite (ValidateSSHKey_answer env key' w Hdir), E. reflexivity.
  - apply ValidateSSHKey_frame.
Qed.


(** X15. When the users directory can be read, [ValidateSSHKey] returns a
    name only if some user file holds a document with that name and a key
    of the same normal form as the key presented; it returns a name
    whenever some user file holds such a key; on a consistent store where
    one user alone holds it, it returns that user; two keys of the same
    normal form get the same answer; and the call changes nothing. *)
Theorem key_validates_by_normal_form env key w :
  read_dir_err env = None ->
  (forall u, answer (run (AuthMore.ValidateSSHKey env key) w) = Ok u ->
             exists stem usr k,
               users w !! stem = Some (UserDoc usr)
               /\ User.Username usr = u
               /\ k ∈ User.SSHKeys usr
               /\ AuthMore.normalizeSSHKey (SSHKey.Key k) = AuthMore.normalizeSSHKey key)
  /\ (forall stem, holds_key w stem (AuthMore.normalizeSSHKey key) ->
                   exists u, answer (run (AuthMore.ValidateSSHKey env key) w) = Ok u)
  /\ (forall u, users_consistent w ->
                (forall stem, holds_key w stem (AuthMore.normalizeSSHKey key) -> stem = u) ->
                holds_key w u (AuthMore.normalizeSSHKey key) ->
                answer (run (AuthMore.ValidateSSHKey env key) w) = Ok u)
  /\ (forall key', AuthMore.normalizeSSHKey key' = AuthMore.normalizeSSHKey key ->
                   answer (run (AuthMore.ValidateSSHKey env key') w)
                   = answer (run (AuthMore.ValidateSSHKey env key) w))
  /\ after (run (AuthMore.ValidateSSHKey env key) w) = w.
Proof. exact (validate_key_cases env key w). Qed.


Lemma key_validates_by_normal_form_witness :
  exists u,
    answer (run (AuthMore.ValidateSSHKey Examples.env0
                   "ssh-ed25519   AAAAC3Nz  other-comment") ExamplesFed.w_keys)
    = Ok u.
Proof.
  apply (proj1 (proj2 (key_validates_by_normal_form Examples.env0
                         "ssh-ed25519   AAAAC3Nz  other-comment" ExamplesFed.w_keys
                         eq_refl)) "alice").
  exists ExamplesFed.alice_keyed. split; vm_compute; reflexivity.
Defined.


(** X16. For a user name that is a valid name: when [AddSSHKey]
    succeeds on a consistent store, the user holds the normal form of the
    key; every key and every token held before is still held, and no token
    is added; the files of the other users with valid names are untouched;
    and if no other user holds a key of that normal form, [ValidateSSHKey]
    maps every key line of that normal form to the user. *)
Theorem added_key_validates env username name key w :
  Names.isValidName username = true ->
  users_consistent w -> read_dir_err env = None ->
  answer (AuthMore.AddSSHKey env username name key w) = None ->
  let w' := after (AuthMore.AddSSHKey env username name key w) in
  holds_key w' username (AuthMore.normalizeSSHKey key)
  /\ (forall stem nk, holds_key w stem nk -> holds_key w' stem nk)
  /\ (forall stem t, holds_token w stem t <-> holds_token w' stem t)
  /\ (forall stem, Names.isValidName stem = true -> stem <> username ->
                   users w' !! stem = users w !! stem)
  /\ ((forall stem, stem <> username ->
                    ~ holds_key w stem (AuthMore.normalizeSSHKey key)) ->
      forall presented,
        AuthMore.normalizeSSHKey presented = AuthMore.normalizeSSHKey key ->
        answer (AuthMore.ValidateSSHKey env presented w') = Ok username).
Proof.
  intros _ Hc Hdir. cbn zeta.
  unfold AuthMore.AddSSHKey.
  rewrite answer_bind, after_bind, GetUser_eq, answer_mk, after_mk.
  destruct (users w !! username) as [[?|?|usr]|] eqn:Hu; try discriminate.
  pose proof (Hc _ _ Hu) as Hname.
  match goal with
  | |- context [Auth.saveUser env ?u w] =>
      pose proof (saveUser_consistent env u w Hc) as Hc'; revert Hc'
  end.
  rewrite saveUser_eq. cbn [User.Username].
  destruct (write_file_err env _); rewrite answer_mk, after_mk; [discriminate|].
  intros Hc' _. rewrite Hname in *.
  set (usr' := User.Build username
                 (User.SSHKeys usr ++ [SSHKey.Build name key (now env)])
                 (User.APITokens usr) (User.CreatedAt usr)) in *.
  set (w' := set_users w (<[username := UserDoc usr']> (users w))) in *.
  assert (Hnew : holds_key w' username (AuthMore.normalizeSSHKey key)).
  { exists usr'. subst w'. cbn [set_users users]. rewrite lookup_insert_eq.
    split; [reflexivity|].
    unfold AuthMore.has_key. subst usr'. cbn [User.SSHKeys]. rewrite existsb_app.
    cbn [existsb SSHKey.Key]. rewrite String.eqb_refl. apply orb_true_iff. auto. }
  split; [exact Hnew|]. split; [|split; [|split]].
  - intros stem nk (x & Hx & Hk). unfold holds_key. subst w'. cbn [set_users users].
    destruct (decide (username = stem)) as [<-|Hne].
    + rewrite lookup_insert_eq. exists usr'. split; [reflexivity|].
      rewrite Hu in Hx. injection Hx as <-.
      unfold AuthMore.has_key in *. subst usr'. cbn [User.SSHKeys].
      rewrite existsb_app, Hk. reflexivity.
    + rewrite lookup_insert_ne by exact Hne. eauto.
  - intros stem t. unfold holds_token. subst w'. cbn [set_users users].
    destruct (decide (username = stem)) as [<-|Hne].
    + rewrite lookup_insert_eq, Hu. split.
      * intros (x & [= <-] & Ht). exists usr'. split; [reflexivity | exact Ht].
      * intros (x & [= <-] & Ht). exists usr. split; [reflexivity | exact Ht].
    + rewrite lookup_insert_ne by exact Hne. reflexivity.
  - intros stem _ Hne. subst w'. cbn [set_users users]. apply lookup_insert_ne.
    congruence.
  - intros Hfresh presented E.
    pose proof (validate_key_cases env presented w' Hdir) as (_ & _ & Hv & _).
    unfold run in Hv. apply Hv; [exact Hc' | | rewrite E; exact Hnew].
    rewrite E. intros stem (x & Hx & Hk).
    destruct (decide (stem = username)) as [->|Hne]; [reflexivity|].
    exfalso. apply (Hfresh stem Hne). exists x. split; [|exact Hk].
    subst w'. cbn [set_users users] in Hx.
    rewrite lookup_insert_ne in Hx by congruence. exact Hx.
Qed.


Lemma added_key_validates_witness :
  answer (AuthMore.ValidateSSHKey Examples.env0 "ssh-ed25519 AAAAC3Nz"
            (after (AuthMore.AddSSHKey Examples.env0 "alice" "laptop"
                      ExamplesFed.key_line Examples.w_origin)))
  = Ok "alice".
Proof.
  destruct (added_key_validates Examples.env0 "alice" "laptop" ExamplesFed.key_line
              Examples.w_origin ltac:(vm_compute; reflexivity)
              (consistent_check_spec Examples.w_origin ltac:(vm_compute; reflexivity))
              eq_refl ltac:(vm_compute; reflexivity))
    as (_ & _ & _ & _ & Hv).
  apply Hv.
  - apply no_other_key_holder_spec. vm_compute. reflexivity.
  - vm_compute. reflexivity.
Defined.


End KeyFacts.

(** ** Who reaches the Git engine *)

Section AccessFacts.
Import GoStrings HTTP Props.

Lemma getAuthenticatedUser_token env r w u :
  answer (GitHTTP.getAuthenticatedUser env r w) = u -> u <> EmptyString ->
  presents_token_of env w r u.
Proof.
  unfold GitHTTP.getAuthenticatedUser, presents_token_of.
  assert (Hno : forall x : string, x = u -> x = EmptyString -> u <> EmptyString ->
                  exists password, BasicAuth r = Some (u, password)
                    /\ password <> EmptyString
                    /\ answer (Auth.ValidateAPIToken env password w) = Ok u)
    by (intros; congruence).
  destruct (BasicAuth r) as [[user pass]|]; [|intros E; apply (Hno _ E eq_refl)].
  destruct (String.eqb_spec user EmptyString) as [->|Hu];
    [intros E; apply (Hno _ E eq_refl)|].
  destruct (String.eqb_spec pass EmptyString) as [->|Hp];
    [intros E; apply (Hno _ E eq_refl)|].
  cbn [orb]. rewrite answer_bind.
  destruct (answer (Auth.ValidateAPIToken env pass w)) as [v|] eqn:E;
    [|intros E'; apply (Hno _ E' eq_refl)].
  destruct (String.eqb_spec v user) as [->|Hv]; cbn [negb];
    [|intros E'; apply (Hno _ E' eq_refl)].
  rewrite answer_ret. intros <- _. exists pass. auto.
Qed.

Lemma reads_not_exec l e :
  forallb is_read l = true -> In e l -> is_exec e = false.
Proof.
  intros H Hin. rewrite forallb_forall in H. specialize (H e Hin).
  destruct e; try discriminate H; reflexivity.
Qed.

Lemma GetMetadata_reads owner name w :
  forallb is_read (log (Storage.GetMetadata owner name w)) = true.
Proof.
  destruct (repos w !! (owner, name)) eqn:E;
    [rewrite (GetMetadata_found _ _ _ _ E) | rewrite (GetMetadata_missing _ _ _ E)];
    reflexivity.
Qed.

Lemma GetMetadata_ok_exists owner name w meta :
  answer (Storage.GetMetadata owner name w) = Ok meta ->
  is_Some (repos w !! (owner, name)).
Proof.
  destruct (repos w !! (owner, name)) eqn:E; [eauto|].
  rewrite (GetMetadata_missing _ _ _ E). discriminate.
Qed.

Lemma http_checkAccess_pass needsWrite meta username owner :
  GitHTTP.checkAccess needsWrite meta username owner = None ->
  (needsWrite = true -> Metadata.ReplicaOf meta = None /\ username = owner)
  /\ (Metadata.Private meta = true -> username = owner).
Proof.
  unfold GitHTTP.checkAccess. destruct needsWrite.
  - destruct (bool_decide_reflect (Metadata.ReplicaOf meta <> None)) as [?|Hn];
      [discriminate|].
    destruct (String.eqb_spec username owner) as [->|]; [|discriminate].
    intros _. split; [|reflexivity].
    intros _. split; [|reflexivity].
    destruct (Metadata.ReplicaOf meta); [exfalso; apply Hn; discriminate | reflexivity].
  - destruct (Metadata.Private meta); cbn [andb].
    + destruct (String.eqb_spec username owner) as [->|]; [|discriminate].
      intros _. split; [discriminate | reflexivity].
    + intros _. split; discriminate.
Qed.

Lemma ssh_checkAccess_pass needsWrite meta username owner :
  GitSSH.checkAccess needsWrite meta username owner = None ->
  (needsWrite = true -> Metadata.ReplicaOf meta = None /\ username = owner)
  /\ (Metadata.Private meta = true -> username = owner).
Proof.
  unfold GitSSH.checkAccess. destruct needsWrite.
  - destruct (bool_decide_reflect (Metadata.ReplicaOf meta <> None)) as [?|Hn];
      [discriminate|].
    destruct (String.eqb_spec username owner) as [->|]; [|discriminate].
    intros _. split; [|reflexivity].
    intros _. split; [|reflexivity].
    destruct (Metadata.ReplicaOf meta); [exfalso; apply Hn; discriminate | reflexivity].
  - destruct (Metadata.Private meta); cbn [andb].
    + destruct (String.eqb_spec username owner) as [->|]; [|discriminate].
      intros _. split; [discriminate | reflexivity].
    + intros _. split; discriminate.
Qed.


(** The log of [GetMetadata], kept folded while a handler is stepped. *)
Ltac hide_metadata_log o n w Hg :=
  pose proof (GetMetadata_reads o n w) as Hg;
  let lg := fresh "lg" in
  let E := fresh "E" in
  remember (log (Storage.GetMetadata o n w)) as lg eqn:E; clear E.

Ltac not_exec_http H Hg env r w :=
  exfalso;
  repeat (apply in_app_or in H as [H|H]);
  first
    [ discriminate (reads_not_exec _ _ Hg H)
    | discriminate (reads_not_exec _ _ (proj2 (getAuthenticatedUser_reads env r w)) H)
    | cbn in H; intuition discriminate ].

Lemma http_allowed_of_pass env w r service rest owner repo meta :
  (service = "git-upload-pack" \/ service = "git-receive-pack") ->
  GitHTTP.parseRepoPath (URLPath r) = (owner, repo) ->
  (String.eqb owner EmptyString || String.eqb repo EmptyString) = false ->
  answer (Storage.GetMetadata owner repo w) = Ok meta ->
  GitHTTP.checkAccess (String.eqb service "git-receive-pack") meta
    (answer (GitHTTP.getAuthenticatedUser env r w)) owner = None ->
  http_allowed env w r (service :: rest) owner repo.
Proof.
  intros Hs Hp Hne Hm Hc. apply orb_false_iff in Hne as [Ho Hr].
  apply String.eqb_neq in Ho, Hr.
  apply http_checkAccess_pass in Hc as [Hw Hpriv].
  exists service, rest, meta.
  split; [reflexivity|]. split; [exact Hs|]. split; [exact Hp|].
  split; [exact Ho|]. split; [exact Hr|]. split; [exact Hm|]. split.
  - intros ->. destruct (Hw eq_refl) as [Hrep Hu]. split; [exact Hrep|].
    apply getAuthenticatedUser_token; [exact Hu | exact Ho].
  - intros H. apply getAuthenticatedUser_token; [auto | exact Ho].
Qed.

Lemma handleInfoRefs_exec env r w argv owner repo :
  In (EvExec argv owner repo) (log (GitHTTP.handleInfoRefs env r w)) ->
  http_allowed env w r argv owner repo.
Proof.
  unfold GitHTTP.handleInfoRefs.
  destruct (negb _); [intros []|].
  assert (Hs : (negb (String.eqb (QueryService r) "git-upload-pack")
                && negb (String.eqb (QueryService r) "git-receive-pack")) = false ->
               QueryService r = "git-upload-pack" \/ QueryService r = "git-receive-pack").
  { destruct (String.eqb_spec (QueryService r) "git-upload-pack"); [auto|].
    destruct (String.eqb_spec (QueryService r) "git-receive-pack"); [auto|].
    discriminate. }
  destruct (_ && _); [intros []|]. specialize (Hs eq_refl).
  all: destruct (GitHTTP.parseRepoPath (URLPath r)) as [o n] eqn:Hp.
  all: destruct (_ || _) eqn:Hne; [intros []|].
  all: step; rewrite !RepoExists_eq; step.
  all: destruct (negb _); [step; intros H; not_exec_http H I env r w|].
  all: step; rewrite !GetMetadata_after; hide_metadata_log o n w Hg.
  all: destruct (answer (Storage.GetMetadata o n w)) as [meta|] eqn:Hm;
    [|step; intros H; not_exec_http H Hg env r w].
  all: step.
  all: destruct (GitHTTP.checkAccess _ _ _ _) eqn:Hc; [step; intros H; not_exec_http H Hg env r w|].
  all: step; rewrite ?(proj1 (getAuthenticatedUser_reads env r w)), !spawn_eq.
  all: match goal with
       | |- context [exec_engine ?e ?a ?i ?b] =>
           destruct (exec_engine e a i b) as [?|[?|] ? ?]
       end; step; intros H.
  all: repeat (apply in_app_or in H as [H|H]); try (not_exec_http H Hg env r w; fail).
  all: cbn in H; destruct H as [H|[]]; injection H as <- <- <-.
  all: eapply http_allowed_of_pass; eauto.
Qed.

Lemma handleGitCommand_exec env r service w argv owner repo :
  (service = "git-upload-pack" \/ service = "git-receive-pack") ->
  In (EvExec argv owner repo) (log (GitHTTP.handleGitCommand env r service w)) ->
  http_allowed env w r argv owner repo.
Proof.
  intros Hs. unfold GitHTTP.handleGitCommand.
  destruct (negb _); [intros []|].
  destruct (GitHTTP.parseRepoPath (URLPath r)) as [o n] eqn:Hp.
  destruct (_ || _) eqn:Hne; [intros []|].
  step; rewrite !RepoExists_eq; step.
  destruct (negb _); [step; intros H; not_exec_http H I env r w|].
  step; rewrite !GetMetadata_after; hide_metadata_log o n w Hg.
  destruct (answer (Storage.GetMetadata o n w)) as [meta|] eqn:Hm;
    [|step; intros H; not_exec_http H Hg env r w].
  step.
  destruct (GitHTTP.checkAccess _ _ _ _) eqn:Hc; [step; intros H; not_exec_http H Hg env r w|].
  destruct (if String.eqb (ContentEncoding r) "gzip" then _ else _);
    [step; intros H; not_exec_http H Hg env r w|].
  step; rewrite ?(proj1 (getAuthenticatedUser_reads env r w)), !spawn_eq.
  match goal with
  | |- context [exec_engine env ?a ?i ?b] =>
      destruct (exec_engine env a i b) as [?|[?|] ? ?]
  end; step; intros H.
  all: repeat (apply in_app_or in H as [H|H]); try (not_exec_http H Hg env r w; fail).
  all: cbn in H; destruct H as [H|[]]; injection H as <- <- <-.
  all: eapply http_allowed_of_pass; eauto.
Qed.


(** X17. The HTTP transport starts the Git engine only for a request it
    may serve: the service is git-upload-pack or git-receive-pack, the
    path names an existing repository with readable metadata, a
    git-receive-pack runs only on a repository that is not a replica and
    for a request that carries the owner's name with a token the validator
    maps to the owner, and a private repository is served only to such a
    request. *)
Theorem http_engine_needs_access env r w argv owner repo :
  In (EvExec argv owner repo) (log (run (GitHTTP.handleRequest env r) w)) ->
  http_allowed env w r argv owner repo.
Proof.
  unfold run, GitHTTP.handleRequest.
  destruct (HasSuffix (URLPath r) "/info/refs"); [apply handleInfoRefs_exec|].
  destruct (HasSuffix (URLPath r) "/git-upload-pack");
    [apply handleGitCommand_exec; auto|].
  destruct (HasSuffix (URLPath r) "/git-receive-pack");
    [apply handleGitCommand_exec; auto|].
  intros [].
Qed.


Lemma http_engine_needs_access_witness :
  http_allowed Examples.env0 Examples.w_origin
    (Examples.http_push (Some ("alice", "T")))
    ["git-receive-pack"; "--stateless-rpc"; "/data/alice/foo.git"] "alice" "foo".
Proof.
  apply (http_engine_needs_access Examples.env0
           (Examples.http_push (Some ("alice", "T"))) Examples.w_origin).
  vm_compute. repeat (first [left; reflexivity | right]).
Defined.

Ltac not_exec_ssh H Hg :=
  exfalso;
  repeat (apply in_app_or in H as [H|H]);
  first
    [ discriminate (reads_not_exec _ _ Hg H)
    | cbn in H; intuition discriminate ].

Lemma Queue_eq owner repo w :
  Replication.Queue owner repo w
  = if (List.length (queue w) <? Replication.capacity)%nat
    then (tt, set_queue w ((queue w ++ [Job.Build owner repo])%list), [EvQueued owner repo])
    else (tt, w, [EvDropped owner repo]).
Proof.
  unfold Replication.Queue, bind, get_world, put_world, emit, ret. cbn [fst snd].
  destruct (_ <? _)%nat; reflexivity.
Qed.

Lemma ssh_allowed_of_pass w username gitCmd fullPath owner repo meta :
  HasPrefix gitCmd "git-" = true ->
  (String.eqb owner EmptyString || String.eqb repo EmptyString) = false ->
  answer (Storage.GetMetadata owner repo w) = Ok meta ->
  GitSSH.checkAccess (String.eqb gitCmd "git-receive-pack") meta username owner = None ->
  ssh_allowed w username [gitCmd; fullPath] owner repo.
Proof.
  intros Hp Hne Hm Hc. apply orb_false_iff in Hne as [Ho Hr].
  apply String.eqb_neq in Ho, Hr.
  apply ssh_checkAccess_pass in Hc as [Hw Hpriv].
  exists gitCmd, fullPath, meta.
  split; [reflexivity|]. split; [exact Hp|].
  split; [exact Ho|]. split; [exact Hr|]. split; [exact Hm|]. split.
  - intros ->. apply Hw. reflexivity.
  - exact Hpriv.
Qed.


(** X18. The shell transport, with no queue or with the replication
    manager as its queue, starts a command only when it may: the command
    name starts with "git-", the path names an existing repository with
    readable metadata, git-receive-pack runs only on a repository that is
    not a replica and for the session of its owner, and a private
    repository is served only to the session of its owner. *)
Theorem ssh_engine_needs_access env s input command username w argv owner repo :
  GitSSH.replQueue s = None \/ GitSSH.replQueue s = Some Main.replManager ->
  In (EvExec argv owner repo)
     (log (GitSSH.handleGitCommand env s input command username w)) ->
  ssh_allowed w username argv owner repo.
Proof.
  intros Hq. unfold GitSSH.handleGitCommand.
  destruct (Fields command) as [|gitCmd [|arg rest]]; [intros []|intros []|].
  destruct (HasPrefix gitCmd "git-") eqn:Hpre; cbn [negb]; [|intros []].
  destruct (GitSSH.parseRepoPath _) as [o n] eqn:Hp.
  destruct (_ || _) eqn:Hne; [intros []|].
  step; rewrite !RepoExists_eq; step.
  destruct (negb _); [step; intros H; not_exec_ssh H I|].
  step; rewrite !GetMetadata_after; hide_metadata_log o n w Hg.
  destruct (answer (Storage.GetMetadata o n w)) as [meta|] eqn:Hm;
    [|step; intros H; not_exec_ssh H Hg].
  destruct (GitSSH.checkAccess _ _ _ _) eqn:Hc; [step; intros H; not_exec_ssh H Hg|].
  step; rewrite !spawn_eq.
  match goal with
  | |- context [exec_engine ?e ?a ?i ?b] =>
      destruct (exec_engine e a i b) as [?|[?|] ? ?]
  end; step; intros H.
  all: repeat (apply in_app_or in H as [H|H]); try (not_exec_ssh H Hg; fail).
  all: try (cbn in H; destruct H as [H|[]]; injection H as <- <- <-;
            eapply ssh_allowed_of_pass; eauto; fail).
  exfalso. destruct Hq as [Hq|Hq]; rewrite Hq in H.
  - destruct H.
  - destruct (String.eqb gitCmd "git-receive-pack"); [|destruct H].
    cbn [GitSSH.Queue Main.replManager] in H. rewrite Queue_eq in H.
    destruct (_ <? _)%nat; cbn in H; intuition discriminate.
Qed.


Lemma ssh_engine_needs_access_witness :
  ssh_allowed Examples.w_origin "alice"
    ["git-receive-pack"; "/data/alice/foo.git"] "alice" "foo".
Proof.
  apply (ssh_engine_needs_access Examples.env0 Main.sshServer "pack" Examples.ssh_push
           "alice" Examples.w_origin).
  - right. reflexivity.
  - vm_compute. repeat (first [left; reflexivity | right]).
Defined.


(** X19. A session of the shell transport whose queue is the replication
    manager either leaves the queue as it was and logs no queued job, or
    appends exactly one job, and then only after a git-receive-pack that
    exited cleanly on that repository and while the queue had room.
    Conversely, after a clean git-receive-pack the job is appended if the
    queue has room and dropped, with the queue unchanged, if it is full. *)
Theorem ssh_push_enqueues env s input command username w :
  GitSSH.replQueue s = Some Main.replManager ->
  let res := GitSSH.handleGitCommand env s input command username w in
  ((queue (after res) = queue w
    /\ forall o n, ~ In (EvQueued o n) (log res))
   \/ exists owner repo,
        queue (after res) = (queue w ++ [Job.Build owner repo])%list
        /\ In (EvQueued owner repo) (log res)
        /\ (List.length (queue w) < Replication.capacity)%nat
        /\ In (EvExec ["git-receive-pack"; Storage.RepoPath env owner repo] owner repo)
              (log res)
        /\ GitSSH.ExitStatus (answer res) = 0%nat)
  /\ (forall owner repo,
         In (EvExec ["git-receive-pack"; Storage.RepoPath env owner repo] owner repo)
            (log res) ->
         GitSSH.ExitStatus (answer res) = 0%nat ->
         if (List.length (queue w) <? Replication.capacity)%nat
         then queue (after res) = (queue w ++ [Job.Build owner repo])%list
         else queue (after res) = queue w /\ In (EvDropped owner repo) (log res)).
Proof.
  intros Hq. cbn zeta. unfold GitSSH.handleGitCommand.
  assert (Hnone : forall (o : GitSSH.Outcome),
             (queue (after (ret o w)) = queue w
              /\ forall o' n', ~ In (EvQueued o' n') (log (ret o w))) /\
             (forall owner repo,
                 In (EvExec ["git-receive-pack"; Storage.RepoPath env owner repo] owner repo)
                    (log (ret o w)) -> False)).
  { intros o. split; [split; [reflexivity | intros ? ? []] | intros ? ? []]. }
  assert (Hout : forall o, 
      ((queue (after (ret o w)) = queue w
        /\ forall o' n', ~ In (EvQueued o' n') (log (ret o w)))
       \/ exists owner repo,
            queue (after (ret o w)) = (queue w ++ [Job.Build owner repo])%list
            /\ In (EvQueued owner repo) (log (ret o w))
            /\ (List.length (queue w) < Replication.capacity)%nat
            /\ In (EvExec ["git-receive-pack"; Storage.RepoPath env owner repo] owner repo)
                  (log (ret o w))
            /\ GitSSH.ExitStatus (answer (ret o w)) = 0%nat)
      /\ (forall owner repo,
             In (EvExec ["git-receive-pack"; Storage.RepoPath env owner repo] owner repo)
                (log (ret o w)) ->
             GitSSH.ExitStatus (answer (ret o w)) = 0%nat ->
             if (List.length (queue w) <? Replication.capacity)%nat
             then queue (after (ret o w)) = (queue w ++ [Job.Build owner repo])%list
             else queue (after (ret o w)) = queue w
                  /\ In (EvDropped owner repo) (log (ret o w)))).
  { intros o. split; [left; split; [reflexivity | intros ? ? []] | intros ? ? []]. }
  destruct (Fields command) as [|gitCmd [|arg rest]]; [apply Hout|apply Hout|].
  destruct (HasPrefix gitCmd "git-") eqn:Hpre; cbn [negb]; [|apply Hout].
  destruct (GitSSH.parseRepoPath _) as [o n] eqn:Hp.
  destruct (_ || _) eqn:Hne; [apply Hout|].
  clear Hout Hnone.
  step; rewrite !RepoExists_eq; step.
  destruct (negb _).
  { step. split; [left; split; [reflexivity|] | ].
    - intros ? ? H. not_exec_ssh H I.
    - intros ? ? H. not_exec_ssh H I. }
  step; rewrite !GetMetadata_after; hide_metadata_log o n w Hg.
  assert (Hgq : forall o' n', ~ In (EvQueued o' n') lg).
  { intros o' n' H. rewrite forallb_forall in Hg. specialize (Hg _ H). discriminate Hg. }
  destruct (answer (Storage.GetMetadata o n w)) as [meta|] eqn:Hm.
  2:{ step. split; [left; split; [reflexivity|] | ].
      - intros ? ? H. repeat (apply in_app_or in H as [H|H]);
          [cbn in H; intuition discriminate | exact (Hgq _ _ H) | destruct H].
      - intros ? ? H. not_exec_ssh H Hg. }
  destruct (GitSSH.checkAccess _ _ _ _) eqn:Hc.
  { step. split; [left; split; [reflexivity|] | ].
    - intros ? ? H. repeat (apply in_app_or in H as [H|H]);
          [cbn in H; intuition discriminate | exact (Hgq _ _ H) | destruct H].
    - intros ? ? H. not_exec_ssh H Hg. }
  step; rewrite !spawn_eq.
  match goal with
  | |- context [exec_engine ?e ?a ?i ?b] =>
      destruct (exec_engine e a i b) as [why|[why|] out data]
  end; step.
  - split; [left; split; [reflexivity|] | ].
    + intros ? ? H. repeat (apply in_app_or in H as [H|H]);
        [cbn in H; intuition discriminate | exact (Hgq _ _ H)
         | cbn in H; intuition discriminate | destruct H].
    + intros ? ? _ H. discriminate H.
  - split; [left; split; [reflexivity|] | ].
    + intros ? ? H. repeat (apply in_app_or in H as [H|H]);
        [cbn in H; intuition discriminate | exact (Hgq _ _ H)
         | cbn in H; intuition discriminate | destruct H].
    + intros ? ? _ H. discriminate H.
  - rewrite Hq. destruct (String.eqb_spec gitCmd "git-receive-pack") as [->|Hcmd].
    + cbn [GitSSH.Queue Main.replManager]. rewrite !Queue_eq.
      cbn [queue set_repos].
      assert (Hsame : forall owner repo,
                 In (EvExec ["git-receive-pack"; Storage.RepoPath env owner repo] owner repo)
                    ([EvStat o n] ++ lg
                       ++ [EvExec ["git-receive-pack"; Storage.RepoPath env o n] o n]
                       ++ (if (List.length (queue w) <? Replication.capacity)%nat
                           then [EvQueued o n] else [EvDropped o n]) ++ [])%list ->
                 owner = o /\ repo = n).
      { intros owner repo H. repeat (apply in_app_or in H as [H|H]).
        - cbn in H; intuition discriminate.
        - discriminate (reads_not_exec _ _ Hg H).
        - cbn in H. destruct H as [H|[]]. injection H as _ <- <-. auto.
        - destruct (_ <? _)%nat; cbn in H; intuition discriminate.
        - destruct H. }
      destruct (List.length (queue w) <? Replication.capacity)%nat eqn:Hlen; step.
      * cbn [queue set_queue set_repos]. split.
        -- right. exists o, n. split; [reflexivity|].
           split; [in_log|]. split; [apply Nat.ltb_lt; exact Hlen|].
           split; [in_log | reflexivity].
        -- intros owner repo H _. destruct (Hsame owner repo H) as [-> ->]. reflexivity.
      * cbn [queue set_repos]. split.
        -- left. split; [reflexivity|].
           intros ? ? H. repeat (apply in_app_or in H as [H|H]);
             try (cbn in H; intuition discriminate). exact (Hgq _ _ H).
        -- intros owner repo H _. destruct (Hsame owner repo H) as [-> ->].
           split; [reflexivity | in_log].
    + step. cbn [queue set_repos]. split.
      * left. split; [reflexivity|].
        intros ? ? H. repeat (apply in_app_or in H as [H|H]);
          try (cbn in H; intuition discriminate). exact (Hgq _ _ H).
      * intros owner repo H _. exfalso.
        repeat (apply in_app_or in H as [H|H]);
          try (cbn in H; intuition discriminate);
          try (discriminate (reads_not_exec _ _ Hg H)).
        cbn in H. destruct H as [H|[]]. injection H as H _ _. congruence.
Qed.


Lemma ssh_push_enqueues_witness :
  queue (after (GitSSH.handleGitCommand Examples.env0 Main.sshServer "pack"
                  Examples.ssh_push "alice" Examples.w_origin))
  = [Job.Build "alice" "foo"].
Proof.
  exact (proj2 (ssh_push_enqueues Examples.env0 Main.sshServer "pack" Examples.ssh_push
                  "alice" Examples.w_origin eq_refl)
               "alice" "foo"
               ltac:(vm_compute; repeat (first [left; reflexivity | right]))
               ltac:(vm_compute; reflexivity)).
Defined.


End AccessFacts.

(** ** Paths of repositories, and a replica from its first bundle on *)

Section PathFacts.
Import GoStrings HTTP Props Names.

Lemma append_assoc3 (a b c : string) : (a ++ b) ++ c = a ++ (b ++ c).
Proof. induction a as [|x a IH]; [reflexivity|]. rewrite !append_cons, IH. reflexivity. Qed.

Lemma no_slash_append a b :
  no_slash a = true -> no_slash b = true -> no_slash (a ++ b) = true.
Proof.
  induction a as [|c a IH]; intros Ha Hb; [exact Hb|].
  cbn [no_slash] in Ha. apply andb_true_iff in Ha as [Hc Ha].
  rewrite append_cons. cbn [no_slash]. rewrite Hc, (IH Ha Hb). reflexivity.
Qed.

Lemma Split_no_slash a : no_slash a = true -> Split a "/" = [a].
Proof.
  induction a as [|c a IH]; [reflexivity|].
  cbn [no_slash Split]. intros H. apply andb_true_iff in H as [Hc Ha].
  apply negb_true_iff in Hc. rewrite Hc, (IH Ha). reflexivity.
Qed.

Lemma Split_segment a b :
  no_slash a = true -> Split (a ++ String "/" b) "/" = a :: Split b "/".
Proof.
  induction a as [|c a IH]; intros H.
  - rewrite append_empty. reflexivity.
  - cbn [no_slash] in H. apply andb_true_iff in H as [Hc Ha].
    apply negb_true_iff in Hc. rewrite append_cons. cbn [Split].
    rewrite Hc, (IH Ha). reflexivity.
Qed.

Lemma TrimSuffix_append s suf : TrimSuffix (s ++ suf) suf = s.
Proof.
  unfold TrimSuffix.
  rewrite (proj2 (HasSuffix_correct (s ++ suf) suf)) by eauto.
  rewrite len_append. replace (len s + len suf - len suf)%nat with (len s) by lia.
  apply take_append.
Qed.

Lemma no_slash_head a b :
  a <> EmptyString -> no_slash a = true -> TrimPrefix (a ++ b) "/" = a ++ b.
Proof.
  destruct a as [|c a]; [congruence|]. intros _.
  cbn [no_slash]. intros H. apply andb_true_iff in H as [Hc _].
  apply negb_true_iff in Hc. rewrite append_cons. unfold TrimPrefix, HasPrefix.
  cbn [len String.length take Nat.leb andb String.eqb]. rewrite Hc. reflexivity.
Qed.

Lemma ssh_parse owner name :
  owner <> EmptyString -> no_slash owner = true -> no_slash name = true ->
  GitSSH.parseRepoPath (owner ++ "/" ++ name ++ ".git") = (owner, name)
  /\ GitSSH.parseRepoPath ("/" ++ owner ++ "/" ++ name ++ ".git") = (owner, name).
Proof.
  intros Hne Ho Hn.
  assert (Hmain : forall p, TrimPrefix p "/" = owner ++ "/" ++ name ++ ".git" ->
                            GitSSH.parseRepoPath p = (owner, name)).
  { intros p Hp. unfold GitSSH.parseRepoPath. rewrite Hp.
    replace (owner ++ "/" ++ name ++ ".git") with ((owner ++ "/" ++ name) ++ ".git")
      by (rewrite !append_assoc3; reflexivity).
    rewrite TrimSuffix_append.
    change ("/" ++ name) with (String "/" name).
    rewrite (Split_segment owner name Ho), (Split_no_slash name Hn). reflexivity. }
  split.
  - apply Hmain. apply no_slash_head; assumption.
  - apply Hmain. reflexivity.
Qed.

Lemma allowed_bytes_no_slash s :
  forallb allowed (bytes s) = true -> no_slash s = true.
Proof.
  unfold bytes. induction s as [|c s IH]; [reflexivity|].
  cbn [list_ascii_of_string map forallb no_slash].
  intros H. apply andb_true_iff in H as [Hc Hs]. rewrite (IH Hs), andb_true_r.
  apply negb_true_iff. destruct (Ascii.eqb_spec c "/") as [->|]; [|reflexivity].
  vm_compute in Hc. discriminate Hc.
Qed.

Lemma valid_name_shape s :
  isValidName s = true ->
  s <> EmptyString /\ no_slash s = true /\ HasPrefix s "." = false.
Proof.
  unfold isValidName.
  destruct (String.eqb_spec s EmptyString) as [->|Hne]; [discriminate|].
  cbn [orb]. destruct (100 <? len s)%nat; [discriminate|].
  destruct (forallb allowed (runes s)) eqn:Hall; [|discriminate].
  cbn [negb]. intros H. apply andb_true_iff in H as [Hp _].
  apply negb_true_iff in Hp.
  split; [exact Hne|]. split; [|exact Hp].
  apply allowed_bytes_no_slash. rewrite <- (runes_allowed s Hall). exact Hall.
Qed.

Lemma not_dots s :
  s <> EmptyString -> HasPrefix s "." = false ->
  (String.eqb s EmptyString || String.eqb s ".") = false /\ String.eqb s ".." = false.
Proof.
  intros Hne Hp. destruct s as [|c s]; [congruence|].
  unfold HasPrefix in Hp. cbn [len String.length take Nat.leb andb String.eqb] in Hp.
  destruct (Ascii.eqb c ".") eqn:Hc; [discriminate Hp|].
  cbn [String.eqb orb]. rewrite Hc. split; reflexivity.
Qed.

Lemma git_dir_not_dots name :
  (String.eqb (name ++ ".git") EmptyString || String.eqb (name ++ ".git") ".") = false
  /\ String.eqb (name ++ ".git") ".." = false.
Proof.
  destruct name as [|a [|b [|c name]]]; try (split; reflexivity).
  - rewrite !append_cons, append_empty. cbn [String.eqb orb].
    destruct (Ascii.eqb a "."); split; reflexivity.
  - rewrite !append_cons, append_empty. cbn [String.eqb orb].
    destruct (Ascii.eqb a "."); [|split; reflexivity].
    destruct (Ascii.eqb b "."); split; reflexivity.
  - rewrite !append_cons. cbn [String.eqb orb].
    destruct (Ascii.eqb a "."); [|split; reflexivity].
    destruct (Ascii.eqb b "."); split; reflexivity.
Qed.

Lemma Clean_repo_path owner name tail :
  owner <> EmptyString -> HasPrefix owner "." = false ->
  no_slash owner = true -> no_slash name = true ->
  In tail ["info/refs"; "git-upload-pack"; "git-receive-pack"] ->
  Clean ("/" ++ owner ++ "/" ++ name ++ ".git" ++ "/" ++ tail)
  = "/" ++ owner ++ "/" ++ name ++ ".git" ++ "/" ++ tail.
Proof.
  intros Hne Hp Ho Hn Ht. unfold Clean.
  change (HasPrefix ("/" ++ owner ++ "/" ++ name ++ ".git" ++ "/" ++ tail) "/") with true.
  cbv zeta.
  change ("/" ++ owner ++ "/" ++ name ++ ".git" ++ "/" ++ tail)
    with (String "/" (owner ++ String "/" (name ++ ".git" ++ String "/" tail))).
  cbn [Split Ascii.eqb Bool.eqb].
  rewrite (Split_segment owner _ Ho).
  replace (name ++ ".git" ++ String "/" tail) with ((name ++ ".git") ++ String "/" tail)
    by apply append_assoc3.
  rewrite (Split_segment (name ++ ".git") tail)
    by (apply no_slash_append; [exact Hn | reflexivity]).
  destruct (not_dots owner Hne Hp) as [Ho1 Ho2].
  destruct (git_dir_not_dots name) as [Hg1 Hg2].
  assert (Hfold : forall segs,
             fold_left (clean_step true)
               (EmptyString :: owner :: (name ++ ".git") :: segs) []
             = fold_left (clean_step true) segs [name ++ ".git"; owner]).
  { intros segs. cbn [fold_left]. unfold clean_step at 3. cbn [String.eqb orb].
    unfold clean_step at 2. rewrite Ho1, Ho2. unfold clean_step at 1.
    rewrite Hg1, Hg2. reflexivity. }
  rewrite Hfold.
  destruct Ht as [<-|[<-|[<-|[]]]]; cbn [Split Ascii.eqb Bool.eqb fold_left];
    unfold clean_step; cbn [String.eqb Ascii.eqb Bool.eqb orb andb rev app Join];
    rewrite ?append_assoc3; reflexivity.
Qed.

Lemma suffix_free s a b :
  HasSuffix s a = true -> (len b <= len a)%nat -> HasSuffix a b = false ->
  HasSuffix s b = false.
Proof.
  intros Ha Hl Hab. destruct (HasSuffix s b) eqn:E; [|reflexivity].
  rewrite (HasSuffix_both s b a E Ha Hl) in Hab. discriminate.
Qed.

Lemma suffix_free_longer s a b :
  HasSuffix s a = true -> (len a <= len b)%nat -> HasSuffix b a = false ->
  HasSuffix s b = false.
Proof.
  intros Ha Hl Hab. destruct (HasSuffix s b) eqn:E; [|reflexivity].
  rewrite (HasSuffix_both s a b Ha E Hl) in Hab. discriminate.
Qed.

Lemma http_parse owner name tail :
  owner <> EmptyString -> HasPrefix owner "." = false ->
  no_slash owner = true -> no_slash name = true ->
  In tail ["info/refs"; "git-upload-pack"; "git-receive-pack"] ->
  GitHTTP.parseRepoPath ("/" ++ owner ++ "/" ++ name ++ ".git" ++ "/" ++ tail)
  = (owner, name).
Proof.
  intros Hne Hp Ho Hn Ht. unfold GitHTTP.parseRepoPath.
  rewrite (Clean_repo_path owner name tail Hne Hp Ho Hn Ht). cbv zeta.
  change (TrimPrefix ("/" ++ owner ++ "/" ++ name ++ ".git" ++ "/" ++ tail) "/")
    with (owner ++ "/" ++ name ++ ".git" ++ "/" ++ tail).
  set (base := owner ++ "/" ++ name ++ ".git").
  assert (Hbase : forall t, owner ++ "/" ++ name ++ ".git" ++ t = base ++ t).
  { intros t. subst base. rewrite !append_assoc3. reflexivity. }
  rewrite Hbase.
  assert (Hgit : HasSuffix base ".git" = true).
  { apply HasSuffix_correct. exists (owner ++ "/" ++ name). subst base.
    rewrite !append_assoc3. reflexivity. }
  assert (Hb1 : HasSuffix base "/info/refs" = false)
    by (apply (suffix_free_longer base ".git"); [exact Hgit | vm_compute; lia | reflexivity]).
  assert (Hb2 : HasSuffix base "/git-upload-pack" = false)
    by (apply (suffix_free_longer base ".git"); [exact Hgit | vm_compute; lia | reflexivity]).
  assert (Hb3 : HasSuffix base "/git-receive-pack" = false)
    by (apply (suffix_free_longer base ".git"); [exact Hgit | vm_compute; lia | reflexivity]).
  assert (Hend : (let urlPath := base in
                  let urlPath := if HasSuffix urlPath "/git-upload-pack"
                                 then TrimSuffix urlPath "/git-upload-pack" else urlPath in
                  let urlPath := if HasSuffix urlPath "/git-receive-pack"
                                 then TrimSuffix urlPath "/git-receive-pack" else urlPath in
                  let urlPath := TrimSuffix urlPath ".git" in
                  match Split urlPath "/" with
                  | p0 :: p1 :: _ => (p0, p1)
                  | _ => (EmptyString, EmptyString)
                  end) = (owner, name)).
  { cbv zeta. rewrite Hb2, Hb3. subst base.
    replace (owner ++ "/" ++ name ++ ".git") with ((owner ++ "/" ++ name) ++ ".git")
      by (rewrite !append_assoc3; reflexivity).
    rewrite TrimSuffix_append. change ("/" ++ name) with (String "/" name).
    rewrite (Split_segment owner name Ho), (Split_no_slash name Hn). reflexivity. }
  assert (Hs : forall suf, HasSuffix (base ++ suf) suf = true)
    by (intros suf; apply HasSuffix_correct; eauto).
  destruct Ht as [<-|[<-|[<-|[]]]].
  - change ("/" ++ "info/refs") with "/info/refs".
    rewrite (Hs "/info/refs"), TrimSuffix_append. exact Hend.
  - change ("/" ++ "git-upload-pack") with "/git-upload-pack".
    rewrite (suffix_free _ "/git-upload-pack" "/info/refs" (Hs _))
      by (vm_compute; try lia; reflexivity).
    rewrite (Hs "/git-upload-pack"), TrimSuffix_append.
    cbv zeta in Hend. rewrite Hb2 in Hend. exact Hend.
  - change ("/" ++ "git-receive-pack") with "/git-receive-pack".
    rewrite (suffix_free _ "/git-receive-pack" "/info/refs" (Hs _))
      by (vm_compute; try lia; reflexivity).
    rewrite (suffix_free _ "/git-receive-pack" "/git-upload-pack" (Hs _))
      by (vm_compute; try lia; reflexivity).
    rewrite (Hs "/git-receive-pack"), TrimSuffix_append.
    cbv zeta in Hend. rewrite Hb2, Hb3 in Hend. exact Hend.
Qed.

Lemma valid_paths_parse owner name :
  isValidName owner = true -> isValidName name = true ->
  GitSSH.parseRepoPath (owner ++ "/" ++ name ++ ".git") = (owner, name)
  /\ GitSSH.parseRepoPath ("/" ++ owner ++ "/" ++ name ++ ".git") = (owner, name)
  /\ (forall tail,
         In tail ["info/refs"; "git-upload-pack"; "git-receive-pack"] ->
         GitHTTP.parseRepoPath ("/" ++ owner ++ "/" ++ name ++ ".git" ++ "/" ++ tail)
         = (owner, name)).
Proof.
  intros Hvo Hvn.
  destruct (valid_name_shape owner Hvo) as (Hne & Ho & Hp).
  destruct (valid_name_shape name Hvn) as (_ & Hn & _).
  destruct (ssh_parse owner name Hne Ho Hn) as [H1 H2].
  split; [exact H1|]. split; [exact H2|].
  intros tail Ht. apply http_parse; assumption.
Qed.


(** X20. For a valid owner and a valid name, the paths under which the
    repository is cloned parse back to that owner and name: on the shell
    transport [owner/name.git], with or without a leading slash; on the
    HTTP transport [/owner/name.git] followed by [/info/refs],
    [/git-upload-pack] or [/git-receive-pack]. *)
Theorem clone_paths_parse_back owner name :
  isValidName owner = true -> isValidName name = true ->
  GitSSH.parseRepoPath (owner ++ "/" ++ name ++ ".git") = (owner, name)
  /\ GitSSH.parseRepoPath ("/" ++ owner ++ "/" ++ name ++ ".git") = (owner, name)
  /\ (forall tail,
         In tail ["info/refs"; "git-upload-pack"; "git-receive-pack"] ->
         GitHTTP.parseRepoPath ("/" ++ owner ++ "/" ++ name ++ ".git" ++ "/" ++ tail)
         = (owner, name)).
Proof. exact (valid_paths_parse owner name). Qed.


Lemma clone_paths_parse_back_witness :
  GitSSH.parseRepoPath ("alice" ++ "/" ++ "foo" ++ ".git") = ("alice", "foo")
  /\ GitSSH.parseRepoPath ("/" ++ "alice" ++ "/" ++ "foo" ++ ".git") = ("alice", "foo")
  /\ (forall tail,
         In tail ["info/refs"; "git-upload-pack"; "git-receive-pack"] ->
         GitHTTP.parseRepoPath ("/" ++ "alice" ++ "/" ++ "foo" ++ ".git" ++ "/" ++ tail)
         = ("alice", "foo")).
Proof.
  exact (clone_paths_parse_back "alice" "foo" ltac:(vm_compute; reflexivity)
           ltac:(vm_compute; reflexivity)).
Defined.

Ltac accepted_tail env owner repo req Hvo Hvn :=
  let H := fresh "H" in
  let Hst := fresh "Hst" in
  let d := fresh "d" in
  let Hd := fresh "Hd" in
  let Hm := fresh "Hm" in
  intros ?w;
  destruct (write_file_err env (Server.bundlePath env owner repo));
    [step; intros H; bad H|];
  step; rewrite spawn_eq;
  match goal with
  | |- context [exec_engine env ?a ?i ?b] =>
      destruct (exec_engine env a i b) as [?|[?|] ? ?]
  end; step; try (intros H; bad H);
  match goal with
  | |- context [Storage.SetMetadata env owner repo ?m ?w1] =>
      pose proof (SetMetadata_stored env owner repo m w1) as Hst;
      destruct (answer (Storage.SetMetadata env owner repo m w1))
  end; step; [intros H; bad H|];
  intros _; destruct (Hst eq_refl) as (d & Hd & Hm);
  exists req; split; [reflexivity|]; split; [exact Hvo|]; split; [exact Hvn|];
  exists d; eexists; split; [exact Hd|]; split; [exact Hm|]; cbn; discriminate.

Lemma replicate_accepted env w r :
  Status (answer (Server.handleReplicate env r w)) = StatusOK ->
  exists req,
    Decoded r = Some req
    /\ isValidName (Server.ReplicateReq.Owner req) = true
    /\ isValidName (Server.ReplicateReq.Repo req) = true
    /\ is_replica (after (Server.handleReplicate env r w))
                  (Server.ReplicateReq.Owner req) (Server.ReplicateReq.Repo req).
Proof.
  unfold Server.handleReplicate.
  destruct (negb (String.eqb (ApiMethod r) "POST")); [intros H; bad H|].
  destruct (String.eqb (Authorization r) EmptyString); [intros H; bad H|].
  destruct (SplitN2 (Authorization r) " ") as [|scheme [|token [|]]];
    [intros H; bad H | intros H; bad H | | intros H; bad H].
  destruct (negb (String.eqb scheme "Bearer")); [intros H; bad H|].
  step.
  destruct (ValidateAPIToken_reads env token w) as [-> _].
  destruct (answer (Auth.ValidateAPIToken env token w)) as [username|?];
    [|intros H; bad H].
  destruct (Decoded r) as [req|]; [|intros H; bad H].
  destruct (_ || _); [intros H; bad H|].
  destruct (negb (isValidName (Server.ReplicateReq.Owner req))
            || negb (isValidName (Server.ReplicateReq.Repo req))) eqn:Hv;
    [intros H; bad H|].
  apply orb_false_iff in Hv as [Hvo Hvn]. apply negb_false_iff in Hvo, Hvn.
  destruct (String.eqb (Server.ReplicateReq.Bundle req) EmptyString); [intros H; bad H|].
  destruct (negb (HasPrefix _ _)); [intros H; bad H|].
  destruct (negb (String.eqb username _)); [intros H; bad H|].
  destruct (base64_decode env _) as [bundleData|?]; [|intros H; bad H].
  set (owner := Server.ReplicateReq.Owner req) in *.
  set (repo := Server.ReplicateReq.Repo req) in *.
  step. rewrite RepoExists_eq. step.
  destruct (bool_decide (is_Some (repos w !! (owner, repo)))).
  - step. rewrite GetMetadata_after.
    destruct (answer (Storage.GetMetadata owner repo w)) as [existingMeta|?];
      [|step; intros H; bad H].
    destruct (Metadata.ReplicaOf existingMeta) as [src|]; [|step; intros H; bad H].
    destruct (negb _); [step; intros H; bad H|].
    step. generalize w. accepted_tail env owner repo req Hvo Hvn.
  - step.
    destruct (answer (Storage.CreateRepo env owner repo w));
      [step; intros H; bad H|].
    step. generalize (after (Storage.CreateRepo env owner repo w)).
    accepted_tail env owner repo req Hvo Hvn.
Qed.


(** X21. Once a [/replicate] request has been answered with success, the
    repository it names (owner and name valid) is a replica on the
    receiver: a POST of a pack to [/owner/name.git/git-receive-pack] is
    answered 403, a git-receive-pack for [/owner/name.git] on the shell
    transport exits with status 1, and both only read and leave the state
    as the request left it. *)
Theorem accepted_replica_refuses_pushes env w r :
  Status (answer (Server.handleReplicate env r w)) = StatusOK ->
  let w1 := after (Server.handleReplicate env r w) in
  exists req,
    Decoded r = Some req
    /\ let owner := Server.ReplicateReq.Owner req in
       let repo := Server.ReplicateReq.Repo req in
       (forall push,
           Method push = "POST" ->
           URLPath push = "/" ++ owner ++ "/" ++ repo ++ ".git" ++ "/" ++ "git-receive-pack" ->
           Status (answer (GitHTTP.handleRequest env push w1)) = StatusForbidden
           /\ after (GitHTTP.handleRequest env push w1) = w1
           /\ forallb is_read (log (GitHTTP.handleRequest env push w1)) = true)
       /\ (forall srv input command username arg rest,
              Fields command = "git-receive-pack" :: arg :: rest ->
              Trim arg GitSSH.quotes = "/" ++ owner ++ "/" ++ repo ++ ".git" ->
              let res := GitSSH.handleGitCommand env srv input command username w1 in
              GitSSH.ExitStatus (answer res) = 1%nat
              /\ after res = w1
              /\ forallb is_read (log res) = true).
Proof.
  intros Hok. cbn zeta.
  destruct (replicate_accepted env w r Hok) as (req & Hd & Hvo & Hvn & Hrep).
  exists req. split; [exact Hd|].
  destruct (valid_paths_parse _ _ Hvo Hvn) as (_ & Hssh & Hhttp).
  destruct (valid_name_shape _ Hvo) as (Ho & _).
  destruct (valid_name_shape _ Hvn) as (Hn & _).
  split.
  - intros push Hm Hp.
    assert (Hs : HasSuffix (URLPath push) "/git-receive-pack" = true).
    { apply HasSuffix_correct. rewrite Hp.
      exists ("/" ++ Server.ReplicateReq.Owner req ++ "/"
                 ++ Server.ReplicateReq.Repo req ++ ".git").
      rewrite !append_assoc3. reflexivity. }
    rewrite (handleRequest_push env push Hs).
    assert (Hparse : GitHTTP.parseRepoPath (URLPath push)
                     = (Server.ReplicateReq.Owner req, Server.ReplicateReq.Repo req)).
    { rewrite Hp. apply Hhttp. right. right. left. reflexivity. }
    destruct (http_receive_pack_replica env _ push _ _ Hrep Ho Hn Hm Hparse)
      as (-> & -> & ->). repeat split.
  - intros srv input command username arg rest Hf Ht.
    assert (Hparse : GitSSH.parseRepoPath (Trim arg GitSSH.quotes)
                     = (Server.ReplicateReq.Owner req, Server.ReplicateReq.Repo req))
      by (rewrite Ht; exact Hssh).
    destruct (ssh_receive_pack_replica env srv _ input command username arg rest
                _ _ Hrep Ho Hn Hf Hparse) as (-> & -> & ->).
    repeat split.
Qed.


Lemma accepted_replica_refuses_pushes_witness :
  Status (answer (GitHTTP.handleRequest Examples.env0
                    (Examples.http_push (Some ("alice", "T")))
                    (after (Server.handleReplicate Examples.env0
                              (Examples.replicate_post "Bearer TR" "QUJD")
                              Examples.w_empty))))
  = StatusForbidden.
Proof.
  destruct (accepted_replica_refuses_pushes Examples.env0 Examples.w_empty
              (Examples.replicate_post "Bearer TR" "QUJD")
              ltac:(vm_compute; reflexivity))
    as (req & Hd & Hhttp & _).
  injection Hd as <-.
  exact (proj1 (Hhttp (Examples.http_push (Some ("alice", "T"))) eq_refl eq_refl)).
Defined.


End PathFacts.

(** ** The replication worker *)

Section WorkerFacts.
Import GoStrings HTTP Props.

Lemma pushToReplica_eq sys id owner repo replica bundle w :
  ReplicationMore.pushToReplica sys id owner repo replica bundle w
  = match answer (Storage.GetMetadata owner repo w) with
    | Err why => (Some ("get metadata: " ++ why), w,
                  log (Storage.GetMetadata owner repo w))
    | Ok meta =>
        match new_request_err sys (Replica.URL replica ++ "/api/repos/replicate") with
        | Some why => (Some ("create request: " ++ why), w,
                       log (Storage.GetMetadata owner repo w))
        | None =>
        (match peer_replicate sys (Replica.URL replica ++ "/api/repos/replicate")
                 (Replica.Token replica)
                 (Server.ReplicateReq.Build owner repo id
                    (Replica.InvitationKey replica) (base64_encode sys bundle)
                    (Metadata.with_Replicas meta [])) with
         | Err why => Some ("send request: " ++ why)
         | Ok (status, body) =>
             if negb (Nat.eqb status StatusOK)
             then Some ("replica returned " ++ decimal status ++ ": " ++ body)
             else None
         end, w,
         (log (Storage.GetMetadata owner repo w)
            ++ [EvHTTPPost (Replica.URL replica ++ "/api/repos/replicate")])%list)
        end
    end.
Proof.
  unfold ReplicationMore.pushToReplica. rewrite bind_run, GetMetadata_after.
  destruct (answer (Storage.GetMetadata owner repo w)) as [meta|why].
  - destruct (new_request_err sys _).
    + unfold ret. cbn [answer after log fst snd]. rewrite app_nil_r. reflexivity.
    + unfold bind, emit, ret. cbn [fst snd].
      destruct (peer_replicate sys _ _ _) as [[status body]|?]; cbn [fst snd].
      * destruct (negb _); cbn [fst snd]; rewrite ?app_nil_r; reflexivity.
      * rewrite ?app_nil_r; reflexivity.
  - unfold ret. cbn [fst snd]. rewrite app_nil_r. reflexivity.
Qed.

Lemma pushToReplica_after sys id owner repo replica bundle w :
  after (ReplicationMore.pushToReplica sys id owner repo replica bundle w) = w.
Proof.
  rewrite pushToReplica_eq.
  destruct (answer (Storage.GetMetadata owner repo w)); [|reflexivity].
  destruct (new_request_err sys _); reflexivity.
Qed.

Lemma pushToReplica_log sys id owner repo replica bundle w e :
  In e (log (ReplicationMore.pushToReplica sys id owner repo replica bundle w)) ->
  is_read e = true \/ e = EvHTTPPost (Replica.URL replica ++ "/api/repos/replicate").
Proof.
  pose proof (GetMetadata_reads owner repo w) as Hg. rewrite forallb_forall in Hg.
  rewrite pushToReplica_eq.
  destruct (answer (Storage.GetMetadata owner repo w));
    [destruct (new_request_err sys _)|]; rewrite log_mk.
  - intros H. left; auto.
  - intros H. apply in_app_or in H as [H|H]; [left; auto|].
    destruct H as [<-|[]]. right; reflexivity.
  - intros H. left; auto.
Qed.

Lemma push_each_cons env sys id owner repo bundle r l w :
  ReplicationMore.push_each env sys id owner repo bundle (r :: l) w
  = if negb (Replica.Enabled r) then
      let x := ReplicationMore.push_each env sys id owner repo bundle l w in
      (r :: answer x, after x, log x)
    else
      let p := ReplicationMore.pushToReplica sys id owner repo r bundle w in
      let x := ReplicationMore.push_each env sys id owner repo bundle l w in
      ((match answer p with
        | Some _ => r
        | None => ReplicationMore.with_LastSynced r (now env)
        end) :: answer x, after x, (log p ++ log x)%list).
Proof.
  cbn [ReplicationMore.push_each]. cbv zeta.
  destruct (negb (Replica.Enabled r)).
  - unfold bind, ret, answer, after, log. cbn [fst snd].
    destruct (ReplicationMore.push_each env sys id owner repo bundle l w) as [[a w1] l1].
    cbn [fst snd]. rewrite app_nil_r. reflexivity.
  - pose proof (pushToReplica_after sys id owner repo r bundle w) as Hp.
    unfold bind, ret, answer, after, log in *.
    destruct (ReplicationMore.pushToReplica sys id owner repo r bundle w)
      as [[err w0] l0]. cbn [fst snd] in *. subst w0.
    destruct err; unfold bind, ret; cbn [fst snd];
      destruct (ReplicationMore.push_each env sys id owner repo bundle l w)
        as [[a w1] l1]; cbn [fst snd]; rewrite app_nil_r; reflexivity.
Qed.

Lemma push_each_frame env sys id owner repo bundle l w :
  after (ReplicationMore.push_each env sys id owner repo bundle l w) = w.
Proof.
  induction l as [|r l IH]; [reflexivity|].
  rewrite push_each_cons. destruct (negb _); exact IH.
Qed.

Lemma push_each_stamps env sys id owner repo bundle l w :
  Forall2 (stamped_or_same (now env)) l
          (answer (ReplicationMore.push_each env sys id owner repo bundle l w)).
Proof.
  induction l as [|r l IH]; [constructor|].
  rewrite push_each_cons.
  destruct (Replica.Enabled r) eqn:He; cbn [negb]; cbv zeta; rewrite answer_mk.
  - constructor; [|exact IH].
    destruct (answer (ReplicationMore.pushToReplica sys id owner repo r bundle w));
      [left; reflexivity | right; auto].
  - constructor; [left; reflexivity | exact IH].
Qed.

Lemma push_each_log env sys id owner repo bundle l w e :
  In e (log (ReplicationMore.push_each env sys id owner repo bundle l w)) ->
  is_read e = true
  \/ exists replica, In replica l /\ Replica.Enabled replica = true
                     /\ e = EvHTTPPost (Replica.URL replica ++ "/api/repos/replicate").
Proof.
  induction l as [|r l IH]; [intros []|].
  assert (IH' : In e (log (ReplicationMore.push_each env sys id owner repo bundle l w)) ->
                is_read e = true
                \/ exists replica, In replica (r :: l) /\ Replica.Enabled replica = true
                     /\ e = EvHTTPPost (Replica.URL replica ++ "/api/repos/replicate")).
  { intros H. destruct (IH H) as [?|(x & ? & ? & ?)]; [auto|].
    right. exists x. split; [right; assumption | auto]. }
  rewrite push_each_cons.
  destruct (Replica.Enabled r) eqn:He; cbn [negb]; cbv zeta; rewrite log_mk.
  - intros H. apply in_app_or in H as [H|H]; [|exact (IH' H)].
    apply pushToReplica_log in H as [H|H]; [left; exact H|].
    right. exists r. split; [left; reflexivity | auto].
  - exact IH'.
Qed.

Lemma push_each_peer env sys sys' id owner repo bundle meta l w :
  base64_encode sys = base64_encode sys' ->
  new_request_err sys = new_request_err sys' ->
  answer (Storage.GetMetadata owner repo w) = Ok meta ->
  (forall url token p,
      (exists replica,
          In replica l
          /\ Replica.Enabled replica = true
          /\ url = Replica.URL replica ++ "/api/repos/replicate"
          /\ token = Replica.Token replica
          /\ Server.ReplicateReq.Owner p = owner
          /\ Server.ReplicateReq.Repo p = repo
          /\ Server.ReplicateReq.InstanceID p = id
          /\ Server.ReplicateReq.InvitationKey p = Replica.InvitationKey replica
          /\ Server.ReplicateReq.Metadata p = Metadata.with_Replicas meta []) ->
      peer_replicate sys url token p = peer_replicate sys' url token p) ->
  ReplicationMore.push_each env sys id owner repo bundle l w
  = ReplicationMore.push_each env sys' id owner repo bundle l w.
Proof.
  intros Hb Hn Hm. induction l as [|r l IH]; intros Hpeer; [reflexivity|].
  assert (IH' : ReplicationMore.push_each env sys id owner repo bundle l w
                = ReplicationMore.push_each env sys' id owner repo bundle l w).
  { apply IH. intros url token p (x & Hin & Hx). apply Hpeer.
    exists x. split; [right; exact Hin | exact Hx]. }
  rewrite !push_each_cons, IH'.
  destruct (Replica.Enabled r) eqn:He; cbn [negb]; [|reflexivity].
  assert (Hp : ReplicationMore.pushToReplica sys id owner repo r bundle w
               = ReplicationMore.pushToReplica sys' id owner repo r bundle w).
  { rewrite !pushToReplica_eq, Hm, Hb, Hn.
    destruct (new_request_err sys' _); [reflexivity|].
    rewrite (Hpeer _ _ (Server.ReplicateReq.Build owner repo id
                          (Replica.InvitationKey r) (base64_encode sys' bundle)
                          (Metadata.with_Replicas meta []))); [reflexivity|].
    exists r. cbn. repeat split; auto. }
  rewrite Hp. reflexivity.
Qed.

Lemma createBundle_eq env owner repo w :
  ReplicationMore.createBundle env owner repo w
  = match exec_engine env ["git"; "bundle"; "create"; "-"; "--all"] EmptyString
            (default EmptyString (git_data <$> repos w !! (owner, repo))) with
    | NotStarted why =>
        (Err ("git bundle: " ++ why), w,
         [EvExec ["git"; "bundle"; "create"; "-"; "--all"] owner repo])
    | Exited err out data =>
        (match err with Some why => Err ("git bundle: " ++ why) | None => Ok out end,
         set_repos w (alter (fun d => MkRepoDir data (openhub_json d))
                            (owner, repo) (repos w)),
         [EvExec ["git"; "bundle"; "create"; "-"; "--all"] owner repo])
    end.
Proof.
  unfold ReplicationMore.createBundle. rewrite bind_run, spawn_eq.
  destruct (exec_engine env _ _ _) as [?|[?|] ? ?]; reflexivity.
Qed.

Lemma GetMetadata_answer owner name w :
  answer (Storage.GetMetadata owner name w)
  = match repos w !! (owner, name) with
    | Some d => Storage.readMetaFile (openhub_json d)
    | None => Err ("repo does not exist: " ++ owner ++ "/" ++ name)
    end.
Proof.
  destruct (repos w !! (owner, name)) eqn:E;
    [rewrite (GetMetadata_found _ _ _ _ E) | rewrite (GetMetadata_missing _ _ _ E)];
    reflexivity.
Qed.

Lemma GetMetadata_log owner name w w' :
  is_Some (repos w !! (owner, name)) -> is_Some (repos w' !! (owner, name)) ->
  log (Storage.GetMetadata owner name w') = log (Storage.GetMetadata owner name w).
Proof.
  intros [d E] [d' E'].
  rewrite (GetMetadata_found _ _ _ _ E), (GetMetadata_found _ _ _ _ E'). reflexivity.
Qed.

Lemma GetMetadata_after_engine owner name w data :
  answer (Storage.GetMetadata owner name
            (set_repos w (alter (fun d => MkRepoDir data (openhub_json d))
                                (owner, name) (repos w))))
  = answer (Storage.GetMetadata owner name w).
Proof.
  rewrite !GetMetadata_answer. cbn [repos set_repos]. rewrite lookup_alter_eq.
  destruct (repos w !! (owner, name)); reflexivity.
Qed.

Lemma with_Replicas_same meta : Metadata.with_Replicas meta (Metadata.Replicas meta) = meta.
Proof. destruct meta; reflexivity. Qed.

Lemma replicate_eq env sys id owner repo w :
  ReplicationMore.replicate env sys id owner repo w
  = match answer (Storage.GetMetadata owner repo w) with
    | Err why => (Some ("get metadata: " ++ why), w,
                  log (Storage.GetMetadata owner repo w))
    | Ok meta =>
        if (List.length (Metadata.Replicas meta) =? 0)%nat
        then (None, w, log (Storage.GetMetadata owner repo w))
        else
          let argv := ["git"; "bundle"; "create"; "-"; "--all"] in
          match exec_engine env argv EmptyString
                  (default EmptyString (git_data <$> repos w !! (owner, repo))) with
          | NotStarted why =>
              (Some ("create bundle: " ++ "git bundle: " ++ why), w,
               (log (Storage.GetMetadata owner repo w) ++ [EvExec argv owner repo])%list)
          | Exited (Some why) _ data =>
              (Some ("create bundle: " ++ "git bundle: " ++ why),
               set_repos w (alter (fun d => MkRepoDir data (openhub_json d))
                                  (owner, repo) (repos w)),
               (log (Storage.GetMetadata owner repo w) ++ [EvExec argv owner repo])%list)
          | Exited None out data =>
              let w1 := set_repos w (alter (fun d => MkRepoDir data (openhub_json d))
                                           (owner, repo) (repos w)) in
              let x := ReplicationMore.push_each env sys id owner repo out
                         (Metadata.Replicas meta) w1 in
              let s := Storage.SetMetadata env owner repo
                         (Metadata.with_Replicas meta (answer x)) w1 in
              (match answer s with
               | Some why => Some ("update metadata: " ++ why)
               | None => None
               end, after s,
               (log (Storage.GetMetadata owner repo w) ++ [EvExec argv owner repo]
                  ++ log x ++ log s)%list)
          end
    end.
Proof.
  unfold ReplicationMore.replicate. cbv zeta.
  pose proof (GetMetadata_after owner repo w) as Ha.
  destruct (Storage.GetMetadata owner repo w) as [[m w0] lg] eqn:Eg.
  rewrite after_mk in Ha. subst w0.
  rewrite (bind_eq _ _ _ _ _ _ Eg), answer_mk, log_mk.
  destruct m as [meta|why]; [|unfold ret; rewrite answer_mk, after_mk, log_mk, app_nil_r;
                               reflexivity].
  destruct (_ =? _)%nat;
    [unfold ret; rewrite answer_mk, after_mk, log_mk, app_nil_r; reflexivity|].
  pose proof (createBundle_eq env owner repo w) as Ec.
  destruct (exec_engine env _ _ _) as [why|[why|] out data];
    rewrite (bind_eq _ _ _ _ _ _ Ec);
    try (unfold ret; rewrite answer_mk, after_mk, log_mk, app_nil_r; reflexivity).
  set (w1 := set_repos w (alter (fun d => MkRepoDir data (openhub_json d))
                                (owner, repo) (repos w))) in *.
  pose proof (push_each_frame env sys id owner repo out (Metadata.Replicas meta) w1) as Hp.
  destruct (ReplicationMore.push_each env sys id owner repo out
              (Metadata.Replicas meta) w1) as [[rs w2] lp] eqn:Ep.
  rewrite after_mk in Hp. subst w2.
  rewrite (bind_eq _ _ _ _ _ _ Ep), !answer_mk, !log_mk.
  destruct (Storage.SetMetadata env owner repo (Metadata.with_Replicas meta rs) w1)
    as [[e w3] ls] eqn:Es.
  rewrite (bind_eq _ _ _ _ _ _ Es), !answer_mk, !after_mk, !log_mk.
  destruct e; unfold ret; rewrite !answer_mk, !after_mk, !log_mk, !app_nil_r; reflexivity.
Qed.


(** X22. A round of the worker for a repository with readable metadata
    leaves the users, the queue, the instance file and every other
    repository as they were.  With no replica configured it returns at
    once, having only read.  When it returns without error the metadata
    afterwards is the metadata before with a replica list of the same
    length in which each record is unchanged or, for an enabled replica,
    has its [LastSynced] set to now.  And every request it sends goes to
    the replicate endpoint of an enabled replica of the list. *)
Theorem replicate_only_stamps env sys id owner repo w meta :
  answer (Storage.GetMetadata owner repo w) = Ok meta ->
  let res := ReplicationMore.replicate env sys id owner repo w in
  (users (after res) = users w /\ queue (after res) = queue w
   /\ instance_json (after res) = instance_json w
   /\ forall k, k <> (owner, repo) -> repos (after res) !! k = repos w !! k)
  /\ (Metadata.Replicas meta = [] ->
      answer res = None /\ after res = w /\ forallb is_read (log res) = true)
  /\ (answer res = None ->
      exists replicas,
        Forall2 (stamped_or_same (now env)) (Metadata.Replicas meta) replicas
        /\ answer (Storage.GetMetadata owner repo (after res))
           = Ok (Metadata.with_Replicas meta replicas))
  /\ (forall url, In (EvHTTPPost url) (log res) ->
                  exists replica,
                    In replica (Metadata.Replicas meta)
                    /\ Replica.Enabled replica = true
                    /\ url = Replica.URL replica ++ "/api/repos/replicate").
Proof.
  intros Hm. cbn zeta. rewrite replicate_eq, Hm.
  pose proof (GetMetadata_reads owner repo w) as Hg.
  assert (Hgp : forall url, In (EvHTTPPost url) (log (Storage.GetMetadata owner repo w))
                            -> False).
  { intros url H. rewrite forallb_forall in Hg. discriminate (Hg _ H). }
  destruct (Metadata.Replicas meta) as [|r0 rs] eqn:Hrs.
  { cbn [List.length Nat.eqb]. rewrite answer_mk, after_mk, log_mk.
    split; [repeat split; reflexivity|]. split; [auto|]. split.
    - intros _. exists []. split; [constructor|].
      rewrite Hm, <- Hrs, with_Replicas_same. reflexivity.
    - intros url H. destruct (Hgp url H). }
  cbn [List.length Nat.eqb]. rewrite <- Hrs. cbv zeta.
  set (argv := ["git"; "bundle"; "create"; "-"; "--all"]).
  destruct (exec_engine env argv _ _) as [why|err out data].
  { rewrite !answer_mk, !after_mk, !log_mk.
    split; [repeat split; reflexivity|]. split; [intros E; rewrite E in Hrs; discriminate|].
    split; [discriminate|].
    intros url H. apply in_app_or in H as [H|H];
      [destruct (Hgp url H) | cbn in H; intuition discriminate]. }
  set (w1 := set_repos w (alter (fun d => MkRepoDir data (openhub_json d))
                                (owner, repo) (repos w))).
  assert (Hframe1 : forall k, k <> (owner, repo) -> repos w1 !! k = repos w !! k).
  { intros k Hk. subst w1. cbn [repos set_repos]. apply lookup_alter_ne. congruence. }
  destruct err as [why|].
  { rewrite !answer_mk, !after_mk, !log_mk.
    split; [repeat split; try reflexivity; exact Hframe1|].
    split; [intros E; rewrite E in Hrs; discriminate|].
    split; [discriminate|].
    intros url H. apply in_app_or in H as [H|H];
      [destruct (Hgp url H) | cbn in H; intuition discriminate]. }
  pose proof (push_each_stamps env sys id owner repo out (Metadata.Replicas meta) w1)
    as Hst.
  pose proof (fun e => push_each_log env sys id owner repo out
                         (Metadata.Replicas meta) w1 e) as Hlog.
  set (x := ReplicationMore.push_each env sys id owner repo out
              (Metadata.Replicas meta) w1) in *.
  rewrite !answer_mk, !after_mk, !log_mk, SetMetadata_eq.
  assert (Hex : is_Some (repos w !! (owner, repo))) by (eapply GetMetadata_ok_exists; eauto).
  assert (Hex1 : is_Some (repos w1 !! (owner, repo))).
  { subst w1. cbn [repos set_repos]. rewrite lookup_alter_eq.
    destruct Hex as [d ->]. eauto. }
  rewrite (bool_decide_eq_true_2 _ Hex1).
  assert (Hposts : forall url l0,
             (forall e, In e l0 -> is_post e = false) ->
             In (EvHTTPPost url)
                (log (Storage.GetMetadata owner repo w)
                   ++ [EvExec argv owner repo] ++ log x ++ l0)%list ->
             exists replica,
               In replica (Metadata.Replicas meta)
               /\ Replica.Enabled replica = true
               /\ url = Replica.URL replica ++ "/api/repos/replicate").
  { intros url l0 Hl0 H.
    apply in_app_or in H as [H|H]; [|apply in_app_or in H as [H|H];
                                      [|apply in_app_or in H as [H|H]]].
    - destruct (Hgp url H).
    - cbn in H; intuition discriminate.
    - destruct (Hlog _ H) as [Hr|(y & ? & ? & Hy)]; [discriminate Hr|].
      injection Hy as ->. eauto.
    - discriminate (Hl0 _ H). }
  assert (Hl0 : forall e, In e [EvStat owner repo; EvWriteMeta owner repo] ->
                          is_post e = false).
  { intros e [<-|[<-|[]]]; reflexivity. }
  destruct (write_file_err env _) as [why|]; rewrite !answer_mk, !after_mk, !log_mk.
  { split; [repeat split; try reflexivity; exact Hframe1|].
    split; [intros E; rewrite E in Hrs; discriminate|].
    split; [discriminate|].
    intros url H. exact (Hposts url _ Hl0 H). }
  split.
  { cbn [users queue instance_json repos set_repos]. repeat split; try reflexivity.
    intros k Hk. rewrite lookup_alter_ne by congruence. exact (Hframe1 k Hk). }
  split; [intros E; rewrite E in Hrs; discriminate|].
  split.
  { intros _. exists (answer x). split; [exact Hst|].
    rewrite GetMetadata_answer. cbn [repos set_repos]. rewrite lookup_alter_eq.
    destruct Hex1 as [d ->]. reflexivity. }
  intros url H. exact (Hposts url _ Hl0 H).
Qed.


Lemma replicate_only_stamps_witness :
  exists replicas,
    Forall2 (stamped_or_same (now Examples.env0))
            (Metadata.Replicas ExamplesFed.fed_meta) replicas
    /\ answer (Storage.GetMetadata "alice" "foo"
                 (after (ReplicationMore.replicate Examples.env0 ExamplesMore.sys0 "A"
                           "alice" "foo" ExamplesFed.w_fed)))
       = Ok (Metadata.with_Replicas ExamplesFed.fed_meta replicas).
Proof.
  exact (proj1 (proj2 (proj2 (replicate_only_stamps Examples.env0 ExamplesMore.sys0 "A"
                                "alice" "foo" ExamplesFed.w_fed ExamplesFed.fed_meta
                                ltac:(vm_compute; reflexivity))))
               ltac:(vm_compute; reflexivity)).
Defined.


(** X23. What a round of the worker does depends on the network only
    through the requests it may send: for two networks that encode the
    bundle alike, accept the same URLs and answer alike every request to
    the replicate endpoint
    of an enabled replica of the repository, made with that replica's
    token and invitation key, this instance's id and the metadata without
    its replica list, the round gives the same result, state and log. *)
Theorem replicate_asks_only_enabled_replicas env sys sys' id owner repo w meta :
  base64_encode sys = base64_encode sys' ->
  new_request_err sys = new_request_err sys' ->
  answer (Storage.GetMetadata owner repo w) = Ok meta ->
  (forall url token p,
      worker_request id owner repo meta url token p ->
      peer_replicate sys url token p = peer_replicate sys' url token p) ->
  ReplicationMore.replicate env sys id owner repo w
  = ReplicationMore.replicate env sys' id owner repo w.
Proof.
  intros Hb Hn Hm Hpeer. rewrite !replicate_eq, Hm.
  destruct (_ =? _)%nat; [reflexivity|]. cbv zeta.
  destruct (exec_engine env _ _ _) as [?|[?|] out data];
    [reflexivity | reflexivity |].
  rewrite (push_each_peer env sys sys' id owner repo out meta); auto.
  rewrite GetMetadata_after_engine. exact Hm.
Qed.


Lemma replicate_asks_only_enabled_replicas_witness :
  ReplicationMore.replicate Examples.env0 ExamplesMore.sys0 "A" "alice" "foo"
    ExamplesFed.w_fed
  = ReplicationMore.replicate Examples.env0 ExamplesFed.sys_peer1_only "A" "alice" "foo"
      ExamplesFed.w_fed.
Proof.
  apply (replicate_asks_only_enabled_replicas Examples.env0 ExamplesMore.sys0
           ExamplesFed.sys_peer1_only "A" "alice" "foo" ExamplesFed.w_fed
           ExamplesFed.fed_meta).
  - reflexivity.
  - reflexivity.
  - vm_compute. reflexivity.
  - intros url token p (replica & Hin & Hen & -> & _).
    destruct Hin as [<-|[<-|[]]]; [reflexivity | discriminate Hen].
Defined.

Lemma push_each_reaches env sys id owner repo bundle meta l w replica :
  answer (Storage.GetMetadata owner repo w) = Ok meta ->
  In replica l -> Replica.Enabled replica = true ->
  new_request_err sys (Replica.URL replica ++ "/api/repos/replicate") = None ->
  In (EvHTTPPost (Replica.URL replica ++ "/api/repos/replicate"))
     (log (ReplicationMore.push_each env sys id owner repo bundle l w)).
Proof.
  intros Hm Hin He Hn. induction l as [|r l IH]; [destruct Hin|].
  rewrite push_each_cons.
  destruct Hin as [->|Hin].
  - rewrite He. cbn [negb]. cbv zeta. rewrite log_mk.
    apply in_or_app. left. rewrite pushToReplica_eq, Hm, Hn, log_mk.
    apply in_or_app. right. left. reflexivity.
  - destruct (negb (Replica.Enabled r)); cbv zeta; rewrite log_mk; [auto|].
    apply in_or_app. right. auto.
Qed.

Lemma push_each_all_ok env sys id owner repo bundle meta l w :
  answer (Storage.GetMetadata owner repo w) = Ok meta ->
  (forall replica,
      In replica l -> Replica.Enabled replica = true ->
      new_request_err sys (Replica.URL replica ++ "/api/repos/replicate") = None) ->
  (forall replica,
      In replica l -> Replica.Enabled replica = true ->
      exists body,
        peer_replicate sys (Replica.URL replica ++ "/api/repos/replicate")
          (Replica.Token replica)
          (Server.ReplicateReq.Build owner repo id (Replica.InvitationKey replica)
             (base64_encode sys bundle) (Metadata.with_Replicas meta []))
        = Ok (StatusOK, body)) ->
  answer (ReplicationMore.push_each env sys id owner repo bundle l w)
  = List.map (stamp_enabled (now env)) l.
Proof.
  intros Hm. induction l as [|r l IH]; intros Hnew Hok; [reflexivity|].
  rewrite push_each_cons. cbn [List.map]. unfold stamp_enabled at 1.
  assert (IH' : answer (ReplicationMore.push_each env sys id owner repo bundle l w)
                = List.map (stamp_enabled (now env)) l).
  { apply IH; intros x Hx; [apply Hnew | apply Hok]; right; exact Hx. }
  destruct (Replica.Enabled r) eqn:He; cbn [negb]; cbv zeta; rewrite answer_mk, IH';
    [|reflexivity].
  destruct (Hok r (or_introl eq_refl) He) as [body Hb].
  rewrite pushToReplica_eq, Hm, (Hnew r (or_introl eq_refl) He), Hb, answer_mk.
  reflexivity.
Qed.


(** X24. When the metadata is readable, lists at least one replica, the
    bundle is produced and the URLs of the enabled replicas parse, a round
    of the worker sends a request to the replicate endpoint of every
    enabled replica; and if every such request
    is answered 200 and the metadata file can be written, the round
    succeeds and leaves the metadata with [LastSynced] set to now on
    exactly the enabled replicas. *)
Theorem replicate_reaches_enabled_replicas env sys id owner repo w meta out data :
  answer (Storage.GetMetadata owner repo w) = Ok meta ->
  Metadata.Replicas meta <> [] ->
  exec_engine env ["git"; "bundle"; "create"; "-"; "--all"] EmptyString
    (default EmptyString (git_data <$> repos w !! (owner, repo)))
  = Exited None out data ->
  (forall replica,
      In replica (Metadata.Replicas meta) -> Replica.Enabled replica = true ->
      new_request_err sys (Replica.URL replica ++ "/api/repos/replicate") = None) ->
  let res := ReplicationMore.replicate env sys id owner repo w in
  (forall replica,
      In replica (Metadata.Replicas meta) -> Replica.Enabled replica = true ->
      In (EvHTTPPost (Replica.URL replica ++ "/api/repos/replicate")) (log res))
  /\ ((forall url token p,
          worker_request id owner repo meta url token p ->
          exists body, peer_replicate sys url token p = Ok (StatusOK, body)) ->
      write_file_err env (Storage.metadataPath env owner repo) = None ->
      answer res = None
      /\ answer (Storage.GetMetadata owner repo (after res))
         = Ok (Metadata.with_Replicas meta
                 (List.map (stamp_enabled (now env)) (Metadata.Replicas meta)))).
Proof.
  intros Hm Hne Hexec Hnew. cbn zeta. rewrite replicate_eq, Hm.
  destruct (Metadata.Replicas meta) as [|r0 rs] eqn:Hrs; [congruence|].
  cbn [List.length Nat.eqb]. rewrite <- Hrs in Hnew |- *. cbv zeta. rewrite Hexec.
  set (w1 := set_repos w (alter (fun d => MkRepoDir data (openhub_json d))
                                (owner, repo) (repos w))).
  assert (Hm1 : answer (Storage.GetMetadata owner repo w1) = Ok meta)
    by (subst w1; rewrite GetMetadata_after_engine; exact Hm).
  assert (Hex1 : is_Some (repos w1 !! (owner, repo)))
    by (eapply GetMetadata_ok_exists; eauto).
  rewrite !answer_mk, !after_mk, !log_mk. split.
  - intros replica Hin He. apply in_or_app. right. apply in_or_app. right.
    apply in_or_app. left.
    exact (push_each_reaches env sys id owner repo out meta _ w1 replica
             Hm1 Hin He (Hnew replica Hin He)).
  - intros Hok Hw.
    rewrite (push_each_all_ok env sys id owner repo out meta).
    + rewrite SetMetadata_eq, (bool_decide_eq_true_2 _ Hex1), Hw.
      rewrite answer_mk, after_mk. split; [reflexivity|].
      rewrite GetMetadata_answer. cbn [repos set_repos]. rewrite lookup_alter_eq.
      destruct Hex1 as [d ->]. reflexivity.
    + exact Hm1.
    + exact Hnew.
    + intros replica Hin He. apply Hok. exists replica. cbn. repeat split; auto.
Qed.


Lemma replicate_reaches_enabled_replicas_witness :
  In (EvHTTPPost "http://peer1/api/repos/replicate")
     (log (ReplicationMore.replicate Examples.env0 ExamplesMore.sys0 "A" "alice" "foo"
             ExamplesFed.w_fed)).
Proof.
  exact (proj1 (replicate_reaches_enabled_replicas Examples.env0 ExamplesMore.sys0 "A"
                  "alice" "foo" ExamplesFed.w_fed ExamplesFed.fed_meta "out:" "g0"
                  ltac:(vm_compute; reflexivity) ltac:(discriminate)
                  ltac:(vm_compute; reflexivity) (fun _ _ _ => eq_refl))
               ExamplesFed.peer1 (or_introl eq_refl) eq_refl).
Defined.

Lemma elem_of_owner_dirs (r : gmap (string * string) RepoDir) owner :
  owner ∈ StorageMore.owner_dirs r <-> exists name, is_Some (r !! (owner, name)).
Proof.
  unfold StorageMore.owner_dirs. rewrite merge_sort_Permutation.
  rewrite elem_of_remove_dups, list_elem_of_fmap. split.
  - intros ([[o n] d] & -> & H). apply elem_of_map_to_list in H. cbn. eauto.
  - intros (name & d & H). exists ((owner, name), d). split; [reflexivity|].
    apply elem_of_map_to_list. exact H.
Qed.

Lemma elem_of_git_dirs (r : gmap (string * string) RepoDir) owner name :
  name ∈ StorageMore.git_dirs r owner <-> is_Some (r !! (owner, name)).
Proof.
  unfold StorageMore.git_dirs. rewrite merge_sort_Permutation.
  rewrite list_elem_of_fmap. split.
  - intros ([[o n] d] & -> & H). apply list_elem_of_filter in H as [Ho H].
    cbn in Ho. subst o. apply elem_of_map_to_list in H. cbn. eauto.
  - intros [d H]. exists ((owner, name), d). split; [reflexivity|].
    apply list_elem_of_filter. split; [reflexivity|].
    apply elem_of_map_to_list. exact H.
Qed.


(** X25. [ListRepos] changes nothing.  When the storage root cannot be
    read it returns that error; otherwise it returns a list that holds a
    repository exactly when the repository exists and the directory of its
    owner can be read. *)
Theorem list_repos_lists_existing sys w :
  after (StorageMore.ListRepos sys w) = w
  /\ log (StorageMore.ListRepos sys w) = []
  /\ match read_storage_err sys with
     | Some why => answer (StorageMore.ListRepos sys w) = Err ("read storage dir: " ++ why)
     | None =>
         exists l, answer (StorageMore.ListRepos sys w) = Ok l
                   /\ forall owner name,
                        In (Repo.Build owner name) l
                        <-> (is_Some (repos w !! (owner, name))
                             /\ owner_unreadable sys owner = false)
     end.
Proof.
  unfold StorageMore.ListRepos.
  destruct (read_storage_err sys); [repeat split; reflexivity|].
  split; [reflexivity|]. split; [reflexivity|].
  eexists. split; [reflexivity|].
  intros owner name. rewrite in_concat. split.
  - intros (l0 & Hl0 & Hin). apply list_elem_of_In in Hl0, Hin.
    apply list_elem_of_fmap in Hl0 as (o & -> & Ho).
    destruct (owner_unreadable sys o) eqn:Hu; [inversion Hin|].
    apply list_elem_of_fmap in Hin as (n & [= -> ->] & Hn).
    split; [apply elem_of_git_dirs; exact Hn | exact Hu].
  - intros [Hex Hu].
    exists (Repo.Build owner <$> StorageMore.git_dirs (repos w) owner). split.
    + apply list_elem_of_In, list_elem_of_fmap. exists owner. rewrite Hu.
      split; [reflexivity|]. apply elem_of_owner_dirs. eauto.
    + apply list_elem_of_In, list_elem_of_fmap. exists name. split; [reflexivity|].
      apply elem_of_git_dirs. exact Hex.
Qed.


Lemma ListRepos_after sys w : after (StorageMore.ListRepos sys w) = w.
Proof. unfold StorageMore.ListRepos. destruct (read_storage_err sys); reflexivity. Qed.

Lemma queue_each_eq l w :
  after (ReplicationMore.queue_each l w)
  = set_queue w (queue w ++ List.firstn (Replication.capacity - List.length (queue w))
                                 (job_of <$> l))%list.
Proof.
  revert w. induction l as [|r l IH]; intros w.
  - cbn. rewrite firstn_nil, app_nil_r. destruct w; reflexivity.
  - cbn [ReplicationMore.queue_each]. rewrite after_bind, Queue_eq.
    destruct (List.length (queue w) <? Replication.capacity)%nat eqn:Hlen;
      rewrite after_mk, IH.
    + apply Nat.ltb_lt in Hlen. cbn [queue set_queue]. rewrite length_app. cbn [List.length].
      replace (Replication.capacity - List.length (queue w))%nat
        with (S (Replication.capacity - (List.length (queue w) + 1)))%nat by lia.
      cbn [fmap list_fmap List.firstn]. rewrite <- app_assoc. reflexivity.
    + apply Nat.ltb_ge in Hlen.
      replace (Replication.capacity - List.length (queue w))%nat with 0%nat by lia.
      reflexivity.
Qed.


(** X26. [SyncAll] changes only the queue: when the listing fails it
    changes nothing, otherwise it appends the jobs of the listed
    repositories in the order of the listing, as many as fit below the
    capacity of the channel, and drops the rest. *)
Theorem sync_all_fills_queue sys w :
  let res := ReplicationMore.SyncAll sys w in
  match answer (StorageMore.ListRepos sys w) with
  | Err _ => after res = w
  | Ok l =>
      after res
      = set_queue w (queue w ++ List.firstn (Replication.capacity - List.length (queue w))
                                     (job_of <$> l))%list
  end.
Proof.
  cbn zeta. unfold ReplicationMore.SyncAll. rewrite after_bind.
  rewrite ListRepos_after.
  destruct (answer (StorageMore.ListRepos sys w)); [apply queue_each_eq | reflexivity].
Qed.


End WorkerFacts.


(** ** The admin command line and the instance identity *)

Section AdminFacts.
Import GoStrings HTTP Props.

Lemma LoadOrCreate_eq env w :
  Admin.LoadOrCreate env w
  = match instance_json w with
    | InstanceDoc id => (Ok (Instance.Build id "openhub-instance"), w, [EvReadInstance])
    | InstanceBadJSON why => (Err ("unmarshal instance: " ++ why), w, [EvReadInstance])
    | InstanceUnreadable =>
        match write_file_err env (basePath env ++ "/instance.json") with
        | Some why => (Err ("write instance: " ++ why), w,
                       [EvReadInstance; EvWriteInstance])
        | None => (Ok (Instance.Build (new_uuid env) "openhub-instance"),
                   set_instance w (InstanceDoc (new_uuid env)),
                   [EvReadInstance; EvWriteInstance])
        end
    end.
Proof.
  unfold Admin.LoadOrCreate, bind, emit, get_world, put_world, ret. cbn [fst snd].
  destruct (instance_json w); [|reflexivity|reflexivity].
  cbn [fst snd]. destruct (write_file_err env _); reflexivity.
Qed.

Lemma LoadOrCreate_stable env w inst :
  answer (Admin.LoadOrCreate env w) = Ok inst ->
  let w1 := after (Admin.LoadOrCreate env w) in
  instance_json w1 = InstanceDoc (Instance.ID inst)
  /\ forall env' w2,
       instance_json w2 = instance_json w1 ->
       (exists inst', answer (Admin.LoadOrCreate env' w2) = Ok inst'
                      /\ Instance.ID inst' = Instance.ID inst)
       /\ after (Admin.LoadOrCreate env' w2) = w2
       /\ log (Admin.LoadOrCreate env' w2) = [EvReadInstance].
Proof.
  cbn zeta. rewrite LoadOrCreate_eq.
  assert (Hgo : forall id env' w2,
             instance_json w2 = InstanceDoc id ->
             (exists inst', answer (Admin.LoadOrCreate env' w2) = Ok inst'
                            /\ Instance.ID inst' = id)
             /\ after (Admin.LoadOrCreate env' w2) = w2
             /\ log (Admin.LoadOrCreate env' w2) = [EvReadInstance]).
  { intros id env' w2 E. rewrite LoadOrCreate_eq, E.
    split; [eexists; split; reflexivity | split; reflexivity]. }
  destruct (instance_json w) as [|why|id] eqn:Ei.
  - destruct (write_file_err env _); rewrite answer_mk, after_mk; [discriminate|].
    intros [= <-]. cbn [instance_json set_instance Instance.ID].
    split; [reflexivity|]. intros env' w2 E. apply Hgo. exact E.
  - rewrite answer_mk. discriminate.
  - rewrite answer_mk, after_mk. intros [= <-]. cbn [Instance.ID].
    split; [exact Ei|]. intros env' w2 E. apply Hgo. congruence.
Qed.


(** X29. When [LoadOrCreate] succeeds, the instance file afterwards holds
    the id it returned, and every later call in a state with that instance
    file, whatever the environment, returns the same id, writes nothing
    and only reads the file. *)
Theorem instance_identity_stable env w inst :
  answer (Admin.LoadOrCreate env w) = Ok inst ->
  let w1 := after (Admin.LoadOrCreate env w) in
  instance_json w1 = InstanceDoc (Instance.ID inst)
  /\ forall env' w2,
       instance_json w2 = instance_json w1 ->
       (exists inst', answer (Admin.LoadOrCreate env' w2) = Ok inst'
                      /\ Instance.ID inst' = Instance.ID inst)
       /\ after (Admin.LoadOrCreate env' w2) = w2
       /\ log (Admin.LoadOrCreate env' w2) = [EvReadInstance].
Proof. exact (LoadOrCreate_stable env w inst). Qed.


Lemma instance_identity_stable_witness :
  instance_json (after (Admin.LoadOrCreate Examples.env0 ExamplesFed.w_new))
  = InstanceDoc "uuid-1".
Proof.
  exact (proj1 (instance_identity_stable Examples.env0 ExamplesFed.w_new
                  (Instance.Build "uuid-1" "openhub-instance")
                  ltac:(vm_compute; reflexivity))).
Defined.


(** X27. [remove-replica] contacts no peer, runs no command and leaves the
    users, the queue and the instance file as they were.  When it exits
    with status 0 the path was [owner/name], some replica record carried
    the instance id, the metadata afterwards is the metadata before
    without the records that carry that id (all of them, the others in
    their order), and no other repository changed.  When it exits with
    another status nothing changed. *)
Theorem remove_replica_filters env path instanceID w :
  let res := AdminMore.adminRemoveReplica env path instanceID w in
  (users (after res) = users w /\ queue (after res) = queue w
   /\ instance_json (after res) = instance_json w
   /\ forall e, In e (log res) -> is_post e = false /\ is_exec e = false)
  /\ (Admin.ExitCode (answer res) = 0%nat ->
      exists owner name meta,
        Split path "/" = [owner; name]
        /\ answer (Storage.GetMetadata owner name w) = Ok meta
        /\ (exists r, In r (Metadata.Replicas meta)
                      /\ Replica.InstanceID r = instanceID)
        /\ answer (Storage.GetMetadata owner name (after res))
           = Ok (Metadata.with_Replicas meta
                   (List.filter (keeps instanceID) (Metadata.Replicas meta)))
        /\ (forall k, k <> (owner, name) -> repos (after res) !! k = repos w !! k))
  /\ (Admin.ExitCode (answer res) <> 0%nat -> after res = w).
Proof.
  cbn zeta. unfold AdminMore.adminRemoveReplica.
  assert (Hexit : forall lines,
             (users (after (Admin.exit1 lines w)) = users w
              /\ queue (after (Admin.exit1 lines w)) = queue w
              /\ instance_json (after (Admin.exit1 lines w)) = instance_json w
              /\ forall e, In e (log (Admin.exit1 lines w)) ->
                           is_post e = false /\ is_exec e = false)
             /\ (Admin.ExitCode (answer (Admin.exit1 lines w)) = 0%nat ->
                 exists owner name meta,
                   Split path "/" = [owner; name]
                   /\ answer (Storage.GetMetadata owner name w) = Ok meta
                   /\ (exists r, In r (Metadata.Replicas meta)
                                 /\ Replica.InstanceID r = instanceID)
                   /\ answer (Storage.GetMetadata owner name
                                (after (Admin.exit1 lines w)))
                      = Ok (Metadata.with_Replicas meta
                              (List.filter (keeps instanceID) (Metadata.Replicas meta)))
                   /\ (forall k, k <> (owner, name) ->
                                 repos (after (Admin.exit1 lines w)) !! k = repos w !! k))
             /\ (Admin.ExitCode (answer (Admin.exit1 lines w)) <> 0%nat ->
                 after (Admin.exit1 lines w) = w)).
  { intros lines. split; [repeat split; try reflexivity; destruct H|].
    split; [discriminate | reflexivity]. }
  destruct (Split path "/") as [|owner [|name [|? ?]]] eqn:Hs; try apply Hexit.
  destruct (mkdir_err env (basePath env)); [apply Hexit|].
  clear Hexit.
  pose proof (GetMetadata_after owner name w) as Ha.
  pose proof (GetMetadata_reads owner name w) as Hg.
  assert (Hex : forall meta, answer (Storage.GetMetadata owner name w) = Ok meta ->
                             is_Some (repos w !! (owner, name)))
    by (intros meta; apply GetMetadata_ok_exists).
  destruct (Storage.GetMetadata owner name w) as [[m w0] lg] eqn:Eg.
  rewrite after_mk in Ha. subst w0. rewrite log_mk in Hg. rewrite answer_mk in Hex.
  assert (Hlg : forall e, In e lg -> is_post e = false /\ is_exec e = false).
  { intros e H. rewrite forallb_forall in Hg. specialize (Hg e H).
    destruct e; try discriminate Hg; split; reflexivity. }
  rewrite (bind_eq _ _ _ _ _ _ Eg).
  destruct m as [meta|why].
  2:{ unfold Admin.exit1, ret. rewrite answer_mk, after_mk, log_mk, app_nil_r.
      split; [repeat split; try reflexivity; apply Hlg; assumption|].
      split; [discriminate | reflexivity]. }
  destruct (existsb _ (Metadata.Replicas meta)) eqn:Hfound; cbn [negb].
  2:{ unfold Admin.exit1, ret. rewrite answer_mk, after_mk, log_mk, app_nil_r.
      split; [repeat split; try reflexivity; apply Hlg; assumption|].
      split; [discriminate | reflexivity]. }
  rewrite bind_run, SetMetadata_eq.
  rewrite (bool_decide_eq_true_2 _ (Hex meta eq_refl)).
  assert (Hl2 : forall e, In e (lg ++ [EvStat owner name; EvWriteMeta owner name]
                                   ++ [])%list ->
                          is_post e = false /\ is_exec e = false).
  { intros e H. apply in_app_or in H as [H|H]; [apply Hlg; exact H|].
    rewrite app_nil_r in H. destruct H as [<-|[<-|[]]]; split; reflexivity. }
  destruct (write_file_err env _) as [why|];
    unfold Admin.exit1, ret; rewrite !answer_mk, !after_mk, !log_mk.
  { split; [repeat split; try reflexivity; apply Hl2; assumption|].
    split; [discriminate | reflexivity]. }
  split; [repeat split; try reflexivity; apply Hl2; assumption|].
  split; [|intros H; exfalso; apply H; reflexivity].
  intros _. exists owner, name, meta.
  split; [reflexivity|]. split; [rewrite Eg; reflexivity|]. split.
  { apply existsb_exists in Hfound as (r & Hin & Hr). apply String.eqb_eq in Hr. eauto. }
  split.
  { rewrite GetMetadata_answer. cbn [repos set_repos]. rewrite lookup_alter_eq.
    destruct (Hex meta eq_refl) as [d ->]. reflexivity. }
  intros k Hk. cbn [repos set_repos]. apply lookup_alter_ne. congruence.
Qed.


(** X28. When [add-replica] exits with status 0, the path was
    [owner/name] of a repository that is not a replica, the peer answered
    the registration (sent with the token of the first draw and the
    instance id of this deployment) with success, and the metadata
    afterwards is the metadata before with one record appended: the
    instance id of this deployment, the URL, the token, the invitation key
    of the second draw, enabled, never synced.  Other repositories, the
    users and the queue are as they were. *)
Theorem add_replica_appends_record env path url w :
  let res := Admin.adminAddReplica env path url w in
  Admin.ExitCode (answer res) = 0%nat ->
  exists owner name meta id token key,
    Split path "/" = [owner; name]
    /\ answer (Storage.GetMetadata owner name w) = Ok meta
    /\ Metadata.ReplicaOf meta = None
    /\ rand_hex env 0 = Ok token /\ rand_hex env 1 = Ok key
    /\ instance_json (after res) = InstanceDoc id
    /\ (exists err,
           http_post env (url ++ "/api/repos/register-replication")
             [("owner", owner); ("repo", name); ("replica_url", url);
              ("token", token); ("origin_instance_id", id)]
           = PeerJSON (Some true) err)
    /\ answer (Storage.GetMetadata owner name (after res))
       = Ok (Metadata.with_Replicas meta
               (Metadata.Replicas meta
                  ++ [Replica.Build id url token key true zero_time]))
    /\ (forall k, k <> (owner, name) -> repos (after res) !! k = repos w !! k)
    /\ users (after res) = users w /\ queue (after res) = queue w.
Proof.
  cbn zeta. unfold Admin.adminAddReplica.
  destruct (Split path "/") as [|owner [|name [|? ?]]] eqn:Hs; try discriminate.
  destruct (mkdir_err env (basePath env)); [discriminate|].
  pose proof (LoadOrCreate_stable env w) as Hst.
  destruct (LoadOrCreate_frame env w) as (Hr & Hu & Hq & _).
  rewrite (answer_bind (Admin.LoadOrCreate env)), (after_bind (Admin.LoadOrCreate env)).
  destruct (Admin.LoadOrCreate env w) as [[i w1] t1] eqn:E.
  rewrite after_mk in Hr, Hu, Hq. rewrite answer_mk, after_mk in Hst.
  rewrite answer_mk, after_mk.
  destruct i as [inst|why]; [|discriminate].
  destruct (Hst inst eq_refl) as [Hinst _]. clear Hst.
  pose proof (GetMetadata_after owner name w1) as Ha.
  pose proof (GetMetadata_answer owner name w1) as Hans.
  pose proof (GetMetadata_answer owner name w) as Hans0.
  rewrite Hr in Hans. rewrite <- Hans0 in Hans. clear Hans0.
  assert (Hex1 : forall meta, answer (Storage.GetMetadata owner name w1) = Ok meta ->
                              is_Some (repos w1 !! (owner, name)))
    by (intros meta; apply GetMetadata_ok_exists).
  rewrite (answer_bind (Storage.GetMetadata owner name)),
    (after_bind (Storage.GetMetadata owner name)), Ha.
  destruct (answer (Storage.GetMetadata owner name w1)) as [meta|why]; [|discriminate].
  specialize (Hex1 meta eq_refl).
  destruct (bool_decide_reflect (Metadata.ReplicaOf meta <> None)) as [|Hrep];
    [discriminate|].
  destruct (rand_hex env 0) as [token|]; [|discriminate].
  destruct (rand_hex env 1) as [key|]; [|discriminate].
  rewrite answer_bind, after_bind, after_emit.
  destruct (http_post env _ _) as [? | ? | ? | success err] eqn:Hpost; try discriminate.
  destruct (bool_decide_reflect (success = Some true)) as [->|]; cbn [negb];
    [|discriminate].
  match goal with
  | |- context [Storage.SetMetadata env owner name ?m] =>
      rewrite (answer_bind (Storage.SetMetadata env owner name m)),
        (after_bind (Storage.SetMetadata env owner name m));
      pose proof (SetMetadata_eq env owner name m w1) as Es
  end.
  rewrite (bool_decide_eq_true_2 _ Hex1) in Es.
  destruct (write_file_err env _); rewrite Es, answer_mk, after_mk; [discriminate|].
  rewrite after_ret.
  intros _. exists owner, name, meta, (Instance.ID inst), token, key.
  split; [reflexivity|]. split; [symmetry; exact Hans|].
  split; [destruct (Metadata.ReplicaOf meta); [exfalso; apply Hrep; discriminate
                                              | reflexivity]|].
  split; [reflexivity|]. split; [reflexivity|].
  split; [exact Hinst|]. split; [eauto|]. split.
  { rewrite GetMetadata_answer. cbn [repos set_repos]. rewrite lookup_alter_eq.
    destruct Hex1 as [d ->]. reflexivity. }
  split.
  { intros k Hk. cbn [repos set_repos]. rewrite lookup_alter_ne by congruence.
    rewrite Hr. reflexivity. }
  split; [exact Hu | exact Hq].
Qed.


Lemma add_replica_appends_record_witness :
  exists id token key,
    answer (Storage.GetMetadata "alice" "foo"
              (after (Admin.adminAddReplica Examples.env0 "alice/foo" "http://peer"
                        Examples.w_origin)))
    = Ok (Metadata.with_Replicas Examples.origin_meta
            [Replica.Build id "http://peer" token key true zero_time]).
Proof.
  destruct (add_replica_appends_record Examples.env0 "alice/foo" "http://peer"
              Examples.w_origin ltac:(vm_compute; reflexivity))
    as (owner & name & meta & id & token & key & Hs & Hm & _ & _ & _ & _ & _ & Hg & _).
  vm_compute in Hs. injection Hs as <- <-.
  vm_compute in Hm. injection Hm as <-.
  exists id, token, key. exact Hg.
Defined.


End AdminFacts.
